(** * Money-idea generator: scorer, idea generator, ranker and asset pool

    A shallow embedding of [scripts/config.py], [scripts/idea_analyzer.py],
    [scripts/asset_pool.py] and the idea generation of
    [scripts/multi_source_monitor.py], followed by the properties the
    specification states about them and by further properties of the
    code.

    Conventions.
    - Python [int] is [Z]; Python [float] is a primitive binary64 [float].
    - Python [str] is [string], read as the UTF-8 bytes of the text; for
      valid UTF-8 the substring test on bytes is the one on code points.
    - JSON-like run-time data (idea, execution and revenue records, the
      values read from the backing files) is the type [Value]; a [dict]
      with string keys is a [gmap string Value].
    - An uncaught Python exception is the [Raise] outcome of [Result].
    - Calls into the Python library whose text is not part of the
      repository ([str.lower], [json.load], [json.dump], the float
      accumulation of [sum]) are Section variables; concrete instances
      are given for the evaluated examples.
    - The store is embedded twice: [Pool] in a directory that accepts
      every write, [OnDisk] with backing files that may refuse to be
      opened for writing. The operations of [OnDisk] are those of [Pool]
      when nothing is refused. *)

From Stdlib Require Import ZArith QArith Floats Lia Ascii String.
From stdpp Require Import gmap strings list sorting.

Local Open Scope Z_scope.
Local Open Scope string_scope.

(** ** Python strings *)

Module Str.

(** [k in s] on strings: [k] occurs in [s] as a contiguous substring. *)
Fixpoint contains (k s : string) : bool :=
  String.prefix k s ||
  match s with
  | EmptyString => false
  | String _ s' => contains k s'
  end.

(** [any(k in s for k in ks)] *)
Definition any_in (ks : list string) (s : string) : bool :=
  existsb (fun k => contains k s) ks.

(** [x in xs] for a list of strings. *)
Definition mem (x : string) (xs : list string) : bool :=
  existsb (String.eqb x) xs.

(** ASCII lower-casing: the instance of [str.lower] used in the
    evaluated examples (it agrees with Python on ASCII text). *)
Definition ascii_lower_char (c : ascii) : ascii :=
  let n := nat_of_ascii c in
  if ((65 <=? n)%nat && (n <=? 90)%nat)%bool then ascii_of_nat (n + 32) else c.

Fixpoint ascii_lower (s : string) : string :=
  match s with
  | EmptyString => EmptyString
  | String c s' => String (ascii_lower_char c) (ascii_lower s')
  end.

(** [s.split('/')[-1]]: the text after the last ['/'] (all of [s] when
    there is none). *)
Fixpoint last_segment_from (acc s : string) : string :=
  match s with
  | EmptyString => acc
  | String c s' =>
      if Ascii.eqb c "/"%char then last_segment_from EmptyString s'
      else last_segment_from (acc ++ String c EmptyString) s'
  end.

Definition last_segment (s : string) : string := last_segment_from EmptyString s.

End Str.

(** ** Descriptors *)

(** A project descriptor as the collectors build it. Every field is read
    with [project.get(key, default)], so each may be absent. *)
Record Project := {
  p_name : option string;
  p_stars : option Z;
  p_trending_stars : option Z;
  p_language : option string;
  p_description : option string;
  p_url : option string;
}.

Definition with_stars (s : option Z) (p : Project) : Project :=
  {| p_name := p_name p; p_stars := s; p_trending_stars := p_trending_stars p;
     p_language := p_language p; p_description := p_description p; p_url := p_url p |}.

(** ** [IdeaAnalyzer.analyze_potential] *)

Module Scorer.
Section WithLower.

(** [str.lower] *)
Variable lower : string -> string.

(** 1. stars band (at most 30). *)
Definition stars_band (stars : Z) : Z :=
  if stars >? 1000 then 30
  else if stars >? 500 then 25
  else if stars >? 100 then 20
  else if stars >? 50 then 15
  else 10.

(** 2. trending-stars band (at most 25). *)
Definition trending_band (trending_stars : Z) : Z :=
  if trending_stars >? 100 then 25
  else if trending_stars >? 50 then 20
  else if trending_stars >? 20 then 15
  else if trending_stars >? 10 then 10
  else 5.

Definition ai_keywords : list string :=
  ["ai"; "llm"; "gpt"; "chatgpt"; "claude"; "agent"; "openai"; "anthropic"].

Definition hot_languages : list string := ["python"; "typescript"; "rust"; "go"].

(** 3. technology band (at most 20): two independent additions. *)
Definition tech_band (language description : string) : Z :=
  (if Str.any_in ai_keywords description then 15 else 0) +
  (if Str.mem language hot_languages then 5 else 0).

Definition monetization_keywords : list string :=
  ["api"; "sdk"; "cli"; "framework"; "platform"; "tool";
   "automation"; "chatbot"; "assistant"; "dashboard"].

(** 4. monetisation-keyword band (at most 15). *)
Definition monetization_band (description : string) : Z :=
  if Str.any_in monetization_keywords description then 15
  else if Str.any_in ["library"; "package"] description then 10
  else 0.

(** 5. business-model band (at most 10). *)
Definition business_band (description : string) : Z :=
  if Str.contains "saas" description || Str.contains "enterprise" description then 10
  else if Str.contains "api" description || Str.contains "service" description then 7
  else if Str.contains "tool" description || Str.contains "app" description then 5
  else 0.

(** The three tier labels the scorer returns (high, medium, low). *)
Definition potential_high : string := "高".
Definition potential_medium : string := "中".
Definition potential_low : string := "低".

Definition potential_of_score (score : Z) : string :=
  if score >=? 70 then potential_high
  else if score >=? 50 then potential_medium
  else potential_low.

Definition analyze_potential (project : Project) : string * Z :=
  let score := 0 in
  let stars := default 0 (p_stars project) in
  let score := score + stars_band stars in
  let trending_stars := default 0 (p_trending_stars project) in
  let score := score + trending_band trending_stars in
  let language := lower (default "" (p_language project)) in
  let description := lower (default "" (p_description project)) in
  let score := score + tech_band language description in
  let score := score + monetization_band description in
  let score := score + business_band description in
  let potential := potential_of_score score in
  (potential, score).

(** What the four bands other than the stars band add. *)
Definition other_bands (project : Project) : Z :=
  let language := lower (default "" (p_language project)) in
  let description := lower (default "" (p_description project)) in
  trending_band (default 0 (p_trending_stars project))
  + tech_band language description
  + monetization_band description
  + business_band description.

(** *** [IdeaAnalyzer._analyze_suitable_types] *)

Definition consulting_keywords : list string := ["framework"; "platform"; "architecture"].
Definition training_keywords : list string := ["tutorial"; "guide"; "learn"].
Definition customization_keywords : list string := ["enterprise"; "business"; "saas"; "api"].

Definition _analyze_suitable_types (project : Project) : list string :=
  let description := lower (default "" (p_description project)) in
  let stars := default 0 (p_stars project) in
  let suitable : list string := [] in
  let suitable :=
    if stars >? 50 then (suitable ++ ["deployment_service"])%list else suitable in
  let suitable :=
    if Str.any_in consulting_keywords description
    then (suitable ++ ["consulting"])%list else suitable in
  let suitable :=
    if Str.any_in training_keywords description || (stars >? 100)
    then (suitable ++ ["training"])%list else suitable in
  let suitable :=
    if Str.any_in customization_keywords description
    then (suitable ++ ["customization"])%list else suitable in
  match suitable with
  | [] => ["deployment_service"; "training"]
  | _ :: _ => suitable
  end.

End WithLower.
End Scorer.

(** ** Python values *)

Module Py.

(** The exceptions the modelled code can raise. *)
Inductive exn :=
  | KeyError | TypeError | AttributeError | ZeroDivisionError | OverflowError | OSError.

Inductive Result (A : Type) : Type :=
  | Ok (a : A)
  | Raise (e : exn).
Arguments Ok {A} a.
Arguments Raise {A} e.

Definition rbind {A B} (r : Result A) (k : A -> Result B) : Result B :=
  match r with
  | Ok a => k a
  | Raise e => Raise e
  end.

Declare Scope result_scope.
Delimit Scope result_scope with R.
Notation "'let?' x := r 'in' k" := (rbind r (fun x => k))
  (at level 10, x name, r at level 100, k at level 200) : result_scope.

(** [[f(x) for x in xs]], stopping at the first exception. *)
Fixpoint mapR {A B} (f : A -> Result B) (xs : list A) : Result (list B) :=
  match xs with
  | [] => Ok []
  | x :: xs' =>
      rbind (f x) (fun y => rbind (mapR f xs') (fun ys => Ok (y :: ys)))
  end.

(** JSON-like data. *)
#[warnings="-register-all"]
Inductive Value : Type :=
  | VNone
  | VBool (b : bool)
  | VInt (z : Z)
  | VFloat (f : float)
  | VStr (s : string)
  | VList (l : list Value)
  | VDict (d : gmap string Value).

(** [d[k]] on a dict. *)
Definition dict_getitem (d : gmap string Value) (k : string) : Result Value :=
  match d !! k with
  | Some v => Ok v
  | None => Raise KeyError
  end.

(** [v[k]] for a string key [k]: only a dict can be indexed by a string. *)
Definition getitem (v : Value) (k : string) : Result Value :=
  match v with
  | VDict d => dict_getitem d k
  | _ => Raise TypeError
  end.

(** *** Numbers *)

Inductive pynum := PInt (z : Z) | PFloat (f : float).

(** [bool] is a subclass of [int]. *)
Definition as_num (v : Value) : option pynum :=
  match v with
  | VBool b => Some (PInt (Z.b2z b))
  | VInt z => Some (PInt z)
  | VFloat f => Some (PFloat f)
  | _ => None
  end.

Definition num_value (n : pynum) : Value :=
  match n with
  | PInt z => VInt z
  | PFloat f => VFloat f
  end.

(** The mathematical value of a number. Python orders numbers, also an
    [int] against a [float], by this value; a NaN is unordered. *)
Inductive xreal := XNaN | XNegInf | XFin (q : Q) | XPosInf.

Definition SF_exact (x : spec_float) : xreal :=
  match x with
  | S754_zero _ => XFin 0
  | S754_infinity s => if s then XNegInf else XPosInf
  | S754_nan => XNaN
  | S754_finite s m e =>
      XFin (inject_Z (if s then Z.neg m else Z.pos m) * Qpower 2 e)
  end.

Definition exact (n : pynum) : xreal :=
  match n with
  | PInt z => XFin (inject_Z z)
  | PFloat f => SF_exact (Prim2SF f)
  end.

Definition xcompare (a b : xreal) : option comparison :=
  match a, b with
  | XNaN, _ | _, XNaN => None
  | XNegInf, XNegInf => Some Eq
  | XNegInf, _ => Some Lt
  | _, XNegInf => Some Gt
  | XPosInf, XPosInf => Some Eq
  | XPosInf, _ => Some Gt
  | _, XPosInf => Some Lt
  | XFin p, XFin q => Some (Qcompare p q)
  end.

Definition num_compare (a b : pynum) : option comparison :=
  xcompare (exact a) (exact b).

(** [a < b], [a > b], [a <= b], [a == b] *)
Definition num_lt (a b : pynum) : bool :=
  match num_compare a b with Some Lt => true | _ => false end.
Definition num_gt (a b : pynum) : bool := num_lt b a.
Definition num_le (a b : pynum) : bool :=
  match num_compare a b with Some Lt | Some Eq => true | _ => false end.
Definition num_eq (a b : pynum) : bool :=
  match num_compare a b with Some Eq => true | _ => false end.

Definition is_nan (a : pynum) : bool :=
  match exact a with XNaN => true | _ => false end.

(** [max(a, b)] and [min(a, b)]: the first argument is kept unless the
    second is strictly greater (resp. smaller). *)
Definition max2 (a b : pynum) : pynum := if num_gt b a then b else a.
Definition min2 (a b : pynum) : pynum := if num_lt b a then b else a.

(** [max(v, n)] for a run-time value [v] and an [int] literal [n]. *)
Definition max_with_int (v : Value) (n : Z) : Result Value :=
  match as_num v with
  | Some a => Ok (if num_gt (PInt n) a then VInt n else v)
  | None => Raise TypeError
  end.

(** *** True division *)

Definition SF_of_int (z : Z) : spec_float :=
  match z with
  | Z0 => S754_zero false
  | Zpos p => S754_finite false p 0
  | Zneg p => S754_finite true p 0
  end.

(** [float(z)]: round to nearest even, [OverflowError] beyond the range. *)
Definition float_of_int (z : Z) : Result float :=
  match binary_normalize prec emax z 0 false with
  | S754_infinity _ => Raise OverflowError
  | x => Ok (SF2Prim x)
  end.

(** [a / b] on two [int]s: the correctly rounded quotient. *)
Definition int_truediv (a b : Z) : Result float :=
  if (b =? 0)%Z then Raise ZeroDivisionError
  else
    match SFdiv prec emax (SF_of_int a) (SF_of_int b) with
    | S754_infinity _ => Raise OverflowError
    | x => Ok (SF2Prim x)
    end.

Definition float_truediv (x y : float) : Result float :=
  if PrimFloat.eqb y 0 then Raise ZeroDivisionError else Ok (PrimFloat.div x y).

Definition truediv (a b : pynum) : Result float :=
  match a, b with
  | PInt x, PInt y => int_truediv x y
  | PInt x, PFloat y => rbind (float_of_int x) (fun fx => float_truediv fx y)
  | PFloat x, PInt y => rbind (float_of_int y) (fun fy => float_truediv x fy)
  | PFloat x, PFloat y => float_truediv x y
  end.

(** [a / b] on run-time values. *)
Definition v_truediv (a b : Value) : Result float :=
  match as_num a, as_num b with
  | Some x, Some y => truediv x y
  | _, _ => Raise TypeError
  end.

(** *** Equality *)

(** [a == b]. Numbers compare by value across [bool], [int] and [float];
    containers compare element by element. *)
Fixpoint py_eq (a b : Value) {struct a} : bool :=
  match a, b with
  | VNone, VNone => true
  | VStr s, VStr t => String.eqb s t
  | VList l1, VList l2 =>
      (fix all2 (l1 l2 : list Value) : bool :=
         match l1, l2 with
         | [], [] => true
         | x :: l1', y :: l2' => py_eq x y && all2 l1' l2'
         | _, _ => false
         end) l1 l2
  | VDict d1, VDict d2 =>
      (size d1 =? size d2)%nat &&
      map_fold (fun k x acc =>
                  acc && match d2 !! k with Some y => py_eq x y | None => false end)
               true d1
  | VBool x, _ =>
      match as_num b with Some n => num_eq (PInt (Z.b2z x)) n | None => false end
  | VInt x, _ =>
      match as_num b with Some n => num_eq (PInt x) n | None => false end
  | VFloat x, _ =>
      match as_num b with Some n => num_eq (PFloat x) n | None => false end
  | _, _ => false
  end.

(** Truth value of an optional string argument ([None] and [''] are false). *)
Definition truthy (s : option string) : bool :=
  match s with
  | Some (String _ _) => true
  | _ => false
  end.

(** *** [sorted] *)

(** Placing [x] in a list sorted by [lt]: after every element that is
    not greater than it, so equal elements keep their order. *)
Fixpoint insert_by {A} (lt : A -> A -> bool) (x : A) (l : list A) : list A :=
  match l with
  | [] => [x]
  | y :: l' => if lt x y then x :: y :: l' else y :: insert_by lt x l'
  end.

(** A stable ascending sort that only uses [<]. When [<] orders the keys
    (no key is a NaN) every stable sort returns this same list. *)
Definition stable_sort {A} (lt : A -> A -> bool) (l : list A) : list A :=
  foldl (fun acc x => insert_by lt x acc) [] l.

(** [sorted(xs, key=..., reverse=True)] on a list already paired with
    its keys: the list is reversed, sorted stably in ascending key
    order, and reversed again, which keeps equal keys in input order. *)
Definition sorted_reverse {K A} (lt : K -> K -> bool) (keyed : list (K * A)) : list (K * A) :=
  rev (stable_sort (fun a b => lt (fst a) (fst b)) (rev keyed)).

(** *** Order *)

(** [a < b]. Numbers are ordered by value, strings by code point (the
    order of their UTF-8 bytes), lists by the first position at which
    they differ; no other two values are ordered. *)
Fixpoint py_lt (a b : Value) {struct a} : Result bool :=
  match a, b with
  | VStr s, VStr t => Ok (String.ltb s t)
  | VList l1, VList l2 =>
      (fix lex (l1 l2 : list Value) : Result bool :=
         match l1, l2 with
         | [], [] => Ok false
         | [], _ :: _ => Ok true
         | _ :: _, [] => Ok false
         | x :: l1', y :: l2' => if py_eq x y then lex l1' l2' else py_lt x y
         end) l1 l2
  | _, _ =>
      match as_num a, as_num b with
      | Some x, Some y => Ok (num_lt x y)
      | _, _ => Raise TypeError
      end
  end.

Local Open Scope result_scope.

(** [insert_by] with a comparison that can raise. *)
Fixpoint insert_by_checked {A} (lt : A -> A -> Result bool) (x : A) (l : list A)
  : Result (list A) :=
  match l with
  | [] => Ok [x]
  | y :: l' =>
      let? below := lt x y in
      if below then Ok (x :: y :: l')
      else let? placed := insert_by_checked lt x l' in Ok (y :: placed)
  end.

Definition stable_sort_checked {A} (lt : A -> A -> Result bool) (l : list A)
  : Result (list A) :=
  foldl (fun acc x => let? acc := acc in insert_by_checked lt x acc) (Ok []) l.

(** [sorted(xs, key=..., reverse=True)] on keys of any kind. The result
    is that of [sorted] whenever [<] orders the keys; so is the
    [TypeError] when a key is ordered with no other key. *)
Definition sorted_reverse_checked {K A} (lt : K -> K -> Result bool)
    (keyed : list (K * A)) : Result (list (K * A)) :=
  let? l := stable_sort_checked (fun a b => lt (fst a) (fst b)) (rev keyed) in
  Ok (rev l).

(** *** Comprehensions, [dict.get] and slices *)

(** [[x for x in xs if f(x)]] *)
Fixpoint filterR {A} (f : A -> Result bool) (xs : list A) : Result (list A) :=
  match xs with
  | [] => Ok []
  | x :: xs' =>
      let? keep := f x in
      let? rest := filterR f xs' in
      Ok (if keep then x :: rest else rest)
  end.

(** [x.get(key, default)]: only a dict has the method. *)
Definition dict_get (x : Value) (key : string) (dflt : Value) : Result Value :=
  match x with
  | VDict d => Ok (default dflt (d !! key))
  | _ => Raise AttributeError
  end.

(** [xs[:n]]: a negative [n] counts from the end. *)
Definition slice_to {A} (n : Z) (xs : list A) : list A :=
  if (n <? 0)%Z then take (Z.to_nat (Z.of_nat (length xs) + n)) xs
  else take (Z.to_nat n) xs.

(** *** Addition, [len] and dict keys of any kind *)

(** [x + y] on two numbers: exact on [int]s; with a [float] the [int]
    is converted first, which raises [OverflowError] beyond the range. *)
Definition num_add (x y : pynum) : Result pynum :=
  match x, y with
  | PInt a, PInt b => Ok (PInt (a + b))
  | PInt a, PFloat g => let? f := float_of_int a in Ok (PFloat (f + g))
  | PFloat f, PInt b => let? g := float_of_int b in Ok (PFloat (f + g))
  | PFloat f, PFloat g => Ok (PFloat (f + g))
  end.

(** [x + a] for a number [x] and any value [a]. *)
Definition add_to_number (x : pynum) (a : Value) : Result pynum :=
  match as_num a with
  | Some y => num_add x y
  | None => Raise TypeError
  end.

(** The bytes 10xxxxxx continue a character of a UTF-8 text. *)
Definition is_continuation (c : ascii) : bool :=
  (128 <=? nat_of_ascii c)%nat && (nat_of_ascii c <? 192)%nat.

(** The number of characters of a text. *)
Definition code_points (s : string) : nat :=
  length (List.filter (fun c => negb (is_continuation c)) (list_ascii_of_string s)).

(** [len(v)] *)
Definition py_len (v : Value) : Result Z :=
  match v with
  | VList l => Ok (Z.of_nat (length l))
  | VDict d => Ok (Z.of_nat (size d))
  | VStr s => Ok (Z.of_nat (code_points s))
  | _ => Raise TypeError
  end.

(** A list and a dict have no hash, so they cannot be keys of a dict. *)
Definition hashable (v : Value) : bool :=
  match v with
  | VList _ | VDict _ => false
  | _ => true
  end.

(** Two values are the same key of a dict: they are equal, or both are
    the NaN of [json.load], which returns one object for every NaN and
    a dict finds an object again by identity. *)
Definition same_key (a b : Value) : bool :=
  py_eq a b
  || match a, b with
     | VFloat f, VFloat g => is_nan (PFloat f) && is_nan (PFloat g)
     | _, _ => false
     end.

(** A dict whose keys need not be strings, in the order of insertion:
    [d.get(k)] and [d[k] = x]. *)
Fixpoint assoc_get {A} (k : Value) (d : list (Value * A)) : option A :=
  match d with
  | [] => None
  | (k', x) :: d' => if same_key k' k then Some x else assoc_get k d'
  end.

Fixpoint assoc_set {A} (k : Value) (x : A) (d : list (Value * A)) : list (Value * A) :=
  match d with
  | [] => [(k, x)]
  | (k', y) :: d' => if same_key k' k then (k', x) :: d' else (k', y) :: assoc_set k x d'
  end.

End Py.

(** ** [config.py]: the idea templates *)

Module Config.

(** One entry of [IDEA_TEMPLATES]. The name and the description carry
    the placeholder [{project_name}]; cost and income ranges are pairs
    of [int]s, the time range may hold a [float] (0.5 days). *)
Record Template := {
  t_name : string;
  t_description : string;
  t_target_users : list string;
  cost_range : Z * Z;
  income_range : Z * Z;
  time_range : Py.pynum * Py.pynum;
}.

Definition deployment_service : Template := {|
  t_name := "{project_name} 部署服务";
  t_description := "帮助用户部署 {project_name}，提供技术支持";
  t_target_users := ["技术小白"; "企业用户"; "创业者"];
  cost_range := (100, 500);
  income_range := (2000, 10000);
  time_range := (Py.PInt 1, Py.PInt 3);
|}.

Definition consulting : Template := {|
  t_name := "{project_name} 技术咨询";
  t_description := "提供 {project_name} 技术咨询和方案设计";
  t_target_users := ["企业"; "创业者"; "产品经理"];
  cost_range := (0, 100);
  income_range := (5000, 20000);
  time_range := (Py.PFloat 0.5, Py.PInt 2);
|}.

Definition training : Template := {|
  t_name := "{project_name} 培训课程";
  t_description := "制作 {project_name} 使用教程和培训课程";
  t_target_users := ["学习者"; "开发者"; "企业员工"];
  cost_range := (0, 200);
  income_range := (1000, 50000);
  time_range := (Py.PInt 3, Py.PInt 7);
|}.

Definition customization : Template := {|
  t_name := "{project_name} 定制开发";
  t_description := "为用户定制开发基于 {project_name} 的功能";
  t_target_users := ["企业"; "创业者"; "产品团队"];
  cost_range := (500, 2000);
  income_range := (5000, 50000);
  time_range := (Py.PInt 7, Py.PInt 30);
|}.

Definition IDEA_TEMPLATES : gmap string Template :=
  list_to_map
    [("deployment_service", deployment_service);
     ("consulting", consulting);
     ("training", training);
     ("customization", customization)].

(** [tpl.format(project_name=pn)] for a template whose only braces are
    those of the placeholder. *)
Fixpoint format_from (skip : nat) (tpl pn : string) : string :=
  match tpl with
  | EmptyString => EmptyString
  | String c rest =>
      match skip with
      | S k => format_from k rest pn
      | O =>
          if String.prefix "{project_name}" tpl
          then pn ++ format_from 13 rest pn
          else String c (format_from 0 rest pn)
      end
  end.

Definition format_project_name (tpl pn : string) : string := format_from 0 tpl pn.

End Config.

(** ** [IdeaAnalyzer]: generating and ranking ideas *)

Module Generator.
Import Py Config.
Section WithLower.

(** [str.lower] *)
Variable lower : string -> string.

(** The user preferences: a dict whose keys may each be absent. *)
Record Preferences := {
  budget : option Z;
  time_available : option pynum;
  skills : option (list string);
  interests : option (list string);
}.

(** [not preferences]: no dict was given, or an empty one. *)
Definition no_preferences (preferences : option Preferences) : bool :=
  match preferences with
  | None => true
  | Some p =>
      match budget p, time_available p, skills p, interests p with
      | None, None, None, None => true
      | _, _, _, _ => false
      end
  end.

Definition monetizable_skills : list string := ["python"; "ai"; "web"; "javascript"].

Definition _adjust_for_user (template : Template) (preferences : option Preferences)
  : Z * Z * pynum :=
  if no_preferences preferences then
    (fst (cost_range template), fst (income_range template), fst (time_range template))
  else
    let budget := default 1000 (preferences ≫= budget) in
    let cost :=
      Z.min (snd (cost_range template)) (Z.max (fst (cost_range template)) (budget / 2)) in
    let time_available := default (PInt 2) (preferences ≫= time_available) in
    let time_needed :=
      min2 (snd (time_range template)) (max2 (fst (time_range template)) time_available) in
    let skills := default [] (preferences ≫= skills) in
    let income := fst (income_range template) in
    let income :=
      if existsb (fun s => Str.mem (lower s) monetizable_skills) skills
      then (fst (income_range template) + snd (income_range template)) / 2
      else income in
    (cost, income, time_needed).

Definition generate_ideas (project : Project) (user_preferences : option Preferences)
  : list (gmap string Value) :=
  let project_name := Str.last_segment (default "" (p_name project)) in
  let suitable_types := Scorer._analyze_suitable_types lower project in
  flat_map
    (fun idea_type =>
       match IDEA_TEMPLATES !! idea_type with
       | None => []
       | Some template =>
           let '(cost, income, time) := _adjust_for_user template user_preferences in
           [ list_to_map
               [("type", VStr idea_type);
                ("name", VStr (format_project_name (t_name template) project_name));
                ("description",
                  VStr (format_project_name (t_description template) project_name));
                ("target_users", VList (map VStr (t_target_users template)));
                ("cost", VInt cost);
                ("expected_income", VInt income);
                ("time_needed", num_value time);
                ("project", VStr project_name);
                ("project_url", VStr (default "" (p_url project)))] ]
       end)
    suitable_types.

End WithLower.

(** *** [IdeaAnalyzer.rank_ideas] *)

Local Open Scope result_scope.

(** The sort key [get_score] of [rank_ideas]. *)
Definition get_score (idea : gmap string Value) : Result float :=
  let? income := dict_getitem idea "expected_income" in
  let? income_score := v_truediv income (VInt 1000) in
  let? time := dict_getitem idea "time_needed" in
  let? longest := max_with_int time 1 in
  let? time_score := v_truediv (VInt 10) longest in
  let? cost := dict_getitem idea "cost" in
  let? hundreds := v_truediv cost (VInt 100) in
  let? dearest := max_with_int (VFloat hundreds) 1 in
  let? cost_score := v_truediv (VInt 10) dearest in
  Ok (income_score + time_score + cost_score)%float.

(** [<] on two [float] keys. *)
Definition float_lt (a b : float) : bool := num_lt (PFloat a) (PFloat b).

(** [sorted(ideas, key=get_score, reverse=True)]: every key is computed
    first, in order; the second argument of [rank_ideas] is not used. *)
Definition rank_ideas (ideas : list (gmap string Value)) : Result (list (gmap string Value)) :=
  let? keys := mapR get_score ideas in
  Ok (sorted_reverse float_lt (zip keys ideas)).*2.

End Generator.

(** ** [asset_pool.py]: the record store *)

Module Pool.
Import Py.

(** *** Time *)

(** A reading of [datetime.now()]. *)
Record datetime := {
  year : nat; month : nat; day : nat;
  hour : nat; minute : nat; second : nat; microsecond : nat;
}.

Definition digit (n : nat) : ascii := ascii_of_nat (48 + n mod 10).

(** The last [width] decimal digits of [n], zero-padded. *)
Fixpoint zero_pad (width n : nat) : string :=
  match width with
  | O => EmptyString
  | S w => zero_pad w (n / 10) ++ String (digit n) EmptyString
  end.

(** [dt.strftime('%Y%m%d%H%M%S')] *)
Definition strftime (dt : datetime) : string :=
  zero_pad 4 (year dt) ++ zero_pad 2 (month dt) ++ zero_pad 2 (day dt) ++
  zero_pad 2 (hour dt) ++ zero_pad 2 (minute dt) ++ zero_pad 2 (second dt).

(** [dt.isoformat()]: the fraction is printed only when it is not zero. *)
Definition isoformat (dt : datetime) : string :=
  zero_pad 4 (year dt) ++ "-" ++ zero_pad 2 (month dt) ++ "-" ++ zero_pad 2 (day dt) ++
  "T" ++ zero_pad 2 (hour dt) ++ ":" ++ zero_pad 2 (minute dt) ++ ":" ++
  zero_pad 2 (second dt) ++
  match microsecond dt with
  | O => EmptyString
  | S _ => "." ++ zero_pad 6 (microsecond dt)
  end.

(** *** Backing files *)

(** What is found at the path of a backing file: nothing, something
    that cannot be opened or decoded, or a text. *)
Inductive backing := Absent | Unreadable | Content (text : string).

Inductive path := IdeasFile | ExecutionFile | RevenueFile.

Record Disk := {
  ideas_json : backing;
  executions_json : backing;
  revenue_json : backing;
}.

Definition read_file (d : Disk) (p : path) : backing :=
  match p with
  | IdeasFile => ideas_json d
  | ExecutionFile => executions_json d
  | RevenueFile => revenue_json d
  end.

Definition write_file (d : Disk) (p : path) (b : backing) : Disk :=
  match p with
  | IdeasFile =>
      {| ideas_json := b; executions_json := executions_json d; revenue_json := revenue_json d |}
  | ExecutionFile =>
      {| ideas_json := ideas_json d; executions_json := b; revenue_json := revenue_json d |}
  | RevenueFile =>
      {| ideas_json := ideas_json d; executions_json := executions_json d; revenue_json := b |}
  end.

(** *** State *)

(** The [AssetPool] object ([ideas], [executions], [revenues]) together
    with what it acts on: the three backing files and the clock. The
    [n]-th call of [datetime.now()] reads [clock n]. *)
Record State := {
  ideas : Value;
  executions : Value;
  revenues : Value;
  disk : Disk;
  clock : nat -> datetime;
  ticks : nat;
}.

Definition set_ideas (v : Value) (s : State) : State :=
  {| ideas := v; executions := executions s; revenues := revenues s;
     disk := disk s; clock := clock s; ticks := ticks s |}.
Definition set_executions (v : Value) (s : State) : State :=
  {| ideas := ideas s; executions := v; revenues := revenues s;
     disk := disk s; clock := clock s; ticks := ticks s |}.
Definition set_revenues (v : Value) (s : State) : State :=
  {| ideas := ideas s; executions := executions s; revenues := v;
     disk := disk s; clock := clock s; ticks := ticks s |}.
Definition set_disk (d : Disk) (s : State) : State :=
  {| ideas := ideas s; executions := executions s; revenues := revenues s;
     disk := d; clock := clock s; ticks := ticks s |}.
Definition tick (s : State) : State :=
  {| ideas := ideas s; executions := executions s; revenues := revenues s;
     disk := disk s; clock := clock s; ticks := S (ticks s) |}.

(** A method call: it ends in a value or in an exception, and in both
    cases leaves a state behind. *)
Definition M (A : Type) : Type := State -> Result A * State.

Definition ret {A} (a : A) : M A := fun s => (Ok a, s).
Definition raise {A} (e : exn) : M A := fun s => (Raise e, s).
Definition lift {A} (r : Result A) : M A := fun s => (r, s).
Definition bind {A B} (m : M A) (k : A -> M B) : M B :=
  fun s =>
    match m s with
    | (Ok a, s') => k a s'
    | (Raise e, s') => (Raise e, s')
    end.
Definition get {A} (f : State -> A) : M A := fun s => (Ok (f s), s).
Definition modify (f : State -> State) : M unit := fun s => (Ok tt, f s).

Declare Scope pool_scope.
Delimit Scope pool_scope with pool.
Notation "'do' x <- m ; k" := (bind m (fun x => k))
  (at level 10, x name, m at level 100, k at level 200) : pool_scope.
Notation "'run' m ; k" := (bind m (fun _ => k))
  (at level 10, m at level 100, k at level 200) : pool_scope.
Local Open Scope pool_scope.

(** [datetime.now()] *)
Definition datetime_now : M datetime :=
  fun s => (Ok (clock s (ticks s)), tick s).

(** [xs.append(x)]: only a list has the method. *)
Definition append (xs x : Value) : Result Value :=
  match xs with
  | VList l => Ok (VList (l ++ [x]))
  | _ => Raise AttributeError
  end.

(** The elements a [for] loop visits: those of a list, the keys of a
    dict, the characters of a string (both are strings, in an order
    that no use below depends on); anything else is not iterable. *)
Definition iter_elems (v : Value) : Result (list Value) :=
  match v with
  | VList l => Ok l
  | VDict d => Ok (map (fun kv => VStr (fst kv)) (map_to_list d))
  | VStr s => Ok (map (fun c => VStr (String c EmptyString)) (list_ascii_of_string s))
  | _ => Raise TypeError
  end.

Section WithJson.

(** [json.load] on the text of a file ([None] when it raises) and
    [json.dump] to a text. *)
Variable json_load : string -> option Value.
Variable json_dump : Value -> string.

Definition _load_json (file : backing) (default : Value) : Value :=
  match file with
  | Absent => default
  | Unreadable => default
  | Content text =>
      match json_load text with
      | Some data => data
      | None => default
      end
  end.

(** [_save_json] replaces the text of the file. The operating system is
    taken to accept the write: the code has no handler around it, so a
    refused write would end the call in an exception that this model
    does not have. [OnDisk] below has the write that can be refused. *)
Definition _save_json (filepath : path) (data : Value) : M unit :=
  modify (fun s => set_disk (write_file (disk s) filepath (Content (json_dump data))) s).

(** [_load_data] *)
Definition _load_data : M unit :=
  run modify (fun s => set_ideas (_load_json (read_file (disk s) IdeasFile) (VList [])) s);
  run modify (fun s => set_executions (_load_json (read_file (disk s) ExecutionFile) (VList [])) s);
  modify (fun s => set_revenues (_load_json (read_file (disk s) RevenueFile) (VList [])) s).

(** [AssetPool(data_dir)] over the files found in the data directory. *)
Definition new_pool (d : Disk) (clk : nat -> datetime) : State :=
  snd (_load_data {| ideas := VNone; executions := VNone; revenues := VNone;
                     disk := d; clock := clk; ticks := 0 |}).

(** **** Ideas *)

Definition add_idea (idea : gmap string Value) : M string :=
  do now <- datetime_now;
  let idea_id := "idea-" ++ strftime now in
  let idea := <["id" := VStr idea_id]> idea in
  do now <- datetime_now;
  let idea := <["created_at" := VStr (isoformat now)]> idea in
  let idea := <["status" := VStr "pending"]> idea in
  let idea := <["score" := VInt 0]> idea in
  let idea := <["tags" := default (VList []) (idea !! "tags")]> idea in
  do ideas <- get ideas;
  do ideas <- lift (append ideas (VDict idea));
  run modify (set_ideas ideas);
  run _save_json IdeasFile ideas;
  ret idea_id.

Fixpoint get_idea_loop (idea_id : string) (todo : list Value) : Result Value :=
  match todo with
  | [] => Ok VNone
  | idea :: rest =>
      rbind (getitem idea "id") (fun id =>
        if py_eq id (VStr idea_id) then Ok idea else get_idea_loop idea_id rest)
  end.

Definition get_idea (idea_id : string) : M Value :=
  do ideas <- get ideas;
  do elems <- lift (iter_elems ideas);
  lift (get_idea_loop idea_id elems).

(** The loop shared by the operations that act on one record:
    [for x in xs: if x['id'] == wanted: <body>; return True] followed by
    [return False]. [seen] holds the elements already passed; the body
    updates the record found where it stands, between [seen] and the
    elements still to come. *)
Fixpoint for_first_with_id (wanted : Value)
    (body : list Value -> gmap string Value -> list Value -> M unit)
    (seen todo : list Value) : M bool :=
  match todo with
  | [] => ret false
  | x :: rest =>
      do id <- lift (getitem x "id");
      if py_eq id wanted then
        match x with
        | VDict d => run body seen d rest; ret true
        | _ => raise TypeError
        end
      else for_first_with_id wanted body (seen ++ [x]) rest
  end.

(** [status] is a string or [None], [limit] an [int]. *)
Definition list_ideas (status : option string) (limit : Z) : M (list Value) :=
  do ideas <- get ideas;
  do ideas <-
    (if truthy status then
       do elems <- lift (iter_elems ideas);
       do kept <- lift (filterR
                          (fun i => rbind (dict_get i "status" VNone) (fun st =>
                                    Ok (py_eq st (VStr (default "" status)))))
                          elems);
       ret (VList kept)
     else ret ideas);
  do elems <- lift (iter_elems ideas);
  do keys <- lift (mapR (fun x => dict_get x "created_at" (VStr "")) elems);
  do sorted <- lift (sorted_reverse_checked py_lt (zip keys elems));
  ret (slice_to limit sorted.*2).

Definition update_idea_status (idea_id : Value) (status : string) (notes : option string)
  : M bool :=
  do ideas <- get ideas;
  do elems <- lift (iter_elems ideas);
  for_first_with_id idea_id
    (fun seen idea rest =>
       let idea := <["status" := VStr status]> idea in
       do now <- datetime_now;
       let idea := <["updated_at" := VStr (isoformat now)]> idea in
       let idea := if truthy notes then <["notes" := VStr (default "" notes)]> idea else idea in
       let ideas := VList (seen ++ VDict idea :: rest) in
       run modify (set_ideas ideas);
       _save_json IdeasFile ideas)
    [] elems.

(** **** Executions *)

Definition start_execution (idea_id : string) : M string :=
  do now <- datetime_now;
  let exec_id := "exec-" ++ strftime now in
  do now <- datetime_now;
  let execution : gmap string Value :=
    list_to_map
      [("id", VStr exec_id);
       ("idea_id", VStr idea_id);
       ("started_at", VStr (isoformat now));
       ("status", VStr "in_progress");
       ("steps", VList []);
       ("logs", VList [])] in
  do executions <- get executions;
  do executions <- lift (append executions (VDict execution));
  run modify (set_executions executions);
  run _save_json ExecutionFile executions;
  run update_idea_status (VStr idea_id) "in_progress" None;
  ret exec_id.

(** [execution[field].append(entry)] with the entry built from the time
    read: the body of [add_execution_step] and [add_execution_log]. *)
Definition append_entry (field : string) (entry : datetime -> Value)
    (seen : list Value) (execution : gmap string Value) (rest : list Value) : M unit :=
  do entries <- lift (dict_getitem execution field);
  match entries with
  | VList _ =>
      do now <- datetime_now;
      do entries <- lift (append entries (entry now));
      let executions := VList (seen ++ VDict (<[field := entries]> execution) :: rest) in
      run modify (set_executions executions);
      _save_json ExecutionFile executions
  | _ => raise AttributeError
  end.

Definition add_execution_step (exec_id step status : string) : M bool :=
  do executions <- get executions;
  do elems <- lift (iter_elems executions);
  for_first_with_id (VStr exec_id)
    (append_entry "steps"
       (fun now =>
          VDict (list_to_map
                   [("step", VStr step); ("status", VStr status);
                    ("timestamp", VStr (isoformat now))])))
    [] elems.

Definition add_execution_log (exec_id log : string) : M bool :=
  do executions <- get executions;
  do elems <- lift (iter_elems executions);
  for_first_with_id (VStr exec_id)
    (append_entry "logs"
       (fun now =>
          VDict (list_to_map [("log", VStr log); ("timestamp", VStr (isoformat now))])))
    [] elems.

Definition complete_execution (exec_id : string) (success : bool) (notes : option string)
  : M bool :=
  do executions <- get executions;
  do elems <- lift (iter_elems executions);
  for_first_with_id (VStr exec_id)
    (fun seen execution rest =>
       let execution :=
         <["status" := VStr (if success then "success" else "failed")]> execution in
       do now <- datetime_now;
       let execution := <["completed_at" := VStr (isoformat now)]> execution in
       let execution :=
         if truthy notes then <["notes" := VStr (default "" notes)]> execution
         else execution in
       let executions := VList (seen ++ VDict execution :: rest) in
       run modify (set_executions executions);
       run _save_json ExecutionFile executions;
       do idea_id <- lift (dict_getitem execution "idea_id");
       run update_idea_status idea_id (if success then "completed" else "failed") notes;
       ret tt)
    [] elems.

(** **** Revenues *)

Definition add_revenue (idea_id : string) (amount : pynum) (source : string)
    (notes : option string) : M string :=
  do now <- datetime_now;
  let rev_id := "rev-" ++ strftime now in
  do now <- datetime_now;
  let revenue : gmap string Value :=
    list_to_map
      [("id", VStr rev_id);
       ("idea_id", VStr idea_id);
       ("amount", num_value amount);
       ("source", VStr source);
       ("notes", match notes with Some n => VStr n | None => VNone end);
       ("recorded_at", VStr (isoformat now))] in
  do revenues <- get revenues;
  do revenues <- lift (append revenues (VDict revenue));
  run modify (set_revenues revenues);
  run _save_json RevenueFile revenues;
  ret rev_id.

(** **** Sequences of calls *)

(** The operations that change the store, and [get_idea]. *)
Inductive call :=
  | AddIdea (idea : gmap string Value)
  | GetIdea (idea_id : string)
  | UpdateIdeaStatus (idea_id status : string) (notes : option string)
  | StartExecution (idea_id : string)
  | AddExecutionStep (exec_id step status : string)
  | AddExecutionLog (exec_id log : string)
  | CompleteExecution (exec_id : string) (success : bool) (notes : option string)
  | AddRevenue (idea_id : string) (amount : pynum) (source : string) (notes : option string).

(** One call; the value returned is forgotten, an exception is kept. *)
Definition perform (c : call) : M unit :=
  match c with
  | AddIdea idea => run add_idea idea; ret tt
  | GetIdea idea_id => run get_idea idea_id; ret tt
  | UpdateIdeaStatus idea_id status notes =>
      run update_idea_status (VStr idea_id) status notes; ret tt
  | StartExecution idea_id => run start_execution idea_id; ret tt
  | AddExecutionStep exec_id step status => run add_execution_step exec_id step status; ret tt
  | AddExecutionLog exec_id log => run add_execution_log exec_id log; ret tt
  | CompleteExecution exec_id success notes =>
      run complete_execution exec_id success notes; ret tt
  | AddRevenue idea_id amount source notes =>
      run add_revenue idea_id amount source notes; ret tt
  end.

(** The calls in order, stopping at the first exception. *)
Fixpoint perform_all (cs : list call) : M unit :=
  match cs with
  | [] => ret tt
  | c :: cs' => run perform c; perform_all cs'
  end.

End WithJson.

(** **** Statistics *)

Section WithSum.

(** The float that the builtin [sum] returns for numbers of which at
    least one is a [float]; in which order it adds them, and with which
    compensation, depends on the version of the interpreter. *)
Variable float_sum : list pynum -> float.

(** [sum(r['amount'] for r in revenues)]: the amounts are fetched and
    added one by one, starting from the [int] 0. [acc] is the running
    total as plain additions give it: it decides when an addition
    raises, and it is the result as long as it is an [int]. *)
Fixpoint sum_amounts (acc : pynum) (seen : list pynum) (todo : list Value)
  : Result pynum :=
  match todo with
  | [] =>
      Ok match acc with
         | PInt z => PInt z
         | PFloat _ => PFloat (float_sum (rev seen))
         end
  | r :: rest =>
      rbind (getitem r "amount") (fun a =>
        match as_num a with
        | Some y => rbind (num_add acc y) (fun acc => sum_amounts acc (y :: seen) rest)
        | None => Raise TypeError
        end)
  end.

(** [for r in revenues: source = r['source'];
    by_source[source] = by_source.get(source, 0) + r['amount']] *)
Fixpoint by_source_loop (by_source : list (Value * pynum)) (todo : list Value)
  : Result (list (Value * pynum)) :=
  match todo with
  | [] => Ok by_source
  | r :: rest =>
      rbind (getitem r "source") (fun source =>
        if hashable source then
          let so_far := default (PInt 0) (assoc_get source by_source) in
          rbind (getitem r "amount") (fun a =>
            rbind (add_to_number so_far a) (fun amount =>
              by_source_loop (assoc_set source amount by_source) rest))
        else Raise TypeError)
  end.

(** The dict that [get_revenue_stats] returns; the keys of [by_source]
    are the sources, which need not be strings. *)
Record RevenueStats := {
  total : pynum;
  count : Z;
  average : pynum;
  by_source : list (Value * pynum);
}.

Definition get_revenue_stats (idea_id : option string) : M RevenueStats :=
  do revenues <- get revenues;
  do revenues <-
    (if truthy idea_id then
       do elems <- lift (iter_elems revenues);
       do kept <- lift (filterR
                          (fun r => rbind (getitem r "idea_id") (fun id =>
                                    Ok (py_eq id (VStr (default "" idea_id)))))
                          elems);
       ret (VList kept)
     else ret revenues);
  do elems <- lift (iter_elems revenues);
  do total <- lift (sum_amounts (PInt 0) [] elems);
  do count <- lift (py_len revenues);
  do avg <- lift (if (count >? 0)%Z
                  then rbind (truediv total (PInt count)) (fun q => Ok (PFloat q))
                  else Ok (PInt 0));
  do by_source <- lift (by_source_loop [] elems);
  ret {| total := total; count := count; average := avg; by_source := by_source |}.

(** [len([x for x in xs if x.get('status') == status])] *)
Definition count_status (xs : Value) (status : string) : Result Z :=
  rbind (iter_elems xs) (fun elems =>
    rbind (filterR
             (fun x => rbind (dict_get x "status" VNone) (fun st =>
                       Ok (py_eq st (VStr status))))
             elems)
      (fun kept => Ok (Z.of_nat (length kept)))).

(** The dict that [get_overview] returns. *)
Record Overview := {
  idea_stats : gmap string Value;
  success_rate : pynum;
  revenue_stats : RevenueStats;
  exec_stats : gmap string Value;
}.

Definition get_overview : M Overview :=
  do ideas <- get ideas;
  do total <- lift (py_len ideas);
  do pending <- lift (count_status ideas "pending");
  do in_progress <- lift (count_status ideas "in_progress");
  do completed <- lift (count_status ideas "completed");
  do failed <- lift (count_status ideas "failed");
  let idea_stats : gmap string Value :=
    list_to_map
      [("total", VInt total); ("pending", VInt pending); ("in_progress", VInt in_progress);
       ("completed", VInt completed); ("failed", VInt failed)] in
  let finished := (completed + failed)%Z in
  do success_rate <- lift (if (finished >? 0)%Z
                           then rbind (int_truediv completed finished)
                                  (fun q => Ok (PFloat q))
                           else Ok (PInt 0));
  do revenue_stats <- get_revenue_stats None;
  do executions <- get executions;
  do total <- lift (py_len executions);
  do in_progress <- lift (count_status executions "in_progress");
  do success <- lift (count_status executions "success");
  do failed <- lift (count_status executions "failed");
  let exec_stats : gmap string Value :=
    list_to_map
      [("total", VInt total); ("in_progress", VInt in_progress);
       ("success", VInt success); ("failed", VInt failed)] in
  ret {| idea_stats := idea_stats; success_rate := success_rate;
         revenue_stats := revenue_stats; exec_stats := exec_stats |}.

End WithSum.
End Pool.

(** ** [asset_pool.py] when a file may refuse to be written *)

(** [Pool] is the store in a directory that accepts every write. Here the
    operating system may refuse to open a backing file for writing (a
    directory at its path, missing permissions): [open(filepath, 'w')]
    then raises [OSError], which nothing in the store catches. The
    operations that save are the same as in [Pool] but for that write;
    the lookups and the statistics are those of [Pool]. *)
Module OnDisk.
Import Py Pool.
Local Open Scope pool_scope.

Section WithFiles.

(** The paths that cannot be opened for writing. *)
Variable refused : path -> bool.
Variable json_dump : Value -> string.
Variable float_sum : list pynum -> float.

(** [_save_json]: [open] raises before the file is touched, or the file
    gets the new text. A failure after the file was opened (a full
    disk) is not modelled. *)
Definition _save_json (filepath : path) (data : Value) : M unit :=
  if refused filepath then raise OSError
  else modify (fun s => set_disk (write_file (disk s) filepath (Content (json_dump data))) s).

(** [idea] is the caller's dict: [add_idea] sets the five keys in it and
    stores the dict itself. The embedding stores its value, which comes
    to the same as long as the dict is not one that the store already
    holds. *)
Definition add_idea (idea : gmap string Value) : M string :=
  do now <- datetime_now;
  let idea_id := "idea-" ++ strftime now in
  let idea := <["id" := VStr idea_id]> idea in
  do now <- datetime_now;
  let idea := <["created_at" := VStr (isoformat now)]> idea in
  let idea := <["status" := VStr "pending"]> idea in
  let idea := <["score" := VInt 0]> idea in
  let idea := <["tags" := default (VList []) (idea !! "tags")]> idea in
  do ideas <- get ideas;
  do ideas <- lift (append ideas (VDict idea));
  run modify (set_ideas ideas);
  run _save_json IdeasFile ideas;
  ret idea_id.

Definition update_idea_status (idea_id : Value) (status : string) (notes : option string)
  : M bool :=
  do ideas <- get ideas;
  do elems <- lift (iter_elems ideas);
  for_first_with_id idea_id
    (fun seen idea rest =>
       let idea := <["status" := VStr status]> idea in
       do now <- datetime_now;
       let idea := <["updated_at" := VStr (isoformat now)]> idea in
       let idea := if truthy notes then <["notes" := VStr (default "" notes)]> idea else idea in
       let ideas := VList (seen ++ VDict idea :: rest) in
       run modify (set_ideas ideas);
       _save_json IdeasFile ideas)
    [] elems.

Definition start_execution (idea_id : string) : M string :=
  do now <- datetime_now;
  let exec_id := "exec-" ++ strftime now in
  do now <- datetime_now;
  let execution : gmap string Value :=
    list_to_map
      [("id", VStr exec_id);
       ("idea_id", VStr idea_id);
       ("started_at", VStr (isoformat now));
       ("status", VStr "in_progress");
       ("steps", VList []);
       ("logs", VList [])] in
  do executions <- get executions;
  do executions <- lift (append executions (VDict execution));
  run modify (set_executions executions);
  run _save_json ExecutionFile executions;
  run update_idea_status (VStr idea_id) "in_progress" None;
  ret exec_id.

Definition append_entry (field : string) (entry : datetime -> Value)
    (seen : list Value) (execution : gmap string Value) (rest : list Value) : M unit :=
  do entries <- lift (dict_getitem execution field);
  match entries with
  | VList _ =>
      do now <- datetime_now;
      do entries <- lift (append entries (entry now));
      let executions := VList (seen ++ VDict (<[field := entries]> execution) :: rest) in
      run modify (set_executions executions);
      _save_json ExecutionFile executions
  | _ => raise AttributeError
  end.

Definition add_execution_step (exec_id step status : string) : M bool :=
  do executions <- get executions;
  do elems <- lift (iter_elems executions);
  for_first_with_id (VStr exec_id)
    (append_entry "steps"
       (fun now =>
          VDict (list_to_map
                   [("step", VStr step); ("status", VStr status);
                    ("timestamp", VStr (isoformat now))])))
    [] elems.

Definition add_execution_log (exec_id log : string) : M bool :=
  do executions <- get executions;
  do elems <- lift (iter_elems executions);
  for_first_with_id (VStr exec_id)
    (append_entry "logs"
       (fun now =>
          VDict (list_to_map [("log", VStr log); ("timestamp", VStr (isoformat now))])))
    [] elems.

Definition complete_execution (exec_id : string) (success : bool) (notes : option string)
  : M bool :=
  do executions <- get executions;
  do elems <- lift (iter_elems executions);
  for_first_with_id (VStr exec_id)
    (fun seen execution rest =>
       let execution :=
         <["status" := VStr (if success then "success" else "failed")]> execution in
       do now <- datetime_now;
       let execution := <["completed_at" := VStr (isoformat now)]> execution in
       let execution :=
         if truthy notes then <["notes" := VStr (default "" notes)]> execution
         else execution in
       let executions := VList (seen ++ VDict execution :: rest) in
       run modify (set_executions executions);
       run _save_json ExecutionFile executions;
       do idea_id <- lift (dict_getitem execution "idea_id");
       run update_idea_status idea_id (if success then "completed" else "failed") notes;
       ret tt)
    [] elems.

Definition add_revenue (idea_id : string) (amount : pynum) (source : string)
    (notes : option string) : M string :=
  do now <- datetime_now;
  let rev_id := "rev-" ++ strftime now in
  do now <- datetime_now;
  let revenue : gmap string Value :=
    list_to_map
      [("id", VStr rev_id);
       ("idea_id", VStr idea_id);
       ("amount", num_value amount);
       ("source", VStr source);
       ("notes", match notes with Some n => VStr n | None => VNone end);
       ("recorded_at", VStr (isoformat now))] in
  do revenues <- get revenues;
  do revenues <- lift (append revenues (VDict revenue));
  run modify (set_revenues revenues);
  run _save_json RevenueFile revenues;
  ret rev_id.

(** **** Calls *)

(** A call of any of the eleven operations of the store. *)
Inductive call :=
  | AddIdea (idea : gmap string Value)
  | GetIdea (idea_id : string)
  | ListIdeas (status : option string) (limit : Z)
  | UpdateIdeaStatus (idea_id status : string) (notes : option string)
  | StartExecution (idea_id : string)
  | AddExecutionStep (exec_id step status : string)
  | AddExecutionLog (exec_id log : string)
  | CompleteExecution (exec_id : string) (success : bool) (notes : option string)
  | AddRevenue (idea_id : string) (amount : pynum) (source : string) (notes : option string)
  | GetRevenueStats (idea_id : option string)
  | GetOverview.

(** What a call returns. *)
Inductive answer :=
  | Id (id : string)
  | Flag (done : bool)
  | Record_ (record : Value)
  | Records (records : list Value)
  | Stats (stats : RevenueStats)
  | Summary (overview : Overview).

Definition perform (c : call) : M answer :=
  match c with
  | AddIdea idea => do id <- add_idea idea; ret (Id id)
  | GetIdea idea_id => do idea <- get_idea idea_id; ret (Record_ idea)
  | ListIdeas status limit => do ideas <- list_ideas status limit; ret (Records ideas)
  | UpdateIdeaStatus idea_id status notes =>
      do done <- update_idea_status (VStr idea_id) status notes; ret (Flag done)
  | StartExecution idea_id => do id <- start_execution idea_id; ret (Id id)
  | AddExecutionStep exec_id step status =>
      do done <- add_execution_step exec_id step status; ret (Flag done)
  | AddExecutionLog exec_id log => do done <- add_execution_log exec_id log; ret (Flag done)
  | CompleteExecution exec_id success notes =>
      do done <- complete_execution exec_id success notes; ret (Flag done)
  | AddRevenue idea_id amount source notes =>
      do id <- add_revenue idea_id amount source notes; ret (Id id)
  | GetRevenueStats idea_id => do stats <- get_revenue_stats float_sum idea_id; ret (Stats stats)
  | GetOverview => do overview <- get_overview float_sum; ret (Summary overview)
  end.

(** The calls in order, stopping at the first exception. *)
Fixpoint perform_all (cs : list call) : M (list answer) :=
  match cs with
  | [] => ret []
  | c :: cs' =>
      do a <- perform c;
      do rest <- perform_all cs';
      ret (a :: rest)
  end.


End WithFiles.
End OnDisk.

(** ** [multi_source_monitor.py]: ideas from hot content *)

Module HotTopics.
Section WithLower.

(** [str.lower] *)
Variable lower : string -> string.

(** An item of hot content as the collectors build it; the functions
    below read every field with [item.get(key, default)] and never look
    at the metrics. *)
Record HotItem := {
  h_source : option string;
  h_title : option string;
  h_description : option string;
  h_url : option string;
  h_metrics : gmap string Z;
  h_tags : option (list string);
}.

(** The idea built from an item. *)
Record HotIdea := {
  i_source : string;
  i_title : string;
  i_description : string;
  i_url : string;
  i_potential : Z;
  i_tags : list string;
}.

Definition money_keywords : list string :=
  ["赚钱"; "副业"; "创业"; "变现"; "商业化"; "盈利"].
Definition ai_keywords : list string := ["ai"; "人工智能"; "gpt"; "agent"; "自动化"].
Definition tool_keywords : list string := ["工具"; "平台"; "系统"; "软件"; "app"].

(** [for k in keywords: if k in text: score += points] *)
Definition add_points (points : Z) (keywords : list string) (text : string) (score : Z) : Z :=
  fold_left (fun score k => if Str.contains k text then score + points else score)
    keywords score.

Definition _analyze_potential (item : HotItem) : Z :=
  let score := 0 in
  let title := lower (default "" (h_title item)) in
  let desc := lower (default "" (h_description item)) in
  let text := title ++ " " ++ desc in
  let score := add_points 20 money_keywords text score in
  let score := add_points 15 ai_keywords text score in
  let score := add_points 10 tool_keywords text score in
  let source := default "" (h_source item) in
  let score :=
    if String.eqb source "github" then score + 15
    else if String.eqb source "bilibili" then score + 10
    else score in
  Z.min score 100.

(** The ideas of the items of one source, before sorting. *)
Definition ideas_of_source (source : string) (items : list HotItem) : list HotIdea :=
  flat_map
    (fun item =>
       let potential := _analyze_potential item in
       if potential >? 0 then
         [ {| i_source := source;
              i_title := default "" (h_title item);
              i_description := default "" (h_description item);
              i_url := default "" (h_url item);
              i_potential := potential;
              i_tags := default [] (h_tags item) |} ]
       else [])
    items.

(** [hot_data] is a dict from a source to its items, visited in the
    order of insertion; [ideas.sort(key=..., reverse=True)] sorts as
    [sorted] does. *)
Definition generate_ideas_from_hot (hot_data : list (string * list HotItem)) : list HotIdea :=
  let ideas := flat_map (fun entry => ideas_of_source (fst entry) (snd entry)) hot_data in
  let ideas :=
    (Py.sorted_reverse Z.ltb (map (fun idea => (i_potential idea, idea)) ideas)).*2 in
  take 10 ideas.

End WithLower.
End HotTopics.

(** * Vocabulary of the properties *)

(** Neither is smaller than the other. *)
Definition tied {A} (lt : A -> A -> bool) (a b : A) : bool :=
  negb (lt a b) && negb (lt b a).

(** [a] may stand before [b] in ascending order, in descending order. *)
Definition ascending {A} (lt : A -> A -> bool) (a b : A) : Prop := lt b a = false.
Definition descending {A} (lt : A -> A -> bool) (a b : A) : Prop := lt a b = false.

(** The idea has a score, and it equals [k]. *)
Definition has_score (k : float) (idea : gmap string Py.Value) : bool :=
  match Generator.get_score idea with
  | Py.Ok s => Py.num_eq (Py.PFloat s) (Py.PFloat k)
  | Py.Raise _ => false
  end.

(** [a] may stand before [b]: both have a score and that of [b] is not
    greater. *)
Definition score_not_below (a b : gmap string Py.Value) : Prop :=
  exists ka kb,
    Generator.get_score a = Py.Ok ka /\ Generator.get_score b = Py.Ok kb /\ Py.num_le (Py.PFloat kb) (Py.PFloat ka) = true.

Definition real_key {A} (x : float * A) : Prop := Py.is_nan (Py.PFloat (fst x)) = false.
Definition keyed_by_score (x : float * gmap string Py.Value) : Prop :=
  Generator.get_score (snd x) = Py.Ok (fst x).
Definition key_lt {A} (a b : float * A) : bool := Generator.float_lt (fst a) (fst b).

(** What the search of [for_first_with_id] comes to: no record with the
    wanted id, the first such record with the elements around it, or the
    exception raised on the way. *)
Inductive found :=
  | NotFound
  | Found (before : list Py.Value) (d : gmap string Py.Value) (after : list Py.Value)
  | Failed (e : Py.exn).

Fixpoint find_by_id (wanted : Py.Value) (todo : list Py.Value) : found :=
  match todo with
  | [] => NotFound
  | x :: rest =>
      match Py.getitem x "id" with
      | Py.Raise e => Failed e
      | Py.Ok id =>
          if Py.py_eq id wanted then
            match x with
            | Py.VDict d => Found [] d rest
            | _ => Failed Py.TypeError
            end
          else
            match find_by_id wanted rest with
            | Found before d after => Found (x :: before) d after
            | other => other
            end
      end
  end.

(** [x['id'] == wanted] holds. *)
Definition id_matches (wanted x : Py.Value) : bool :=
  match Py.getitem x "id" with
  | Py.Ok id => Py.py_eq id wanted
  | Py.Raise _ => false
  end.

(** [x] is a record whose id is not the wanted one. *)
Definition other_record (wanted x : Py.Value) : Prop :=
  exists id, Py.getitem x "id" = Py.Ok id /\ Py.py_eq id wanted = false.

(** The field [k] of a record ([None] when absent or not a record). *)
Definition field (k : string) (x : Py.Value) : option Py.Value :=
  match x with
  | Py.VDict d => d !! k
  | _ => None
  end.

(** The idea record after [update_idea_status] at time [now]. *)
Definition updated_idea (status : string) (notes : option string) (now : Pool.datetime)
    (idea : gmap string Py.Value) : gmap string Py.Value :=
  let idea := <["status" := Py.VStr status]> idea in
  let idea := <["updated_at" := Py.VStr (Pool.isoformat now)]> idea in
  if Py.truthy notes then <["notes" := Py.VStr (default "" notes)]> idea else idea.

(** The execution record after [complete_execution] at time [now]. *)
Definition completed_execution (success : bool) (notes : option string) (now : Pool.datetime)
    (execution : gmap string Py.Value) : gmap string Py.Value :=
  let execution :=
    <["status" := Py.VStr (if success then "success" else "failed")]> execution in
  let execution := <["completed_at" := Py.VStr (Pool.isoformat now)]> execution in
  if Py.truthy notes then <["notes" := Py.VStr (default "" notes)]> execution else execution.

(** The execution record [start_execution] creates. *)
Definition started_execution (exec_id idea_id : string) (now : Pool.datetime)
    : gmap string Py.Value :=
  list_to_map
    [("id", Py.VStr exec_id);
     ("idea_id", Py.VStr idea_id);
     ("started_at", Py.VStr (Pool.isoformat now));
     ("status", Py.VStr "in_progress");
     ("steps", Py.VList []);
     ("logs", Py.VList [])].

(** The idea record [add_idea] stores, from the two times it reads. *)
Definition stored_idea (idea : gmap string Py.Value) (now1 now2 : Pool.datetime)
    : gmap string Py.Value :=
  let idea := <["id" := Py.VStr ("idea-" ++ Pool.strftime now1)]> idea in
  let idea := <["created_at" := Py.VStr (Pool.isoformat now2)]> idea in
  let idea := <["status" := Py.VStr "pending"]> idea in
  let idea := <["score" := Py.VInt 0]> idea in
  <["tags" := default (Py.VList []) (idea !! "tags")]> idea.

(** The revenue record [add_revenue] stores. *)
Definition stored_revenue (idea_id : string) (amount : Py.pynum) (source : string)
    (notes : option string) (now1 now2 : Pool.datetime) : gmap string Py.Value :=
  list_to_map
    [("id", Py.VStr ("rev-" ++ Pool.strftime now1));
     ("idea_id", Py.VStr idea_id);
     ("amount", Py.num_value amount);
     ("source", Py.VStr source);
     ("notes", match notes with Some n => Py.VStr n | None => Py.VNone end);
     ("recorded_at", Py.VStr (Pool.isoformat now2))].

(** The status and the completion time of an execution record. *)
Definition status_view (x : Py.Value) : option Py.Value * option Py.Value :=
  (field "status" x, field "completed_at" x).









(** [x'] is [x], or the record [x] with changes under the given keys
    only. *)
Definition same_but (keys : list string) (x x' : Py.Value) : Prop :=
  x' = x
  \/ exists d d', x = Py.VDict d /\ x' = Py.VDict d'
                  /\ forall k, k ∉ keys -> d' !! k = d !! k.

(** Every element of the list [v] is still at its place in [v'], changed
    under the given keys at most. *)
Definition kept_but (keys : list string) (v v' : Py.Value) : Prop :=
  forall l i x,
    v = Py.VList l -> l !! i = Some x ->
    exists l' x', v' = Py.VList l' /\ l' !! i = Some x' /\ same_but keys x x'.



(** The order in which [_analyze_suitable_types] considers the ways to
    earn. *)
Definition catalogue_order : list string :=
  ["deployment_service"; "consulting"; "training"; "customization"].










(** The ideas of hot content that qualify, in the order in which
    [generate_ideas_from_hot] meets them. *)
Definition candidates (lower : string -> string)
    (hot_data : list (string * list HotTopics.HotItem)) : list HotTopics.HotIdea :=
  flat_map (fun entry => HotTopics.ideas_of_source lower (fst entry) (snd entry)) hot_data.

(** [a] is ranked no lower than [b]. *)
Definition outranks (a b : HotTopics.HotIdea) : Prop :=
  HotTopics.i_potential b <= HotTopics.i_potential a.

(** The order of keyed ideas that [generate_ideas_from_hot] sorts by. *)
Definition by_potential (a b : Z * HotTopics.HotIdea) : bool := Z.ltb (fst a) (fst b).

(** The idea that an item of hot content gives under a source. *)
Definition idea_of_item (lower : string -> string) (source : string)
    (item : HotTopics.HotItem) : HotTopics.HotIdea :=
  {| HotTopics.i_source := source;
     HotTopics.i_title := default "" (HotTopics.h_title item);
     HotTopics.i_description := default "" (HotTopics.h_description item);
     HotTopics.i_url := default "" (HotTopics.h_url item);
     HotTopics.i_potential := HotTopics._analyze_potential lower item;
     HotTopics.i_tags := default [] (HotTopics.h_tags item) |}.

(** A record whose creation time, when it has one, is a string. *)
Definition dated (x : Py.Value) : Prop :=
  exists d, x = Py.VDict d
    /\ (d !! "created_at" = None \/ exists t, d !! "created_at" = Some (Py.VStr t)).

(** The creation time that [list_ideas] sorts a dated record by. *)
Definition created_at (x : Py.Value) : string :=
  match field "created_at" x with
  | Some (Py.VStr t) => t
  | _ => ""
  end.

Definition created_before (a b : Py.Value) : bool :=
  String.ltb (created_at a) (created_at b).

Definition has_status (status : string) (x : Py.Value) : bool :=
  match field "status" x with
  | Some v => Py.py_eq v (Py.VStr status)
  | None => false
  end.

(** The records that [list_ideas] lists for a [status] argument. *)
Definition selected (status : option string) (l : list Py.Value) : list Py.Value :=
  if Py.truthy status then List.filter (has_status (default "" status)) l else l.

(** The order of two strings used as sort keys. *)
Definition str_key_lt (u v : Py.Value) : bool :=
  match u, v with
  | Py.VStr s, Py.VStr t => String.ltb s t
  | _, _ => false
  end.


(** An element paired with its sort key, and the order of two elements
    by their keys. *)
Definition with_key {K A} (key : A -> K) (x : A) : K * A := (key x, x).
Definition by_key {K A} (ltK : K -> K -> bool) (key : A -> K) (a b : A) : bool :=
  ltK (key a) (key b).

(** * Sample data *)

Section Scenarios.
Import Py Config Generator Pool.
Local Open Scope list_scope.

(** A reader that knows the empty array only, and a writer that tells an
    empty list from any other value. *)
Definition sample_json_load (text : string) : option Value :=
  if String.eqb text "[]" then Some (VList []) else None.

(** A reader that also knows the empty object. *)
Definition object_json_load (text : string) : option Value :=
  if String.eqb text "{}" then Some (VDict ∅) else sample_json_load text.

Definition sample_json_dump (data : Value) : string :=
  match data with
  | VList [] => "[]"
  | _ => "[...]"
  end.

(** A clock that advances by one second at every reading. *)
Definition sample_clock (n : nat) : datetime :=
  {| year := 2026; month := 11; day := 4; hour := 7; minute := 24;
     second := n; microsecond := 42 |}.

Definition empty_disk : Disk :=
  {| ideas_json := Absent; executions_json := Absent; revenue_json := Absent |}.

Definition fresh_pool : State := new_pool sample_json_load empty_disk sample_clock.

(** An idea that already carries a score and a status. *)
Definition scored_idea : gmap string Value :=
  list_to_map
    [("name", VStr "deployment"); ("score", VInt 85); ("status", VStr "completed");
     ("tags", VList [VStr "AI"])].

Definition after_calls (cs : list call) : State :=
  snd (perform_all sample_json_dump cs fresh_pool).

(** The status and completion time of every execution of a state. *)
Definition execution_views (s : State) : list (option Value * option Value) :=
  match executions s with
  | VList l => map status_view l
  | _ => []
  end.

(** The status and the time of the last update of every idea of a state. *)
Definition idea_views (s : State) : list (option Value * option Value) :=
  match ideas s with
  | VList l => map (fun x => (field "status" x, field "updated_at" x)) l
  | _ => []
  end.

Definition started : list call :=
  [AddIdea scored_idea; StartExecution "idea-20261104072400"].

Definition completed_once : list call :=
  started ++ [CompleteExecution "exec-20261104072402" true None].

Definition completed_twice : list call :=
  completed_once ++ [CompleteExecution "exec-20261104072402" false None].

(** Three ideas for the ranker; the second and the third tie. *)
Definition idea_a : gmap string Value :=
  list_to_map
    [("name", VStr "A"); ("expected_income", VInt 10000); ("time_needed", VInt 1);
     ("cost", VInt 100)].
Definition idea_b : gmap string Value :=
  list_to_map
    [("name", VStr "B"); ("expected_income", VInt 1000); ("time_needed", VInt 1);
     ("cost", VInt 100)].
Definition idea_c : gmap string Value :=
  list_to_map
    [("name", VStr "C"); ("expected_income", VInt 1000); ("time_needed", VInt 1);
     ("cost", VInt 100)].

(** Preferences with a very large budget and no time at all, and with no
    budget. *)
Definition rich_and_busy : option Preferences :=
  Some {| budget := Some 1000000; time_available := Some (PInt 0);
          skills := Some ["Python"]; interests := None |}.
Definition penniless : option Preferences :=
  Some {| budget := Some 0; time_available := Some (PInt 1000000);
          skills := None; interests := None |}.


(** The store after one idea was added and an execution started on it. *)
Definition the_idea : gmap string Value :=
  updated_idea "in_progress" None (sample_clock 4)
    (stored_idea scored_idea (sample_clock 0) (sample_clock 1)).

Definition the_execution : gmap string Value :=
  started_execution "exec-20261104072402" "idea-20261104072400" (sample_clock 3).

(** A clock that advances by one second every four readings, and a new
    pool that reads it. *)
Definition slow_clock (n : nat) : datetime :=
  {| year := 2026; month := 11; day := 4; hour := 7; minute := 24;
     second := Nat.div n 4; microsecond := n |}.

Definition slow_pool : State := new_pool sample_json_load empty_disk slow_clock.

(** The idea that [add_idea] stores first in a new pool. *)
Definition first_idea : gmap string Value :=
  stored_idea scored_idea (sample_clock 0) (sample_clock 1).

(** A collection that holds a record without an id, and one that holds
    a string. *)
Definition nameless_pool : State := set_ideas (VList [VDict ∅]) fresh_pool.
Definition stray_pool : State := set_ideas (VList [VStr "note"]) fresh_pool.

(** A data directory whose ideas file holds an object. *)
Definition object_disk : Disk :=
  {| ideas_json := Content "{}"; executions_json := Absent; revenue_json := Absent |}.





End Scenarios.

(** * Properties *)

(** ** The scorer *)

Section ScorerFacts.
Import Scorer.

Variable lower : string -> string.

Lemma stars_band_cases (stars : Z) :
  (1000 < stars -> stars_band stars = 30)
  /\ (500 < stars <= 1000 -> stars_band stars = 25)
  /\ (100 < stars <= 500 -> stars_band stars = 20)
  /\ (50 < stars <= 100 -> stars_band stars = 15)
  /\ (stars <= 50 -> stars_band stars = 10).
Proof.
  unfold stars_band.
  repeat match goal with |- context [?a >? ?b] => destruct (Z.gtb_spec a b) end;
    repeat split; intros; lia.
Qed.

Lemma other_bands_ignore_stars (s : option Z) (project : Project) :
  other_bands lower (with_stars s project) = other_bands lower project.
Proof. reflexivity. Qed.

(** C3. The score is the stars band plus what the other four bands add,
    and those do not read the stars; the stars band is 30 above 1000
    stars, 25 in (500,1000] (so 25 at exactly 1000), 20 in (100,500],
    15 in (50,100] and 10 otherwise. *)
Theorem stars_band_contribution (project : Project) :
  let stars := default 0 (p_stars project) in
  snd (analyze_potential lower project) = stars_band stars + other_bands lower project
  /\ (forall s, other_bands lower (with_stars s project) = other_bands lower project)
  /\ (1000 < stars -> stars_band stars = 30)
  /\ (500 < stars <= 1000 -> stars_band stars = 25)
  /\ (100 < stars <= 500 -> stars_band stars = 20)
  /\ (50 < stars <= 100 -> stars_band stars = 15)
  /\ (stars <= 50 -> stars_band stars = 10)
  /\ stars_band 1000 = 25.
Proof.
  intros stars. split; [| split; [| split_and!]].
  - unfold analyze_potential, other_bands. simpl. fold stars. lia.
  - intros s. apply other_bands_ignore_stars.
  - apply stars_band_cases.
  - apply stars_band_cases.
  - apply stars_band_cases.
  - apply stars_band_cases.
  - apply stars_band_cases.
  - reflexivity.
Qed.

Lemma potential_labels_distinct :
  potential_high <> potential_medium
  /\ potential_high <> potential_low
  /\ potential_medium <> potential_low.
Proof. repeat split; discriminate. Qed.

Lemma potential_of_score_cases (score : Z) :
  (potential_of_score score = potential_high <-> 70 <= score)
  /\ (potential_of_score score = potential_medium <-> 50 <= score < 70)
  /\ (potential_of_score score = potential_low <-> score < 50).
Proof.
  destruct potential_labels_distinct as (Hhm & Hhl & Hml).
  unfold potential_of_score.
  destruct (Z.geb_spec score 70); [| destruct (Z.geb_spec score 50)];
    repeat split; intros; try lia; try congruence.
Qed.

(** C4. The tier returned with a score is high exactly when the score
    is at least 70, medium exactly when it is in [50,70), low exactly
    when it is below 50; the tier of 70 is high, of 69 and 50 medium,
    of 49 low. *)
Theorem potential_tier_boundaries (project : Project) :
  let tier := fst (analyze_potential lower project) in
  let score := snd (analyze_potential lower project) in
  tier = potential_of_score score
  /\ (tier = potential_high <-> 70 <= score)
  /\ (tier = potential_medium <-> 50 <= score < 70)
  /\ (tier = potential_low <-> score < 50)
  /\ potential_of_score 70 = potential_high
  /\ potential_of_score 69 = potential_medium
  /\ potential_of_score 50 = potential_medium
  /\ potential_of_score 49 = potential_low.
Proof.
  intros tier score.
  assert (Htier : tier = potential_of_score score) by reflexivity.
  rewrite Htier. split; [reflexivity |].
  split; [apply potential_of_score_cases |].
  split; [apply potential_of_score_cases |].
  split; [apply potential_of_score_cases |].
  repeat split.
Qed.

(** C6. [_analyze_suitable_types] never returns the empty list; with 10
    stars and a description that has none of the keywords of the three
    keyword rules it returns deployment_service and training. *)
Theorem suitable_types_nonempty (project : Project) :
  _analyze_suitable_types lower project <> []
  /\ (let description := lower (default "" (p_description project)) in
      p_stars project = Some 10 ->
      Str.any_in consulting_keywords description = false ->
      Str.any_in training_keywords description = false ->
      Str.any_in customization_keywords description = false ->
      _analyze_suitable_types lower project = ["deployment_service"; "training"]).
Proof.
  split.
  - unfold _analyze_suitable_types.
    match goal with |- match ?l with _ => _ end <> _ => destruct l eqn:E end; discriminate.
  - intros description Hstars Hc Ht Hz.
    unfold _analyze_suitable_types. fold description.
    rewrite Hstars, Hc, Ht, Hz. reflexivity.
Qed.

End ScorerFacts.

(** ** The order on numbers *)

Section NumberOrder.
Import Py.

Lemma Qcompare_not_Lt (p q : Q) : Qcompare p q <> Lt <-> Qle q p.
Proof.
  rewrite <- Qlt_alt. split.
  - apply Qnot_lt_le.
  - intros Hle Hlt. exact (Qlt_not_le _ _ Hlt Hle).
Qed.

Lemma xcompare_refl (a : xreal) : a <> XNaN -> xcompare a a = Some Eq.
Proof.
  destruct a; simpl; try congruence. intros _.
  f_equal. apply Qeq_alt. reflexivity.
Qed.

Lemma xcompare_lt_trans (a b c : xreal) :
  xcompare a b = Some Lt -> xcompare b c = Some Lt -> xcompare a c = Some Lt.
Proof.
  destruct a, b, c; simpl; try congruence.
  intros H1 H2. f_equal. apply Qlt_alt.
  injection H1 as H1. injection H2 as H2.
  apply Qlt_alt in H1. apply Qlt_alt in H2.
  eapply Qlt_trans; eassumption.
Qed.

Lemma xcompare_not_lt_trans (a b c : xreal) :
  a <> XNaN -> b <> XNaN -> c <> XNaN ->
  xcompare a b <> Some Lt -> xcompare b c <> Some Lt -> xcompare a c <> Some Lt.
Proof.
  destruct a, b, c; simpl; try congruence.
  intros _ _ _ H1 H2 H3.
  assert (Hba : Qle q0 q) by (apply Qcompare_not_Lt; congruence).
  assert (Hcb : Qle q1 q0) by (apply Qcompare_not_Lt; congruence).
  injection H3 as H3. apply Qlt_alt in H3.
  apply (Qlt_not_le _ _ H3). eapply Qle_trans; eassumption.
Qed.

Lemma xcompare_lt_asym (a b : xreal) :
  xcompare a b = Some Lt -> xcompare b a <> Some Lt.
Proof.
  destruct a, b; simpl; try congruence.
  intros H1 H2. injection H1 as H1. injection H2 as H2.
  apply Qlt_alt in H1. apply Qlt_alt in H2.
  exact (Qlt_irrefl _ (Qlt_trans _ _ _ H1 H2)).
Qed.

Lemma xcompare_eq_sym (a b : xreal) :
  xcompare a b = Some Eq -> xcompare b a = Some Eq.
Proof.
  destruct a, b; simpl; try congruence.
  intros H. injection H as H. f_equal.
  apply Qeq_alt. symmetry. apply Qeq_alt. exact H.
Qed.

Lemma xcompare_total (a b : xreal) :
  a <> XNaN -> b <> XNaN ->
  xcompare a b = Some Lt \/ xcompare a b = Some Eq \/ xcompare b a = Some Lt.
Proof.
  destruct a, b; simpl; try congruence; auto.
  intros _ _. destruct (Qcompare q q0) eqn:E; auto.
  right. right. f_equal. apply Qlt_alt. apply Qgt_alt in E. exact E.
Qed.

(** Order facts on Python numbers, in the Boolean form the code uses. *)

Lemma num_lt_le (a b : pynum) : num_lt a b = true -> num_le a b = true.
Proof. unfold num_lt, num_le. destruct (num_compare a b) as [[]|]; congruence. Qed.

Lemma num_le_not_nan (a b : pynum) :
  num_le a b = true -> is_nan a = false /\ is_nan b = false.
Proof.
  unfold num_le, num_compare, is_nan.
  destruct (exact a), (exact b); simpl; try discriminate; auto.
Qed.

Lemma num_le_refl (a : pynum) : is_nan a = false -> num_le a a = true.
Proof.
  unfold num_le, num_compare, is_nan. intros H.
  rewrite xcompare_refl; [reflexivity |]. destruct (exact a); congruence.
Qed.

Lemma num_lt_irrefl (a : pynum) : num_lt a a = false.
Proof.
  unfold num_lt, num_compare.
  destruct (xcompare (exact a) (exact a)) as [[]|] eqn:E; try reflexivity.
  exfalso. exact (xcompare_lt_asym _ _ E E).
Qed.

Lemma num_lt_trans (a b c : pynum) :
  num_lt a b = true -> num_lt b c = true -> num_lt a c = true.
Proof.
  unfold num_lt, num_compare. intros H1 H2.
  destruct (xcompare (exact a) (exact b)) as [[]|] eqn:E1; try discriminate.
  destruct (xcompare (exact b) (exact c)) as [[]|] eqn:E2; try discriminate.
  rewrite (xcompare_lt_trans _ _ _ E1 E2). reflexivity.
Qed.

Lemma num_lt_false_iff (a b : pynum) :
  num_lt a b = false <-> num_compare a b <> Some Lt.
Proof.
  unfold num_lt. destruct (num_compare a b) as [[]|]; split; congruence.
Qed.

Lemma num_not_lt_trans (a b c : pynum) :
  is_nan a = false -> is_nan b = false -> is_nan c = false ->
  num_lt a b = false -> num_lt b c = false -> num_lt a c = false.
Proof.
  rewrite !num_lt_false_iff. unfold is_nan, num_compare. intros Ha Hb Hc.
  apply xcompare_not_lt_trans.
  - destruct (exact a); congruence.
  - destruct (exact b); congruence.
  - destruct (exact c); congruence.
Qed.

Lemma num_not_lt_le (a b : pynum) :
  is_nan a = false -> is_nan b = false -> num_lt a b = false -> num_le b a = true.
Proof.
  unfold num_lt, num_le, num_compare, is_nan. intros Ha Hb.
  destruct (xcompare_total (exact a) (exact b)) as [H | [H | H]].
  - destruct (exact a); congruence.
  - destruct (exact b); congruence.
  - rewrite H. discriminate.
  - rewrite (xcompare_eq_sym _ _ H). reflexivity.
  - rewrite H. reflexivity.
Qed.

Lemma num_eq_iff (a b : pynum) :
  is_nan a = false -> is_nan b = false ->
  num_eq a b = negb (num_lt a b) && negb (num_lt b a).
Proof.
  unfold num_eq, num_lt, num_compare, is_nan. intros Ha Hb.
  destruct (xcompare_total (exact a) (exact b)) as [H | [H | H]].
  - destruct (exact a); congruence.
  - destruct (exact b); congruence.
  - rewrite H. reflexivity.
  - rewrite H, (xcompare_eq_sym _ _ H). reflexivity.
  - rewrite H. simpl.
    destruct (xcompare (exact a) (exact b)) as [[]|] eqn:E; try reflexivity.
    apply xcompare_eq_sym in E. congruence.
Qed.

(** [min(hi, max(lo, x))] is within [[lo, hi]] whenever [lo <= hi]. *)
Lemma clamp_in_range (lo hi x : pynum) :
  num_le lo hi = true ->
  num_le lo (min2 hi (max2 lo x)) = true /\ num_le (min2 hi (max2 lo x)) hi = true.
Proof.
  intros Hle. destruct (num_le_not_nan _ _ Hle) as [Hlo Hhi].
  unfold min2, max2, num_gt.
  destruct (num_lt lo x) eqn:E1.
  - destruct (num_lt x hi) eqn:E2.
    + split; apply num_lt_le; assumption.
    + split; [assumption | apply num_le_refl; assumption].
  - destruct (num_lt lo hi) eqn:E2.
    + split; [apply num_le_refl; assumption | assumption].
    + split; [assumption | apply num_le_refl; assumption].
Qed.

End NumberOrder.

(** ** The stable sort *)

Section StableSort.
Import Py.

Context {A : Type} (lt : A -> A -> bool) (P : A -> Prop).

(** On the elements satisfying [P], [lt] is a strict weak order. *)
Hypothesis lt_irrefl : forall a, P a -> lt a a = false.
Hypothesis lt_trans :
  forall a b c, P a -> P b -> P c -> lt a b = true -> lt b c = true -> lt a c = true.
Hypothesis not_lt_trans :
  forall a b c, P a -> P b -> P c -> lt a b = false -> lt b c = false -> lt a c = false.

Lemma lt_asym (a b : A) : P a -> P b -> lt a b = true -> lt b a = false.
Proof.
  intros Ha Hb Hab. destruct (lt b a) eqn:Hba; [| reflexivity].
  rewrite <- (lt_irrefl a Ha). symmetry. eapply lt_trans; eauto.
Qed.

Lemma insert_by_perm (x : A) (l : list A) : insert_by lt x l ≡ₚ x :: l.
Proof.
  induction l as [| y l IH]; simpl; [reflexivity |].
  destruct (lt x y); [reflexivity |].
  rewrite IH. apply perm_swap.
Qed.

Lemma insert_by_sorted (x : A) (l : list A) :
  P x -> Forall P l ->
  StronglySorted (ascending lt) l -> StronglySorted (ascending lt) (insert_by lt x l).
Proof.
  intros Hx HP Hs. induction l as [| y l IH]; simpl.
  - repeat constructor.
  - apply Forall_cons in HP as [Hy HP].
    apply StronglySorted_cons in Hs as [Hyl Hs].
    destruct (lt x y) eqn:Hxy.
    + constructor; [constructor; assumption |].
      constructor.
      * unfold ascending. apply lt_asym; assumption.
      * rewrite Forall_forall in Hyl, HP |- *. intros z Hz.
        unfold ascending in *.
        apply (not_lt_trans z y x); auto using lt_asym.
    + constructor; [apply IH; assumption |].
      rewrite (insert_by_perm x l). constructor; assumption.
Qed.

Lemma insert_by_tied (k x : A) (l : list A) :
  P k -> P x -> Forall P l -> StronglySorted (ascending lt) l ->
  List.filter (tied lt k) (insert_by lt x l)
  = (List.filter (tied lt k) l ++ if tied lt k x then [x] else [])%list.
Proof.
  intros Hk Hx HP Hs. induction l as [| y l IH]; simpl.
  - destruct (tied lt k x); reflexivity.
  - apply Forall_cons in HP as [Hy HP].
    apply StronglySorted_cons in Hs as [Hyl Hs].
    destruct (lt x y) eqn:Hxy.
    + destruct (tied lt k x) eqn:Hkx.
      * assert (Hnone : forall z, z ∈ y :: l -> tied lt k z = false).
        { intros z Hz.
          assert (Pz : P z).
          { apply elem_of_cons in Hz as [-> | Hz]; [assumption |].
            rewrite Forall_forall in HP. auto. }
          assert (Hxz : lt x z = true).
          { apply elem_of_cons in Hz as [-> | Hz]; [assumption |].
            rewrite Forall_forall in Hyl. specialize (Hyl z Hz). unfold ascending in Hyl.
            destruct (lt x z) eqn:E; [reflexivity |].
            exfalso.
            assert (Hxy' : lt x y = false) by (apply (not_lt_trans x z y); auto).
            congruence. }
          unfold tied in Hkx |- *.
          apply andb_true_iff in Hkx as [H1 H2].
          apply negb_true_iff in H1, H2.
          destruct (lt k z) eqn:E1; [reflexivity |].
          exfalso.
          assert (Hxz' : lt x z = false) by (apply (not_lt_trans x k z); auto).
          congruence. }
        simpl. rewrite Hkx.
        assert (Hnil : List.filter (tied lt k) (y :: l) = []).
        { clear -Hnone. induction (y :: l) as [| z l' IH']; [reflexivity |].
          simpl. rewrite Hnone by (left). apply IH'.
          intros w Hw. apply Hnone. right. exact Hw. }
        simpl in Hnil. rewrite Hnil. reflexivity.
      * simpl. rewrite Hkx. rewrite app_nil_r. reflexivity.
    + simpl. rewrite (IH HP Hs). destruct (tied lt k y); reflexivity.
Qed.

Lemma foldl_insert_spec (l acc : list A) :
  Forall P acc -> Forall P l -> StronglySorted (ascending lt) acc ->
  let out := foldl (fun acc x => insert_by lt x acc) acc l in
  out ≡ₚ acc ++ l
  /\ StronglySorted (ascending lt) out
  /\ forall k, P k ->
       List.filter (tied lt k) out = (List.filter (tied lt k) acc ++ List.filter (tied lt k) l)%list.
Proof.
  revert acc. induction l as [| x l IH]; intros acc Hacc Hl Hs; simpl.
  - rewrite app_nil_r. split; [reflexivity |]. split; [assumption |].
    intros k _. rewrite app_nil_r. reflexivity.
  - apply Forall_cons in Hl as [Hx Hl].
    assert (Hacc' : Forall P (insert_by lt x acc)).
    { rewrite (insert_by_perm x acc). constructor; assumption. }
    destruct (IH (insert_by lt x acc) Hacc' Hl (insert_by_sorted x acc Hx Hacc Hs))
      as (Hperm & Hsorted & Hstable).
    split; [| split].
    + rewrite Hperm, (insert_by_perm x acc).
      change (x :: acc) with ([x] ++ acc)%list.
      rewrite (Permutation_app_comm [x] acc), <- app_assoc. reflexivity.
    + assumption.
    + intros k Hk. rewrite (Hstable k Hk), (insert_by_tied k x acc Hk Hx Hacc Hs).
      rewrite <- app_assoc. destruct (tied lt k x); reflexivity.
Qed.

Lemma stable_sort_spec (l : list A) :
  Forall P l ->
  stable_sort lt l ≡ₚ l
  /\ StronglySorted (ascending lt) (stable_sort lt l)
  /\ forall k, P k -> List.filter (tied lt k) (stable_sort lt l) = List.filter (tied lt k) l.
Proof.
  intros Hl.
  destruct (foldl_insert_spec l [] (Forall_nil_2 P) Hl (SSorted_nil _)) as (Hp & Hs & Ht).
  split; [exact Hp | split; [exact Hs | exact Ht]].
Qed.

Lemma StronglySorted_rev (l : list A) :
  StronglySorted (ascending lt) l -> StronglySorted (descending lt) (rev l).
Proof.
  induction 1 as [| x l Hs IH Hx]; simpl; [constructor |].
  apply StronglySorted_app_2.
  - intros a b Ha Hb. apply list_elem_of_singleton in Hb as ->.
    rewrite Forall_forall in Hx. apply Hx.
    apply list_elem_of_In, in_rev, list_elem_of_In. exact Ha.
  - exact IH.
  - repeat constructor.
Qed.

End StableSort.

(** ** The generator *)

Section GeneratorFacts.
Import Py Config Generator.

Variable lower : string -> string.

Lemma template_ranges_ordered (idea_type : string) (template : Template) :
  IDEA_TEMPLATES !! idea_type = Some template ->
  fst (cost_range template) <= snd (cost_range template)
  /\ num_le (fst (time_range template)) (snd (time_range template)) = true.
Proof.
  intros H. apply elem_of_list_to_map_2 in H.
  repeat (apply elem_of_cons in H as [H | H];
          [injection H as _ ->; split; [simpl; lia | vm_compute; reflexivity] |]).
  apply elem_of_nil in H. destruct H.
Qed.

(** Every generated idea is the instance of the template of its type. *)
Lemma generate_ideas_fields (project : Project) (preferences : option Preferences)
    (idea : gmap string Value) :
  idea ∈ generate_ideas lower project preferences ->
  exists idea_type template,
    IDEA_TEMPLATES !! idea_type = Some template
    /\ idea !! "type" = Some (VStr idea_type)
    /\ idea !! "cost" = Some (VInt (_adjust_for_user lower template preferences).1.1)
    /\ idea !! "expected_income"
       = Some (VInt (_adjust_for_user lower template preferences).1.2)
    /\ idea !! "time_needed"
       = Some (num_value (_adjust_for_user lower template preferences).2).
Proof.
  unfold generate_ideas. intros H.
  apply list_elem_of_In, in_flat_map in H as (idea_type & _ & H).
  destruct (IDEA_TEMPLATES !! idea_type) as [template |] eqn:E; [| destruct H].
  exists idea_type, template.
  destruct (_adjust_for_user lower template preferences) as [[cost income] time].
  destruct H as [<- | []].
  split; [exact E |]. repeat split.
Qed.

(** C7. For each template of the catalogue and any preferences, the
    adjusted cost and time lie within the template's range, bounds
    included; without preferences all three adjusted values are the
    template's minima; and these are the values the generated idea of
    that type carries. *)
Theorem generated_cost_and_time_in_range (idea_type : string) (template : Template)
    (preferences : option Preferences) :
  IDEA_TEMPLATES !! idea_type = Some template ->
  let cost := (_adjust_for_user lower template preferences).1.1 in
  let income := (_adjust_for_user lower template preferences).1.2 in
  let time_needed := (_adjust_for_user lower template preferences).2 in
  fst (cost_range template) <= cost <= snd (cost_range template)
  /\ num_le (fst (time_range template)) time_needed = true
  /\ num_le time_needed (snd (time_range template)) = true
  /\ (no_preferences preferences = true ->
      cost = fst (cost_range template)
      /\ income = fst (income_range template)
      /\ time_needed = fst (time_range template))
  /\ (forall project idea,
        idea ∈ generate_ideas lower project preferences ->
        idea !! "type" = Some (VStr idea_type) ->
        idea !! "cost" = Some (VInt cost)
        /\ idea !! "expected_income" = Some (VInt income)
        /\ idea !! "time_needed" = Some (num_value time_needed)).
Proof.
  intros Hlookup cost income time_needed.
  destruct (template_ranges_ordered _ _ Hlookup) as [Hcost Htime].
  assert (Hrange :
    fst (cost_range template) <= cost <= snd (cost_range template)
    /\ num_le (fst (time_range template)) time_needed = true
    /\ num_le time_needed (snd (time_range template)) = true).
  { subst cost time_needed. unfold _adjust_for_user.
    destruct (no_preferences preferences); simpl.
    - destruct (num_le_not_nan _ _ Htime) as [Hlo _].
      split; [lia |]. split; [apply num_le_refl; exact Hlo | exact Htime].
    - split; [lia |]. apply clamp_in_range. exact Htime. }
  destruct Hrange as (Hc & Ht1 & Ht2).
  split; [exact Hc |]. split; [exact Ht1 |]. split; [exact Ht2 |]. split.
  - intros Hnone. subst cost income time_needed. unfold _adjust_for_user.
    rewrite Hnone. simpl. auto.
  - intros project idea Hin Htype.
    destruct (generate_ideas_fields _ _ _ Hin) as (ty & tpl & Hl & Hty & Hfields).
    rewrite Hty in Htype. injection Htype as ->.
    rewrite Hlookup in Hl. injection Hl as <-. exact Hfields.
Qed.

End GeneratorFacts.

(** ** The ranker *)

Section RankerFacts.
Import Py Generator.

Lemma mapR_Forall2 {A B} (f : A -> Result B) (xs : list A) (ys : list B) :
  mapR f xs = Ok ys -> Forall2 (fun x y => f x = Ok y) xs ys.
Proof.
  revert ys. induction xs as [| x xs IH]; simpl; intros ys H.
  - injection H as <-. constructor.
  - destruct (f x) as [y |] eqn:Ex; simpl in H; [| discriminate].
    destruct (mapR f xs) as [ys' |] eqn:Exs; simpl in H; [| discriminate].
    injection H as <-. constructor; auto.
Qed.

Lemma zip_keyed (ideas : list (gmap string Value)) (keys : list float) :
  Forall2 (fun x y => get_score x = Ok y) ideas keys ->
  Forall keyed_by_score (zip keys ideas).
Proof. induction 1; simpl; constructor; auto. Qed.

Lemma zip_real_keys {A} (xs : list A) (keys : list float) :
  Forall (fun k => is_nan (PFloat k) = false) keys ->
  Forall real_key (zip keys xs).
Proof.
  intros H. revert xs. induction H as [| k keys Hk _ IH]; intros [| x xs]; simpl;
    constructor; auto.
Qed.

Lemma sorted_reverse_spec {A} (keyed : list (float * A)) :
  Forall real_key keyed ->
  sorted_reverse float_lt keyed ≡ₚ keyed
  /\ StronglySorted (descending key_lt) (sorted_reverse float_lt keyed)
  /\ forall k, real_key k ->
       List.filter (tied key_lt k) (sorted_reverse float_lt keyed)
       = List.filter (tied key_lt k) keyed.
Proof.
  intros Hreal.
  change (sorted_reverse float_lt keyed) with (rev (stable_sort key_lt (rev keyed))).
  assert (Hrev : Forall real_key (rev keyed)).
  { rewrite <- Permutation_rev. exact Hreal. }
  destruct (stable_sort_spec key_lt real_key
              (fun a _ => num_lt_irrefl _)
              (fun a b c _ _ _ => num_lt_trans _ _ _)
              (fun a b c Ha Hb Hc => num_not_lt_trans _ _ _ Ha Hb Hc)
              (rev keyed) Hrev) as (Hperm & Hsorted & Hstable).
  split; [| split].
  - rewrite <- Permutation_rev, Hperm, <- Permutation_rev. reflexivity.
  - apply StronglySorted_rev. exact Hsorted.
  - intros k Hk. rewrite List.filter_rev, (Hstable k Hk), List.filter_rev.
    apply rev_involutive.
Qed.

Lemma tied_has_score (k : float) (x : float * gmap string Value) :
  real_key (k, x.2) -> real_key x -> keyed_by_score x ->
  tied key_lt (k, x.2) x = has_score k x.2.
Proof.
  unfold real_key, keyed_by_score, tied, key_lt, float_lt, has_score. simpl.
  intros Hk Hx ->. rewrite (num_eq_iff _ _ Hx Hk). apply andb_comm.
Qed.

Lemma filter_has_score (k : float) (l : list (float * gmap string Value)) :
  is_nan (PFloat k) = false -> Forall real_key l -> Forall keyed_by_score l ->
  List.filter (has_score k) l.*2 = (List.filter (tied key_lt (k, ∅)) l).*2.
Proof.
  intros Hk. induction l as [| x l IH]; intros Hr Hs; [reflexivity |].
  apply Forall_cons in Hr as [Hx Hr]. apply Forall_cons in Hs as [Hsx Hs].
  cbn [fmap list_fmap List.filter].
  change (tied key_lt (k, ∅) x) with (tied key_lt (k, x.2) x).
  rewrite (tied_has_score k x Hk Hx Hsx), (IH Hr Hs).
  destruct (has_score k x.2); reflexivity.
Qed.

(** C5. When every idea has a score and no score is a NaN, [rank_ideas]
    returns a permutation of its input in which no idea stands before
    one of greater score, and ideas of equal score keep the order they
    had in the input. *)
Theorem rank_ideas_sorted_stable (ideas : list (gmap string Value)) (keys : list float) :
  mapR get_score ideas = Ok keys ->
  Forall (fun k => is_nan (PFloat k) = false) keys ->
  exists ranked,
    rank_ideas ideas = Ok ranked
    /\ ranked ≡ₚ ideas
    /\ StronglySorted score_not_below ranked
    /\ forall k, is_nan (PFloat k) = false ->
         List.filter (has_score k) ranked = List.filter (has_score k) ideas.
Proof.
  intros Hkeys Hreal. unfold rank_ideas. rewrite Hkeys. simpl.
  eexists. split; [reflexivity |].
  pose proof (mapR_Forall2 _ _ _ Hkeys) as Hall.
  pose proof (zip_keyed _ _ Hall) as Hscore.
  pose proof (zip_real_keys ideas keys Hreal) as Hr.
  destruct (sorted_reverse_spec (zip keys ideas) Hr) as (Hperm & Hsorted & Hstable).
  assert (Hlen : (length ideas <= length keys)%nat).
  { apply Forall2_length in Hall. lia. }
  assert (Hr' : Forall real_key (sorted_reverse float_lt (zip keys ideas))).
  { rewrite Hperm. exact Hr. }
  assert (Hs' : Forall keyed_by_score (sorted_reverse float_lt (zip keys ideas))).
  { rewrite Hperm. exact Hscore. }
  split; [| split].
  - rewrite Hperm. rewrite snd_zip by exact Hlen. reflexivity.
  - revert Hsorted Hr' Hs'.
    generalize (sorted_reverse float_lt (zip keys ideas)).
    induction 1 as [| x l Hsl IH Hx]; intros Hr' Hs'; [constructor |].
    apply Forall_cons in Hr' as [Hrx Hr']. apply Forall_cons in Hs' as [Hsx Hs'].
    cbn [fmap list_fmap]. constructor; [apply IH; assumption |].
    rewrite Forall_fmap. rewrite Forall_forall in Hx, Hr', Hs' |- *.
    intros y Hy. exists x.1, y.1.
    split; [exact Hsx |]. split; [exact (Hs' y Hy) |].
    apply num_not_lt_le; [exact Hrx | exact (Hr' y Hy) | exact (Hx y Hy)].
  - intros k Hk.
    rewrite (filter_has_score k _ Hk Hr' Hs').
    rewrite (Hstable (k, ∅) Hk).
    rewrite <- (filter_has_score k _ Hk Hr Hscore).
    rewrite snd_zip by exact Hlen. reflexivity.
Qed.

End RankerFacts.

(** ** The record store *)

Section PoolFacts.
Import Py Pool.
Local Open Scope pool_scope.
Local Open Scope list_scope.

Variable json_load : string -> option Value.
Variable json_dump : Value -> string.

Lemma for_first_with_id_found (wanted : Value)
    (body : list Value -> gmap string Value -> list Value -> M unit)
    (seen todo : list Value) (s : State) :
  for_first_with_id wanted body seen todo s =
  match find_by_id wanted todo with
  | NotFound => (Ok false, s)
  | Failed e => (Raise e, s)
  | Found before d after => (run body (seen ++ before) d after; ret true) s
  end.
Proof.
  revert seen. induction todo as [| x rest IH]; intros seen; simpl; [reflexivity |].
  unfold bind at 1, lift at 1.
  destruct (getitem x "id") as [id | e]; [| reflexivity].
  destruct (py_eq id wanted).
  - destruct x; try reflexivity. rewrite app_nil_r. reflexivity.
  - rewrite IH. destruct (find_by_id wanted rest); try reflexivity.
    rewrite <- app_assoc. reflexivity.
Qed.

Lemma find_by_id_Found (wanted : Value) (todo before after : list Value)
    (d : gmap string Value) :
  find_by_id wanted todo = Found before d after ->
  todo = (before ++ VDict d :: after)
  /\ id_matches wanted (VDict d) = true
  /\ Forall (other_record wanted) before.
Proof.
  revert before. induction todo as [| x rest IH]; intros before; simpl; [discriminate |].
  destruct (getitem x "id") as [id | e] eqn:Eid; [| discriminate].
  destruct (py_eq id wanted) eqn:Eeq.
  - destruct x; try discriminate. intros H. injection H as <- <- <-.
    split; [reflexivity |]. split; [| constructor].
    unfold id_matches. rewrite Eid. exact Eeq.
  - destruct (find_by_id wanted rest) as [| b d' a | e]; try discriminate.
    intros H. injection H as <- <- <-.
    destruct (IH b eq_refl) as (-> & Hm & Hb).
    split; [reflexivity |]. split; [exact Hm |].
    constructor; [| exact Hb]. exists id. split; [exact Eid | exact Eeq].
Qed.

Lemma find_by_id_absent (wanted : Value) (todo : list Value) :
  Forall (other_record wanted) todo -> find_by_id wanted todo = NotFound.
Proof.
  induction 1 as [| x rest (id & Eid & Eeq) _ IH]; simpl; [reflexivity |].
  rewrite Eid, Eeq, IH. reflexivity.
Qed.

Lemma find_by_id_first (wanted : Value) (before after : list Value) (d : gmap string Value) :
  Forall (other_record wanted) before ->
  id_matches wanted (VDict d) = true ->
  find_by_id wanted (before ++ VDict d :: after) = Found before d after.
Proof.
  intros Hb Hm. induction Hb as [| x rest (id & Eid & Eeq) _ IH]; simpl.
  - unfold id_matches in Hm. simpl in Hm.
    destruct (dict_getitem d "id") as [id | e]; [| discriminate].
    rewrite Hm. reflexivity.
  - rewrite Eid, Eeq, IH. reflexivity.
Qed.

Lemma py_eq_str (a b : string) : py_eq (VStr a) (VStr b) = true <-> a = b.
Proof. simpl. apply String.eqb_eq. Qed.

Lemma id_matches_str (d : gmap string Value) (id : string) :
  d !! "id" = Some (VStr id) -> id_matches (VStr id) (VDict d) = true.
Proof.
  intros H. unfold id_matches. simpl. unfold dict_getitem. rewrite H.
  apply py_eq_str. reflexivity.
Qed.

(** C10. [add_idea] stores, at the end of the collection, the caller's
    record with the id set to ["idea-"] followed by the time of the
    call, [created_at] set to the time read next, [status] set to
    pending and [score] set to 0, whatever the record carried under
    these keys; [tags] keeps the caller's value and is the empty list
    when there was none; every other key is as the caller gave it. *)
Theorem add_idea_overwrites (s : State) (records : list Value) (idea : gmap string Value) :
  ideas s = VList records ->
  let idea_id := "idea-" +:+ strftime (clock s (ticks s)) in
  exists stored s',
    add_idea json_dump idea s = (Ok idea_id, s')
    /\ ideas s' = VList (records ++ [VDict stored])
    /\ stored !! "id" = Some (VStr idea_id)
    /\ String.prefix "idea-" idea_id = true
    /\ stored !! "created_at" = Some (VStr (isoformat (clock s (S (ticks s)))))
    /\ stored !! "status" = Some (VStr "pending")
    /\ stored !! "score" = Some (VInt 0)
    /\ stored !! "tags" = Some (default (VList []) (idea !! "tags"))
    /\ (forall k, k ∉ ["id"; "created_at"; "status"; "score"; "tags"] ->
          stored !! k = idea !! k).
Proof.
  clear json_load. intros Hideas idea_id.
  eexists. eexists.
  split.
  { unfold add_idea, bind, datetime_now, get, lift, modify, _save_json, ret.
    simpl. rewrite Hideas. simpl. reflexivity. }
  split; [reflexivity |].
  assert (Hne : forall a b : string, String.eqb a b = false -> a <> b).
  { intros a b H ->. rewrite String.eqb_refl in H. discriminate. }
  split.
  { rewrite !lookup_insert_ne by (apply Hne; reflexivity). apply lookup_insert_eq. }
  split; [reflexivity |].
  split.
  { rewrite !lookup_insert_ne by (apply Hne; reflexivity). apply lookup_insert_eq. }
  split.
  { rewrite !lookup_insert_ne by (apply Hne; reflexivity). apply lookup_insert_eq. }
  split.
  { rewrite !lookup_insert_ne by (apply Hne; reflexivity). apply lookup_insert_eq. }
  split.
  { rewrite lookup_insert_eq.
    rewrite !lookup_insert_ne by (apply Hne; reflexivity). reflexivity. }
  intros k Hk.
  rewrite !lookup_insert_ne; [reflexivity | | | | |];
    intros <-; apply Hk; set_solver.
Qed.

Lemma update_idea_status_unfold (s : State) (idea_id : Value) (status : string)
    (notes : option string) :
  update_idea_status json_dump idea_id status notes s =
  match iter_elems (ideas s) with
  | Raise e => (Raise e, s)
  | Ok elems =>
      match find_by_id idea_id elems with
      | NotFound => (Ok false, s)
      | Failed e => (Raise e, s)
      | Found before idea after =>
          let ideas' :=
            VList (before ++ VDict (updated_idea status notes (clock s (ticks s)) idea)
                     :: after) in
          (Ok true,
           set_disk (write_file (disk s) IdeasFile (Content (json_dump ideas')))
             (set_ideas ideas' (tick s)))
      end
  end.
Proof.
  unfold update_idea_status.
  unfold bind at 1, get at 1. unfold bind at 1, lift at 1.
  destruct (iter_elems (ideas s)) as [elems | e]; [| reflexivity].
  rewrite for_first_with_id_found.
  destruct (find_by_id idea_id elems) as [| before idea after | e]; reflexivity.
Qed.

Lemma update_idea_status_run (s : State) (records : list Value) (idea_id : Value)
    (status : string) (notes : option string) :
  ideas s = VList records ->
  update_idea_status json_dump idea_id status notes s =
  match find_by_id idea_id records with
  | NotFound => (Ok false, s)
  | Failed e => (Raise e, s)
  | Found before idea after =>
      let ideas' :=
        VList (before ++ VDict (updated_idea status notes (clock s (ticks s)) idea) :: after) in
      (Ok true,
       set_disk (write_file (disk s) IdeasFile (Content (json_dump ideas')))
         (set_ideas ideas' (tick s)))
  end.
Proof.
  intros Hideas. rewrite update_idea_status_unfold, Hideas. reflexivity.
Qed.

Lemma update_idea_status_frame (s : State) (idea_id : Value) (status : string)
    (notes : option string) :
  let s' := snd (update_idea_status json_dump idea_id status notes s) in
  executions s' = executions s /\ revenues s' = revenues s /\ clock s' = clock s.
Proof.
  rewrite update_idea_status_unfold.
  destruct (iter_elems (ideas s)) as [elems | e]; simpl; [| auto].
  destruct (find_by_id idea_id elems) as [| before idea after | e]; simpl; auto.
Qed.

(** C8. On a collection of idea records, [update_idea_status] with an id
    that no record carries returns [False] and leaves the whole state as
    it was; with an id that a record carries it sets the status of the
    first such record, stamps [updated_at] with the time of the call,
    stores the notes when some are given, rewrites the backing file and
    returns [True]. *)
Theorem update_idea_status_absent_or_present (s : State) (records : list Value)
    (idea_id status : string) (notes : option string) :
  ideas s = VList records ->
  (Forall (other_record (VStr idea_id)) records ->
   update_idea_status json_dump (VStr idea_id) status notes s = (Ok false, s))
  /\ (forall before idea after,
        records = (before ++ VDict idea :: after) ->
        Forall (other_record (VStr idea_id)) before ->
        idea !! "id" = Some (VStr idea_id) ->
        let idea' := updated_idea status notes (clock s (ticks s)) idea in
        let ideas' := VList (before ++ VDict idea' :: after) in
        update_idea_status json_dump (VStr idea_id) status notes s
        = (Ok true,
           set_disk (write_file (disk s) IdeasFile (Content (json_dump ideas')))
             (set_ideas ideas' (tick s)))
        /\ idea' !! "status" = Some (VStr status)
        /\ idea' !! "updated_at" = Some (VStr (isoformat (clock s (ticks s))))
        /\ idea' !! "notes"
           = (if truthy notes then Some (VStr (default "" notes)) else idea !! "notes")).
Proof.
  intros Hideas. split.
  - intros Habsent. rewrite (update_idea_status_run _ _ _ _ _ Hideas).
    rewrite (find_by_id_absent _ _ Habsent). reflexivity.
  - intros before idea after -> Hbefore Hid idea' ideas'.
    split.
    { rewrite (update_idea_status_run _ _ _ _ _ Hideas).
      rewrite (find_by_id_first _ _ _ _ Hbefore (id_matches_str _ _ Hid)). reflexivity. }
    subst idea'. unfold updated_idea.
    destruct (truthy notes); simpl; repeat split;
      repeat first [ apply lookup_insert_eq
                   | rewrite lookup_insert_ne by discriminate ];
      reflexivity.
Qed.

Lemma start_execution_run (s : State) (execs : list Value) (idea_id : string) :
  executions s = VList execs ->
  let exec_id := "exec-" +:+ strftime (clock s (ticks s)) in
  let execution := started_execution exec_id idea_id (clock s (S (ticks s))) in
  let executions' := VList (execs ++ [VDict execution]) in
  let s1 :=
    set_disk (write_file (disk s) ExecutionFile (Content (json_dump executions')))
      (set_executions executions' (tick (tick s))) in
  start_execution json_dump idea_id s =
  match update_idea_status json_dump (VStr idea_id) "in_progress" None s1 with
  | (Ok _, s2) => (Ok exec_id, s2)
  | (Raise e, s2) => (Raise e, s2)
  end.
Proof.
  intros Hexecs exec_id execution executions' s1.
  unfold start_execution.
  unfold bind at 1, datetime_now at 1. unfold bind at 1, datetime_now at 1.
  unfold bind at 1, get at 1. unfold bind at 1, lift at 1.
  cbn [executions tick]. rewrite Hexecs. cbn [append].
  unfold bind at 1, modify at 1. unfold bind at 1, _save_json at 1, modify at 1.
  unfold bind at 1.
  change (set_disk _ _) with s1.
  destruct (update_idea_status json_dump (VStr idea_id) "in_progress" None s1) as [[b | e] s2];
    reflexivity.
Qed.

(** The amended C9. When the first idea record with the given id is
    already in progress, [start_execution] leaves its status and every
    field other than [updated_at] as they were, and sets [updated_at] to
    the time read by the status update (the third reading of the clock
    in the call); the new execution is appended. *)
Theorem start_execution_restamps_idea (s : State) (execs before after : list Value)
    (idea : gmap string Value) (idea_id : string) :
  ideas s = VList (before ++ VDict idea :: after) ->
  executions s = VList execs ->
  Forall (other_record (VStr idea_id)) before ->
  idea !! "id" = Some (VStr idea_id) ->
  idea !! "status" = Some (VStr "in_progress") ->
  let exec_id := "exec-" +:+ strftime (clock s (ticks s)) in
  let stamp := VStr (isoformat (clock s (S (S (ticks s))))) in
  let idea' := <["updated_at" := stamp]> idea in
  exists s',
    start_execution json_dump idea_id s = (Ok exec_id, s')
    /\ ideas s' = VList (before ++ VDict idea' :: after)
    /\ idea' !! "status" = Some (VStr "in_progress")
    /\ idea' !! "updated_at" = Some stamp
    /\ (forall k, k <> "updated_at" -> idea' !! k = idea !! k)
    /\ executions s'
       = VList (execs ++ [VDict (started_execution exec_id idea_id (clock s (S (ticks s))))]).
Proof.
  intros Hideas Hexecs Hbefore Hid Hstatus exec_id stamp idea'.
  rewrite (start_execution_run _ _ _ Hexecs). cbv zeta.
  erewrite update_idea_status_run by exact Hideas.
  rewrite (find_by_id_first _ _ _ _ Hbefore (id_matches_str _ _ Hid)).
  cbv zeta. eexists. split; [reflexivity |].
  assert (Hsame : updated_idea "in_progress" None (clock s (S (S (ticks s)))) idea = idea').
  { unfold updated_idea. simpl. rewrite (insert_id idea "status") by exact Hstatus.
    reflexivity. }
  split; [rewrite <- Hsame; reflexivity |].
  split; [subst idea'; rewrite lookup_insert_ne by discriminate; exact Hstatus |].
  split; [apply lookup_insert_eq |].
  split; [intros k Hk; apply lookup_insert_ne; congruence |].
  reflexivity.
Qed.

Lemma add_idea_unfold (s : State) (idea : gmap string Value) :
  add_idea json_dump idea s =
  let stored := stored_idea idea (clock s (ticks s)) (clock s (S (ticks s))) in
  match append (ideas s) (VDict stored) with
  | Ok ideas' =>
      (Ok ("idea-" +:+ strftime (clock s (ticks s))),
       set_disk (write_file (disk s) IdeasFile (Content (json_dump ideas')))
         (set_ideas ideas' (tick (tick s))))
  | Raise e => (Raise e, tick (tick s))
  end.
Proof.
  unfold add_idea.
  unfold bind at 1, datetime_now at 1. unfold bind at 1, datetime_now at 1.
  unfold bind at 1, get at 1. unfold bind at 1, lift at 1.
  cbn [ideas tick]. fold (stored_idea idea (clock s (ticks s)) (clock s (S (ticks s)))).
  cbv zeta.
  destruct (append (ideas s) _) as [ideas' | e]; reflexivity.
Qed.

Lemma add_revenue_unfold (s : State) (idea_id : string) (amount : pynum) (source : string)
    (notes : option string) :
  add_revenue json_dump idea_id amount source notes s =
  let revenue :=
    stored_revenue idea_id amount source notes (clock s (ticks s)) (clock s (S (ticks s))) in
  match append (revenues s) (VDict revenue) with
  | Ok revenues' =>
      (Ok ("rev-" +:+ strftime (clock s (ticks s))),
       set_disk (write_file (disk s) RevenueFile (Content (json_dump revenues')))
         (set_revenues revenues' (tick (tick s))))
  | Raise e => (Raise e, tick (tick s))
  end.
Proof.
  unfold add_revenue.
  unfold bind at 1, datetime_now at 1. unfold bind at 1, datetime_now at 1.
  unfold bind at 1, get at 1. unfold bind at 1, lift at 1.
  cbn [revenues tick].
  fold (stored_revenue idea_id amount source notes (clock s (ticks s)) (clock s (S (ticks s)))).
  cbv zeta.
  destruct (append (revenues s) _) as [revenues' | e]; reflexivity.
Qed.

Lemma get_idea_state (s : State) (idea_id : string) : snd (get_idea idea_id s) = s.
Proof.
  unfold get_idea. unfold bind at 1, get at 1. unfold bind at 1, lift at 1.
  destruct (iter_elems (ideas s)); reflexivity.
Qed.

Lemma start_execution_unfold (s : State) (idea_id : string) :
  start_execution json_dump idea_id s =
  let exec_id := "exec-" +:+ strftime (clock s (ticks s)) in
  let execution := started_execution exec_id idea_id (clock s (S (ticks s))) in
  match append (executions s) (VDict execution) with
  | Raise e => (Raise e, tick (tick s))
  | Ok executions' =>
      let s1 :=
        set_disk (write_file (disk s) ExecutionFile (Content (json_dump executions')))
          (set_executions executions' (tick (tick s))) in
      match update_idea_status json_dump (VStr idea_id) "in_progress" None s1 with
      | (Ok _, s2) => (Ok exec_id, s2)
      | (Raise e, s2) => (Raise e, s2)
      end
  end.
Proof.
  unfold start_execution.
  unfold bind at 1, datetime_now at 1. unfold bind at 1, datetime_now at 1.
  unfold bind at 1, get at 1. unfold bind at 1, lift at 1.
  cbn [executions tick].
  fold (started_execution ("exec-" +:+ strftime (clock s (ticks s))) idea_id
          (clock s (S (ticks s)))).
  cbv zeta.
  destruct (append (executions s) _) as [executions' | e]; [| reflexivity].
  unfold bind at 1, modify at 1. unfold bind at 1, _save_json at 1, modify at 1.
  unfold bind at 1.
  set (s1 := set_disk (write_file (disk s) ExecutionFile (Content (json_dump executions')))
               (set_executions executions' (tick (tick s)))).
  change (set_disk _ _) with s1.
  destruct (update_idea_status json_dump (VStr idea_id) "in_progress" None s1)
    as [[b | e] s2]; reflexivity.
Qed.

Lemma add_execution_entry_unfold (s : State) (exec_id field : string)
    (entry : datetime -> Value) (elems : list Value) :
  for_first_with_id (VStr exec_id) (append_entry json_dump field entry) [] elems s =
  match find_by_id (VStr exec_id) elems with
  | NotFound => (Ok false, s)
  | Failed e => (Raise e, s)
  | Found before d after =>
      match dict_getitem d field with
      | Raise e => (Raise e, s)
      | Ok (VList entries) =>
          let executions' :=
            VList (before
                   ++ VDict (<[field := VList (entries ++ [entry (clock s (ticks s))])]> d)
                   :: after) in
          (Ok true,
           set_disk (write_file (disk s) ExecutionFile (Content (json_dump executions')))
             (set_executions executions' (tick s)))
      | Ok _ => (Raise AttributeError, s)
      end
  end.
Proof.
  rewrite for_first_with_id_found.
  destruct (find_by_id (VStr exec_id) elems) as [| before d after | e]; try reflexivity.
  unfold bind at 1, append_entry. unfold bind at 1, lift at 1.
  destruct (dict_getitem d field) as [[] | e]; reflexivity.
Qed.

Lemma complete_execution_unfold (s : State) (exec_id : string) (success : bool)
    (notes : option string) :
  complete_execution json_dump exec_id success notes s =
  match iter_elems (executions s) with
  | Raise e => (Raise e, s)
  | Ok elems =>
      match find_by_id (VStr exec_id) elems with
      | NotFound => (Ok false, s)
      | Failed e => (Raise e, s)
      | Found before d after =>
          let d' := completed_execution success notes (clock s (ticks s)) d in
          let executions' := VList (before ++ VDict d' :: after) in
          let s1 :=
            set_disk (write_file (disk s) ExecutionFile (Content (json_dump executions')))
              (set_executions executions' (tick s)) in
          match dict_getitem d' "idea_id" with
          | Raise e => (Raise e, s1)
          | Ok idea_id =>
              match update_idea_status json_dump idea_id
                      (if success then "completed" else "failed") notes s1 with
              | (Ok _, s2) => (Ok true, s2)
              | (Raise e, s2) => (Raise e, s2)
              end
          end
      end
  end.
Proof.
  unfold complete_execution.
  unfold bind at 1, get at 1. unfold bind at 1, lift at 1.
  destruct (iter_elems (executions s)) as [elems | e]; [| reflexivity].
  rewrite for_first_with_id_found.
  destruct (find_by_id (VStr exec_id) elems) as [| before d after | e]; try reflexivity.
  unfold bind at 1. unfold bind at 1, datetime_now at 1.
  unfold bind at 1, modify at 1. unfold bind at 1, _save_json at 1, modify at 1.
  unfold bind at 1, lift at 1.
  fold (completed_execution success notes (clock s (ticks s)) d).
  cbn [tick clock ticks]. cbv zeta.
  destruct (dict_getitem (completed_execution success notes (clock s (ticks s)) d) "idea_id")
    as [idea_id | e]; [| reflexivity].
  unfold bind at 1.
  set (s1 := set_disk
               (write_file (disk s) ExecutionFile
                  (Content (json_dump
                     (VList (before
                             ++ VDict (completed_execution success notes (clock s (ticks s)) d)
                             :: after)))))
               (set_executions
                  (VList (before
                          ++ VDict (completed_execution success notes (clock s (ticks s)) d)
                          :: after))
                  (tick s))).
  change (set_disk _ _) with s1.
  destruct (update_idea_status json_dump idea_id (if success then "completed" else "failed")
              notes s1) as [[b | e] s2]; reflexivity.
Qed.

Lemma snd_perform {A} (m : M A) (s : State) : snd ((run m; ret tt) s) = snd (m s).
Proof. unfold bind. destruct (m s) as [[a | e] s']; reflexivity. Qed.

Lemma replace_middle_view (before after : list Value) (y y' x : Value) (i : nat) :
  (before ++ y :: after) !! i = Some x ->
  (x = y -> status_view y' = status_view y) ->
  exists x', (before ++ y' :: after) !! i = Some x' /\ status_view x' = status_view x.
Proof.
  intros Hi Hview.
  destruct (decide (i < length before)%nat) as [Hlt | Hge].
  - rewrite lookup_app_l in Hi |- * by exact Hlt. eauto.
  - rewrite lookup_app_r in Hi |- * by lia.
    destruct (i - length before)%nat as [| j] eqn:Ej; simpl in *.
    + injection Hi as <-. eexists. split; [reflexivity | auto].
    + eauto.
Qed.

Lemma add_execution_entry_keeps (s : State) (exec_id key : string)
    (entry : datetime -> Value) (l : list Value) (i : nat) (x : Value) :
  key = "steps" \/ key = "logs" ->
  executions s = VList l -> l !! i = Some x ->
  exists l' x',
    executions
      (snd (for_first_with_id (VStr exec_id) (append_entry json_dump key entry) [] l s))
    = VList l'
    /\ l' !! i = Some x' /\ status_view x' = status_view x.
Proof.
  intros Hfield Hexecs Hi. rewrite add_execution_entry_unfold.
  destruct (find_by_id (VStr exec_id) l) as [| before d after | e] eqn:Efind;
    [simpl; eauto | | simpl; eauto].
  apply find_by_id_Found in Efind as (-> & _ & _).
  destruct (dict_getitem d key) as [[| b | z | f | t | entries | m] | e];
    try (simpl; eauto).
  cbv zeta. cbn [snd executions set_disk set_executions].
  destruct (replace_middle_view before after (VDict d)
              (VDict (<[key := VList (entries ++ [entry (clock s (ticks s))])]> d)) x i Hi)
    as (x' & Hx' & Hv).
  { intros _. unfold status_view, field. simpl.
    destruct Hfield as [-> | ->]; rewrite !lookup_insert_ne by discriminate; reflexivity. }
  eauto.
Qed.

Lemma complete_execution_sets (s : State) (before after : list Value)
    (d : gmap string Value) (exec_id : string) (success : bool) (notes : option string) :
  executions s = VList (before ++ VDict d :: after) ->
  Forall (other_record (VStr exec_id)) before ->
  d !! "id" = Some (VStr exec_id) ->
  executions (snd (complete_execution json_dump exec_id success notes s))
  = VList (before ++ VDict (completed_execution success notes (clock s (ticks s)) d) :: after).
Proof.
  intros Hexecs Hbefore Hid. rewrite complete_execution_unfold, Hexecs.
  cbn [iter_elems].
  rewrite (find_by_id_first _ _ _ _ Hbefore (id_matches_str _ _ Hid)). cbv zeta.
  destruct (dict_getitem _ "idea_id") as [idea_id | e]; [| reflexivity].
  match goal with |- context [update_idea_status _ ?i ?st ?n ?s1] =>
    pose proof (update_idea_status_frame s1 i st n) as (Hframe & _);
    destruct (update_idea_status json_dump i st n s1) as [[b | e] s2] end;
    simpl in Hframe |- *; exact Hframe.
Qed.

Lemma completed_execution_fields (success : bool) (notes : option string) (now : datetime)
    (d : gmap string Value) :
  completed_execution success notes now d !! "status"
  = Some (VStr (if success then "success" else "failed"))
  /\ completed_execution success notes now d !! "completed_at" = Some (VStr (isoformat now)).
Proof.
  unfold completed_execution.
  destruct (truthy notes); split;
    repeat first [ apply lookup_insert_eq | rewrite lookup_insert_ne by discriminate ].
Qed.

Lemma complete_execution_keeps (s : State) (exec_id : string) (success : bool)
    (notes : option string) (l : list Value) (i : nat) (x : Value) :
  executions s = VList l -> l !! i = Some x ->
  id_matches (VStr exec_id) x = false ->
  exists l' x',
    executions (snd (complete_execution json_dump exec_id success notes s)) = VList l'
    /\ l' !! i = Some x' /\ status_view x' = status_view x.
Proof.
  intros Hexecs Hi Hother. rewrite complete_execution_unfold, Hexecs. cbn [iter_elems].
  destruct (find_by_id (VStr exec_id) l) as [| before d after | e] eqn:Efind;
    [simpl; eauto | | simpl; eauto].
  apply find_by_id_Found in Efind as (-> & Hmatch & _). cbv zeta.
  destruct (replace_middle_view before after (VDict d)
              (VDict (completed_execution success notes (clock s (ticks s)) d)) x i Hi)
    as (x' & Hx' & Hv).
  { intros ->. congruence. }
  exists (before ++ VDict (completed_execution success notes (clock s (ticks s)) d) :: after), x'.
  split; [| split; assumption].
  destruct (dict_getitem _ "idea_id") as [idea_id | e]; [| reflexivity].
  match goal with |- context [update_idea_status _ ?i ?st ?n ?s1] =>
    pose proof (update_idea_status_frame s1 i st n) as (Hframe & _);
    destruct (update_idea_status json_dump i st n s1) as [[b | e] s2] end;
    simpl in Hframe |- *; exact Hframe.
Qed.

Lemma start_execution_appends (s : State) (execs : list Value) (idea_id : string) :
  executions s = VList execs ->
  executions (snd (start_execution json_dump idea_id s))
  = VList (execs ++ [VDict (started_execution ("exec-" +:+ strftime (clock s (ticks s)))
                              idea_id (clock s (S (ticks s))))]).
Proof.
  intros Hexecs. rewrite start_execution_unfold, Hexecs. cbv zeta. cbn [append].
  match goal with |- context [update_idea_status _ ?i ?st ?n ?s1] =>
    pose proof (update_idea_status_frame s1 i st n) as (Hframe & _);
    destruct (update_idea_status json_dump i st n s1) as [[b | e] s2] end;
    simpl in Hframe |- *; exact Hframe.
Qed.

(** The amended C1. [start_execution] appends an execution whose status
    is in_progress and that has no completion time. No call other than
    [complete_execution] on the id of an execution changes the status or
    the completion time of that execution. [complete_execution] sets the
    status of the first execution with the given id from its success
    flag and stamps the completion time with the time of the call,
    whatever the status was before. *)
Theorem execution_status_transitions :
  (forall s execs idea_id,
      executions s = VList execs ->
      exists execution,
        executions (snd (start_execution json_dump idea_id s))
        = VList (execs ++ [VDict execution])
        /\ execution !! "status" = Some (VStr "in_progress")
        /\ execution !! "completed_at" = None)
  /\ (forall c s l i x,
        executions s = VList l -> l !! i = Some x ->
        (forall exec_id success notes,
            c = CompleteExecution exec_id success notes ->
            id_matches (VStr exec_id) x = false) ->
        exists l' x',
          executions (snd (perform json_dump c s)) = VList l'
          /\ l' !! i = Some x' /\ status_view x' = status_view x)
  /\ (forall s before d after exec_id success notes,
        executions s = VList (before ++ VDict d :: after) ->
        Forall (other_record (VStr exec_id)) before ->
        d !! "id" = Some (VStr exec_id) ->
        exists d',
          executions (snd (complete_execution json_dump exec_id success notes s))
          = VList (before ++ VDict d' :: after)
          /\ d' !! "status" = Some (VStr (if success then "success" else "failed"))
          /\ d' !! "completed_at" = Some (VStr (isoformat (clock s (ticks s))))).
Proof.
  split; [| split].
  - intros s execs idea_id Hexecs. eexists.
    split; [apply start_execution_appends; exact Hexecs |].
    split; reflexivity.
  - intros c s l i x Hexecs Hi Hc.
    destruct c; unfold perform; rewrite snd_perform.
    + rewrite add_idea_unfold. cbv zeta.
      destruct (append (ideas s) _); simpl; eauto.
    + rewrite get_idea_state. eauto.
    + destruct (update_idea_status_frame s (VStr idea_id) status notes) as (-> & _). eauto.
    + rewrite (start_execution_appends _ _ _ Hexecs).
      eexists. exists x. split; [reflexivity |]. split; [| reflexivity].
      apply lookup_app_l_Some. exact Hi.
    + unfold add_execution_step. unfold bind at 1, get at 1. unfold bind at 1, lift at 1.
      rewrite Hexecs. cbn [iter_elems].
      apply add_execution_entry_keeps; auto.
    + unfold add_execution_log. unfold bind at 1, get at 1. unfold bind at 1, lift at 1.
      rewrite Hexecs. cbn [iter_elems].
      apply add_execution_entry_keeps; auto.
    + apply (complete_execution_keeps s exec_id success notes l i x Hexecs Hi).
      eapply Hc. reflexivity.
    + rewrite add_revenue_unfold. cbv zeta.
      destruct (append (revenues s) _); simpl; eauto.
  - intros s before d after exec_id success notes Hexecs Hbefore Hid.
    eexists. split; [apply complete_execution_sets; eassumption |].
    apply completed_execution_fields.
Qed.







Lemma completed_execution_keeps (success : bool) (notes : option string) (now : datetime)
    (d : gmap string Value) (k : string) :
  k <> "status" -> k <> "completed_at" -> k <> "notes" ->
  completed_execution success notes now d !! k = d !! k.
Proof.
  intros H1 H2 H3. unfold completed_execution.
  destruct (truthy notes); rewrite !lookup_insert_ne by congruence; reflexivity.
Qed.







End PoolFacts.

(** ** Evaluated examples *)


Example contains_ex1 : Str.contains "api" "a rest api server" = true.
Proof. reflexivity. Qed.

Example contains_ex2 : Str.contains "api" "a p i" = false.
Proof. reflexivity. Qed.

Example last_segment_ex : Str.last_segment "openai/chatgpt" = "chatgpt".
Proof. reflexivity. Qed.

Example ascii_lower_ex :
  Str.ascii_lower "Official Python library" = "official python library".
Proof. reflexivity. Qed.

(** The project of the analyzer's self-test scores 30+25+15+5+15+7. *)
Example analyze_potential_ex :
  Scorer.analyze_potential Str.ascii_lower
    {| p_name := Some "openai/chatgpt"; p_stars := Some 50000;
       p_trending_stars := Some 150; p_language := Some "Python";
       p_description := Some "Official Python library for the ChatGPT API";
       p_url := None |}
  = (Scorer.potential_high, 97).
Proof. reflexivity. Qed.

(** Ten stars and a description without keywords. *)
Example suitable_types_default_ex :
  Scorer._analyze_suitable_types Str.ascii_lower
    {| p_name := Some "me/script"; p_stars := Some 10; p_trending_stars := None;
       p_language := None; p_description := Some "A Simple Script"; p_url := None |}
  = ["deployment_service"; "training"].
Proof. reflexivity. Qed.

Example strftime_ex : Pool.strftime (sample_clock 5) = "20261104072405".
Proof. reflexivity. Qed.

Example isoformat_ex : Pool.isoformat (sample_clock 5) = "2026-11-04T07:24:05.000042".
Proof. reflexivity. Qed.

Example int_truediv_ex : Py.int_truediv 10 3 = Py.Ok 0x1.aaaaaaaaaaaabp+1%float.
Proof. vm_compute. reflexivity. Qed.

Example half_below_one : Py.num_lt (Py.PFloat 0.5) (Py.PInt 1) = true.
Proof. vm_compute. reflexivity. Qed.

Example get_score_ex :
  Generator.get_score idea_a = Py.Ok 30%float /\ Generator.get_score idea_b = Py.Ok 21%float.
Proof. split; vm_compute; reflexivity. Qed.

(** The higher income comes first and the tie keeps its input order. *)
Example rank_ideas_ex :
  Generator.rank_ideas [idea_b; idea_a; idea_c] = Py.Ok [idea_a; idea_b; idea_c].
Proof. vm_compute. reflexivity. Qed.

Example adjust_for_user_extremes :
  Generator._adjust_for_user Str.ascii_lower Config.consulting rich_and_busy
  = (100, 12500, Py.PFloat 0.5)
  /\ Generator._adjust_for_user Str.ascii_lower Config.customization penniless
     = (500, 5000, Py.PInt 30)
  /\ Generator._adjust_for_user Str.ascii_lower Config.training None
     = (0, 1000, Py.PInt 3).
Proof. repeat split; vm_compute; reflexivity. Qed.

Lemma rank_ideas_sorted_stable_witness :
  Py.mapR Generator.get_score [idea_b; idea_a; idea_c] = Py.Ok [21; 30; 21]%float
  /\ Forall (fun k => Py.is_nan (Py.PFloat k) = false) [21; 30; 21]%float
  /\ exists ranked,
       Generator.rank_ideas [idea_b; idea_a; idea_c] = Py.Ok ranked
       /\ ranked ≡ₚ [idea_b; idea_a; idea_c]
       /\ StronglySorted score_not_below ranked
       /\ forall k, Py.is_nan (Py.PFloat k) = false ->
            List.filter (has_score k) ranked
            = List.filter (has_score k) [idea_b; idea_a; idea_c].
Proof.
  assert (Hkeys : Py.mapR Generator.get_score [idea_b; idea_a; idea_c]
                  = Py.Ok [21; 30; 21]%float) by (vm_compute; reflexivity).
  assert (Hreal : Forall (fun k => Py.is_nan (Py.PFloat k) = false) [21; 30; 21]%float)
    by (repeat constructor).
  split; [exact Hkeys |]. split; [exact Hreal |].
  exact (rank_ideas_sorted_stable [idea_b; idea_a; idea_c] [21; 30; 21]%float Hkeys Hreal).
Defined.

Lemma generated_cost_and_time_in_range_witness :
  Config.IDEA_TEMPLATES !! "consulting" = Some Config.consulting
  /\ 0 <= (Generator._adjust_for_user Str.ascii_lower Config.consulting rich_and_busy).1.1 <= 100
  /\ Py.num_le (Py.PFloat 0.5)
       (Generator._adjust_for_user Str.ascii_lower Config.consulting rich_and_busy).2 = true
  /\ Py.num_le (Generator._adjust_for_user Str.ascii_lower Config.consulting rich_and_busy).2
       (Py.PInt 2) = true.
Proof.
  assert (Hlookup : Config.IDEA_TEMPLATES !! "consulting" = Some Config.consulting)
    by reflexivity.
  split; [exact Hlookup |].
  destruct (generated_cost_and_time_in_range Str.ascii_lower "consulting" Config.consulting
              rich_and_busy Hlookup) as (Hcost & Hlow & Hhigh & _).
  split; [exact Hcost |]. split; [exact Hlow | exact Hhigh].
Defined.

Lemma add_idea_overwrites_witness :
  Pool.ideas fresh_pool = Py.VList []
  /\ exists stored s',
       Pool.add_idea sample_json_dump scored_idea fresh_pool = (Py.Ok "idea-20261104072400", s')
       /\ Pool.ideas s' = Py.VList [Py.VDict stored]
       /\ stored !! "status" = Some (Py.VStr "pending")
       /\ stored !! "score" = Some (Py.VInt 0)
       /\ stored !! "tags" = Some (Py.VList [Py.VStr "AI"])
       /\ stored !! "name" = Some (Py.VStr "deployment").
Proof.
  assert (Hideas : Pool.ideas fresh_pool = Py.VList []) by reflexivity.
  split; [exact Hideas |].
  destruct (add_idea_overwrites sample_json_dump fresh_pool [] scored_idea Hideas)
    as (stored & s' & Hrun & Hs' & _ & _ & _ & Hstatus & Hscore & Htags & Hrest).
  exists stored, s'.
  split; [exact Hrun |]. split; [exact Hs' |]. split; [exact Hstatus |].
  split; [exact Hscore |]. split; [exact Htags |].
  rewrite (Hrest "name"); [reflexivity |].
  intros H. repeat (apply elem_of_cons in H as [H | H]; [discriminate H |]).
  apply elem_of_nil in H. exact H.
Defined.

Lemma update_idea_status_absent_witness :
  Pool.ideas (after_calls started) = Py.VList [Py.VDict the_idea]
  /\ Pool.update_idea_status sample_json_dump (Py.VStr "idea-19990101000000") "failed" None
       (after_calls started)
     = (Py.Ok false, after_calls started).
Proof.
  assert (Hideas : Pool.ideas (after_calls started) = Py.VList [Py.VDict the_idea])
    by (vm_compute; reflexivity).
  split; [exact Hideas |].
  apply (proj1 (update_idea_status_absent_or_present sample_json_dump (after_calls started)
                  [Py.VDict the_idea] "idea-19990101000000" "failed" None Hideas)).
  constructor; [| constructor].
  exists (Py.VStr "idea-20261104072400"). split; vm_compute; reflexivity.
Defined.

Lemma start_execution_restamps_idea_witness :
  Pool.ideas (after_calls started) = Py.VList ([] ++ Py.VDict the_idea :: [])
  /\ Pool.executions (after_calls started) = Py.VList [Py.VDict the_execution]
  /\ the_idea !! "id" = Some (Py.VStr "idea-20261104072400")
  /\ the_idea !! "status" = Some (Py.VStr "in_progress")
  /\ exists s',
       Pool.start_execution sample_json_dump "idea-20261104072400" (after_calls started)
       = (Py.Ok "exec-20261104072405", s')
       /\ Pool.ideas s'
          = Py.VList
              [Py.VDict (<["updated_at" := Py.VStr "2026-11-04T07:24:07.000042"]> the_idea)].
Proof.
  assert (Hideas : Pool.ideas (after_calls started)
                   = Py.VList ([] ++ Py.VDict the_idea :: []))
    by (vm_compute; reflexivity).
  assert (Hexecs : Pool.executions (after_calls started) = Py.VList [Py.VDict the_execution])
    by (vm_compute; reflexivity).
  assert (Hid : the_idea !! "id" = Some (Py.VStr "idea-20261104072400"))
    by (vm_compute; reflexivity).
  assert (Hstatus : the_idea !! "status" = Some (Py.VStr "in_progress"))
    by (vm_compute; reflexivity).
  split; [exact Hideas |]. split; [exact Hexecs |]. split; [exact Hid |].
  split; [exact Hstatus |].
  destruct (start_execution_restamps_idea sample_json_dump (after_calls started)
              [Py.VDict the_execution] [] [] the_idea "idea-20261104072400"
              Hideas Hexecs (Forall_nil_2 _) Hid Hstatus) as (s' & Hrun & Hs' & _).
  exists s'. split; [exact Hrun | exact Hs'].
Defined.

(** C1 as stated fails: an execution completed with success is, by one
    more call of [complete_execution] on the same id, set to failed and
    given a later completion time. *)
Lemma second_completion_overwrites :
  let s := after_calls completed_once in
  let s' :=
    snd (Pool.perform sample_json_dump
           (Pool.CompleteExecution "exec-20261104072402" false None) s) in
  execution_views s
  = [(Some (Py.VStr "success"), Some (Py.VStr "2026-11-04T07:24:05.000042"))]
  /\ execution_views s'
     = [(Some (Py.VStr "failed"), Some (Py.VStr "2026-11-04T07:24:07.000042"))].
Proof. split; vm_compute; reflexivity. Qed.

(** C9 as stated fails: starting a second execution on an idea that is
    already in progress changes the idea record, whose [updated_at] moves
    to the time of the second call. *)
Lemma restart_changes_idea :
  let s := after_calls started in
  let s' := snd (Pool.start_execution sample_json_dump "idea-20261104072400" s) in
  idea_views s
  = [(Some (Py.VStr "in_progress"), Some (Py.VStr "2026-11-04T07:24:04.000042"))]
  /\ idea_views s'
     = [(Some (Py.VStr "in_progress"), Some (Py.VStr "2026-11-04T07:24:07.000042"))]
  /\ Pool.ideas s' <> Pool.ideas s.
Proof.
  split; [vm_compute; reflexivity |]. split; [vm_compute; reflexivity |].
  intros H.
  assert (Hviews :
    idea_views (snd (Pool.start_execution sample_json_dump "idea-20261104072400"
                       (after_calls started)))
    = idea_views (after_calls started)).
  { unfold idea_views. rewrite H. reflexivity. }
  vm_compute in Hviews. discriminate Hviews.
Qed.

(** * Further properties of the record store *)

Section PoolMore.
Import Py Pool.
Local Open Scope pool_scope.
Local Open Scope list_scope.

Variable json_dump : Value -> string.

Lemma get_idea_unfold (s : State) (idea_id : string) :
  get_idea idea_id s =
  (match iter_elems (ideas s) with
   | Raise e => Raise e
   | Ok elems => get_idea_loop idea_id elems
   end, s).
Proof.
  unfold get_idea. unfold bind at 1, get at 1. unfold bind at 1, lift at 1.
  destruct (iter_elems (ideas s)); reflexivity.
Qed.

Lemma get_idea_loop_first (idea_id : string) (before after : list Value)
    (d : gmap string Value) :
  Forall (other_record (VStr idea_id)) before ->
  d !! "id" = Some (VStr idea_id) ->
  get_idea_loop idea_id (before ++ VDict d :: after) = Ok (VDict d).
Proof.
  intros Hbefore Hid. induction Hbefore as [| x rest (id & Eid & Eeq) _ IH]; simpl.
  - unfold dict_getitem. rewrite Hid. simpl. rewrite String.eqb_refl. reflexivity.
  - rewrite Eid. simpl. rewrite Eeq. exact IH.
Qed.


Lemma stored_idea_fields (idea : gmap string Value) (now1 now2 : datetime) :
  stored_idea idea now1 now2 !! "id" = Some (VStr ("idea-" +:+ strftime now1))
  /\ stored_idea idea now1 now2 !! "status" = Some (VStr "pending")
  /\ stored_idea idea now1 now2 !! "score" = Some (VInt 0).
Proof.
  unfold stored_idea. repeat split;
    repeat first [ apply lookup_insert_eq | rewrite lookup_insert_ne by discriminate ].
Qed.


(** X2. Two ideas added while the clock shows the same second get the
    same id; both records are stored, and [get_idea] with that id
    returns the first of them. *)
Theorem add_idea_same_second_collides (s : State) (records : list Value)
    (first second : gmap string Value) :
  ideas s = VList records ->
  let idea_id := "idea-" +:+ strftime (clock s (ticks s)) in
  Forall (other_record (VStr idea_id)) records ->
  strftime (clock s (S (S (ticks s)))) = strftime (clock s (ticks s)) ->
  exists stored1 stored2 s1 s2,
    add_idea json_dump first s = (Ok idea_id, s1)
    /\ add_idea json_dump second s1 = (Ok idea_id, s2)
    /\ ideas s2 = VList (records ++ [VDict stored1; VDict stored2])
    /\ stored1 !! "id" = Some (VStr idea_id)
    /\ stored2 !! "id" = Some (VStr idea_id)
    /\ (forall k, k ∉ ["id"; "created_at"; "status"; "score"; "tags"] ->
          stored1 !! k = first !! k /\ stored2 !! k = second !! k)
    /\ get_idea idea_id s2 = (Ok (VDict stored1), s2).
Proof.
  intros Hideas idea_id Hfresh Hsame.
  exists (stored_idea first (clock s (ticks s)) (clock s (S (ticks s)))).
  exists (stored_idea second (clock s (S (S (ticks s)))) (clock s (S (S (S (ticks s)))))).
  eexists. eexists.
  destruct (stored_idea_fields first (clock s (ticks s)) (clock s (S (ticks s))))
    as (Hid1 & _ & _).
  destruct (stored_idea_fields second (clock s (S (S (ticks s))))
              (clock s (S (S (S (ticks s)))))) as (Hid2 & _ & _).
  rewrite Hsame in Hid2.
  split; [rewrite add_idea_unfold, Hideas; reflexivity |].
  split.
  { rewrite add_idea_unfold. cbn [ideas set_disk set_ideas tick clock ticks append].
    rewrite Hsame. reflexivity. }
  split.
  { cbn [ideas set_disk set_ideas]. rewrite <- app_assoc. reflexivity. }
  split; [exact Hid1 |]. split; [exact Hid2 |]. split.
  { intros k Hk. unfold stored_idea.
    split; (rewrite !lookup_insert_ne; [reflexivity | | | | |];
            intros <-; apply Hk; set_solver). }
  rewrite get_idea_unfold. cbn [ideas set_disk set_ideas iter_elems].
  rewrite <- app_assoc. cbn [app].
  rewrite (get_idea_loop_first idea_id records _ _ Hfresh Hid1). reflexivity.
Qed.

(** X3. [start_execution] on the id of an idea puts the first idea
    record with that id in status in_progress, whatever its status was,
    stamps its [updated_at] and keeps its other fields; it appends the
    new execution, reads the clock three times and returns the id of the
    execution. *)
Theorem start_execution_marks_idea (s : State) (execs before after : list Value)
    (idea : gmap string Value) (idea_id : string) :
  ideas s = VList (before ++ VDict idea :: after) ->
  executions s = VList execs ->
  Forall (other_record (VStr idea_id)) before ->
  idea !! "id" = Some (VStr idea_id) ->
  let exec_id := "exec-" +:+ strftime (clock s (ticks s)) in
  let idea' := updated_idea "in_progress" None (clock s (S (S (ticks s)))) idea in
  exists s',
    start_execution json_dump idea_id s = (Ok exec_id, s')
    /\ ideas s' = VList (before ++ VDict idea' :: after)
    /\ idea' !! "status" = Some (VStr "in_progress")
    /\ (forall k, k <> "status" -> k <> "updated_at" -> idea' !! k = idea !! k)
    /\ executions s'
       = VList (execs ++ [VDict (started_execution exec_id idea_id (clock s (S (ticks s))))])
    /\ ticks s' = S (S (S (ticks s))).
Proof.
  intros Hideas Hexecs Hbefore Hid exec_id idea'.
  rewrite (start_execution_run _ _ _ _ Hexecs). cbv zeta.
  erewrite update_idea_status_run by exact Hideas.
  rewrite (find_by_id_first _ _ _ _ Hbefore (id_matches_str _ _ Hid)).
  cbv zeta. eexists. split; [reflexivity |].
  split; [reflexivity |].
  split; [subst idea'; unfold updated_idea; simpl;
          rewrite lookup_insert_ne by discriminate; apply lookup_insert_eq |].
  split; [| split; reflexivity].
  intros k H1 H2. subst idea'. unfold updated_idea. simpl.
  rewrite !lookup_insert_ne by congruence. reflexivity.
Qed.

(** X4. [start_execution] with an id that no idea record carries still
    appends the execution and returns its id; the ideas and their
    backing file are left as they were. *)
Theorem start_execution_unknown_idea (s : State) (records execs : list Value)
    (idea_id : string) :
  ideas s = VList records ->
  executions s = VList execs ->
  Forall (other_record (VStr idea_id)) records ->
  let exec_id := "exec-" +:+ strftime (clock s (ticks s)) in
  exists s',
    start_execution json_dump idea_id s = (Ok exec_id, s')
    /\ ideas s' = ideas s
    /\ read_file (disk s') IdeasFile = read_file (disk s) IdeasFile
    /\ executions s'
       = VList (execs ++ [VDict (started_execution exec_id idea_id (clock s (S (ticks s))))]).
Proof.
  intros Hideas Hexecs Habsent exec_id.
  rewrite (start_execution_run _ _ _ _ Hexecs). cbv zeta.
  erewrite update_idea_status_run by exact Hideas.
  rewrite (find_by_id_absent _ _ Habsent).
  eexists. split; [reflexivity |]. repeat split.
Qed.

(** X5. [complete_execution] on the id of an execution whose [idea_id]
    names an idea returns [True], marks the first execution with that id
    as success or failed, and passes the outcome on to the first idea
    with that [idea_id]: status completed or failed, [updated_at]
    stamped with the next reading of the clock, and the notes when some
    are given. *)
Theorem complete_execution_cascades (s : State)
    (ebefore eafter ibefore iafter : list Value) (execution idea : gmap string Value)
    (exec_id idea_id : string) (success : bool) (notes : option string) :
  executions s = VList (ebefore ++ VDict execution :: eafter) ->
  Forall (other_record (VStr exec_id)) ebefore ->
  execution !! "id" = Some (VStr exec_id) ->
  execution !! "idea_id" = Some (VStr idea_id) ->
  ideas s = VList (ibefore ++ VDict idea :: iafter) ->
  Forall (other_record (VStr idea_id)) ibefore ->
  idea !! "id" = Some (VStr idea_id) ->
  let execution' := completed_execution success notes (clock s (ticks s)) execution in
  let idea' :=
    updated_idea (if success then "completed" else "failed") notes (clock s (S (ticks s)))
      idea in
  exists s',
    complete_execution json_dump exec_id success notes s = (Ok true, s')
    /\ executions s' = VList (ebefore ++ VDict execution' :: eafter)
    /\ ideas s' = VList (ibefore ++ VDict idea' :: iafter)
    /\ idea' !! "status" = Some (VStr (if success then "completed" else "failed"))
    /\ (truthy notes = true -> idea' !! "notes" = Some (VStr (default "" notes))).
Proof.
  intros Hexecs Heb Heid Hidea Hideas Hib Hiid execution' idea'.
  rewrite complete_execution_unfold, Hexecs. cbn [iter_elems].
  rewrite (find_by_id_first _ _ _ _ Heb (id_matches_str _ _ Heid)). cbv zeta.
  assert (Hget : dict_getitem (completed_execution success notes (clock s (ticks s)) execution)
                   "idea_id" = Ok (VStr idea_id)).
  { unfold dict_getitem. rewrite completed_execution_keeps by discriminate.
    rewrite Hidea. reflexivity. }
  rewrite Hget.
  erewrite update_idea_status_run by exact Hideas.
  rewrite (find_by_id_first _ _ _ _ Hib (id_matches_str _ _ Hiid)). cbv zeta.
  eexists. split; [reflexivity |]. split; [reflexivity |]. split; [reflexivity |].
  subst idea'. unfold updated_idea. split.
  - destruct (truthy notes); simpl;
      repeat first [ apply lookup_insert_eq | rewrite lookup_insert_ne by discriminate ].
  - intros ->. apply lookup_insert_eq.
Qed.

(** X6. With an execution id that no execution record carries,
    [add_execution_step], [add_execution_log] and [complete_execution]
    return [False] and change nothing, not even the clock. *)
Theorem unknown_execution_id_is_refused (s : State) (execs : list Value) (exec_id : string) :
  executions s = VList execs ->
  Forall (other_record (VStr exec_id)) execs ->
  (forall step status, add_execution_step json_dump exec_id step status s = (Ok false, s))
  /\ (forall log, add_execution_log json_dump exec_id log s = (Ok false, s))
  /\ (forall success notes,
        complete_execution json_dump exec_id success notes s = (Ok false, s)).
Proof.
  intros Hexecs Habsent. split; [| split].
  - intros step status. unfold add_execution_step.
    unfold bind at 1, get at 1. unfold bind at 1, lift at 1. rewrite Hexecs.
    cbn [iter_elems]. rewrite add_execution_entry_unfold.
    rewrite (find_by_id_absent _ _ Habsent). reflexivity.
  - intros log. unfold add_execution_log.
    unfold bind at 1, get at 1. unfold bind at 1, lift at 1. rewrite Hexecs.
    cbn [iter_elems]. rewrite add_execution_entry_unfold.
    rewrite (find_by_id_absent _ _ Habsent). reflexivity.
  - intros success notes. rewrite complete_execution_unfold, Hexecs. cbn [iter_elems].
    rewrite (find_by_id_absent _ _ Habsent). reflexivity.
Qed.

(** X7. [add_execution_step] and [add_execution_log] on the id of an
    execution return [True] and add one entry, stamped with the time of
    the call, at the end of the steps (resp. the logs) of the first
    execution with that id; the entries already there and every other
    field of the execution stay as they were. *)
Theorem execution_trail_is_appended (s : State) (before after : list Value)
    (execution : gmap string Value) (exec_id : string) (steps logs : list Value) :
  executions s = VList (before ++ VDict execution :: after) ->
  Forall (other_record (VStr exec_id)) before ->
  execution !! "id" = Some (VStr exec_id) ->
  execution !! "steps" = Some (VList steps) ->
  execution !! "logs" = Some (VList logs) ->
  let now := VStr (isoformat (clock s (ticks s))) in
  (forall step status,
      let entry :=
        VDict (list_to_map [("step", VStr step); ("status", VStr status); ("timestamp", now)]) in
      exists s',
        add_execution_step json_dump exec_id step status s = (Ok true, s')
        /\ executions s'
           = VList (before ++ VDict (<["steps" := VList (steps ++ [entry])]> execution) :: after))
  /\ (forall log,
        let entry := VDict (list_to_map [("log", VStr log); ("timestamp", now)]) in
        exists s',
          add_execution_log json_dump exec_id log s = (Ok true, s')
          /\ executions s'
             = VList (before ++ VDict (<["logs" := VList (logs ++ [entry])]> execution) :: after)).
Proof.
  intros Hexecs Hbefore Hid Hsteps Hlogs now. split.
  - intros step status entry. unfold add_execution_step.
    unfold bind at 1, get at 1. unfold bind at 1, lift at 1. rewrite Hexecs.
    cbn [iter_elems]. rewrite add_execution_entry_unfold.
    rewrite (find_by_id_first _ _ _ _ Hbefore (id_matches_str _ _ Hid)).
    unfold dict_getitem. rewrite Hsteps. cbv zeta.
    eexists. split; reflexivity.
  - intros log entry. unfold add_execution_log.
    unfold bind at 1, get at 1. unfold bind at 1, lift at 1. rewrite Hexecs.
    cbn [iter_elems]. rewrite add_execution_entry_unfold.
    rewrite (find_by_id_first _ _ _ _ Hbefore (id_matches_str _ _ Hid)).
    unfold dict_getitem. rewrite Hlogs. cbv zeta.
    eexists. split; reflexivity.
Qed.

Lemma same_but_refl (keys : list string) (x : Value) : same_but keys x x.
Proof. left. reflexivity. Qed.


Lemma kept_but_refl (keys : list string) (v : Value) : kept_but keys v v.
Proof. intros l i x Hv Hi. exists l, x. auto using same_but_refl. Qed.


Lemma kept_but_eq (keys : list string) (v v' : Value) : v' = v -> kept_but keys v v'.
Proof. intros ->. apply kept_but_refl. Qed.






Lemma find_by_id_no_id (wanted : Value) (before after : list Value)
    (d : gmap string Value) :
  Forall (other_record wanted) before ->
  d !! "id" = None ->
  find_by_id wanted (before ++ VDict d :: after) = Failed KeyError.
Proof.
  intros Hbefore Hnone. induction Hbefore as [| x rest (id & Eid & Eeq) _ IH]; simpl.
  - unfold dict_getitem. rewrite Hnone. reflexivity.
  - rewrite Eid, Eeq, IH. reflexivity.
Qed.

(** X10. A record without an id is fatal for the lookups that reach it:
    when no record before it carries the wanted id, [update_idea_status]
    and [get_idea] end in [KeyError], and the state is left as it was. *)
Theorem record_without_id_raises (s : State) (before after : list Value)
    (d : gmap string Value) (idea_id : string) :
  ideas s = VList (before ++ VDict d :: after) ->
  Forall (other_record (VStr idea_id)) before ->
  d !! "id" = None ->
  (forall status notes,
      update_idea_status json_dump (VStr idea_id) status notes s = (Raise KeyError, s))
  /\ get_idea idea_id s = (Raise KeyError, s).
Proof.
  intros Hideas Hbefore Hnone. split.
  - intros status notes. rewrite (update_idea_status_run _ _ _ _ _ _ Hideas).
    rewrite (find_by_id_no_id _ _ _ _ Hbefore Hnone). reflexivity.
  - rewrite get_idea_unfold, Hideas. cbn [iter_elems]. f_equal.
    clear Hideas. induction Hbefore as [| x rest (id & Eid & Eeq) _ IH]; simpl.
    + unfold dict_getitem. rewrite Hnone. reflexivity.
    + rewrite Eid. simpl. rewrite Eeq. exact IH.
Qed.

Variable json_load : string -> option Value.

(** X11. The content of a backing file is not checked beyond being JSON:
    a file that parses to something other than a list becomes the
    collection as it is, and [add_idea] on that store ends in
    [AttributeError], with nothing stored and nothing written. *)
Theorem unchecked_collection_breaks_add_idea (d : Disk) (clk : nat -> datetime)
    (text : string) (v : Value) (idea : gmap string Value) :
  ideas_json d = Content text ->
  json_load text = Some v ->
  (forall l, v <> VList l) ->
  let s := new_pool json_load d clk in
  ideas s = v
  /\ exists s',
       add_idea json_dump idea s = (Raise AttributeError, s')
       /\ ideas s' = v /\ disk s' = d.
Proof.
  intros Hfile Hload Hshape s.
  assert (Hideas : ideas s = v).
  { subst s. unfold new_pool, _load_data. simpl. rewrite Hfile. simpl. rewrite Hload.
    reflexivity. }
  split; [exact Hideas |].
  rewrite add_idea_unfold, Hideas. cbv zeta.
  destruct v as [| b | z | f | t | l | m]; try (eexists; split; [reflexivity |]; split;
    [exact Hideas | reflexivity]).
  exfalso. exact (Hshape l eq_refl).
Qed.

End PoolMore.

(** * Further properties of the analyzer *)

Section AnalyzerMore.
Import Py Config Generator Scorer.
Local Open Scope list_scope.

Variable lower : string -> string.

(** X12. The score of every descriptor lies between 15 and 100, and it
    is a multiple of 5 or 2 more than one: the scores 49 and 69 next to
    the tier boundaries are never produced. *)
Theorem score_range (project : Project) :
  let score := snd (analyze_potential lower project) in
  15 <= score <= 100
  /\ (score mod 5 = 0 \/ score mod 5 = 2)
  /\ score <> 49 /\ score <> 69.
Proof.
  cbv zeta. unfold analyze_potential. cbn [snd].
  generalize (lower (default "" (p_description project))) as description.
  generalize (lower (default "" (p_language project))) as language.
  generalize (default 0 (p_stars project)) as stars.
  generalize (default 0 (p_trending_stars project)) as trending.
  intros trending stars language description.
  unfold stars_band, trending_band, tech_band, monetization_band, business_band.
  repeat match goal with
         | |- context [if ?b then _ else _] => destruct b
         end; cbn; repeat split; try lia; auto.
Qed.

Lemma suitable_types_sublist (project : Project) :
  sublist (_analyze_suitable_types lower project) catalogue_order.
Proof.
  unfold _analyze_suitable_types, catalogue_order.
  generalize (lower (default "" (p_description project))) as description.
  intros description.
  destruct (default 0 (p_stars project) >? 50);
    destruct (Str.any_in consulting_keywords description);
    destruct (Str.any_in training_keywords description || (default 0 (p_stars project) >? 100));
    destruct (Str.any_in customization_keywords description);
    cbn; repeat first [ apply sublist_nil | apply sublist_skip; solve [repeat constructor]
                      | apply sublist_cons ];
    repeat constructor.
Qed.

Lemma catalogue_has_templates (types : list string) :
  sublist types catalogue_order -> Forall (fun t => is_Some (IDEA_TEMPLATES !! t)) types.
Proof.
  intros Hsub. apply Forall_forall. intros t Ht.
  assert (Hin : t ∈ catalogue_order) by (eapply elem_of_sublist; eassumption).
  unfold catalogue_order in Hin.
  repeat (apply elem_of_cons in Hin as [-> | Hin]; [eexists; reflexivity |]).
  apply elem_of_nil in Hin. destruct Hin.
Qed.

Lemma ideas_follow_types (project : Project) (preferences : option Preferences)
    (types : list string) :
  Forall (fun t => is_Some (IDEA_TEMPLATES !! t)) types ->
  map (fun idea : gmap string Value => idea !! "type")
    (flat_map
       (fun idea_type =>
          match IDEA_TEMPLATES !! idea_type with
          | None => []
          | Some template =>
              let '(cost, income, time) := _adjust_for_user lower template preferences in
              [ list_to_map
                  [("type", VStr idea_type);
                   ("name", VStr (format_project_name (t_name template)
                                    (Str.last_segment (default "" (p_name project)))));
                   ("description",
                     VStr (format_project_name (t_description template)
                             (Str.last_segment (default "" (p_name project)))));
                   ("target_users", VList (map VStr (t_target_users template)));
                   ("cost", VInt cost);
                   ("expected_income", VInt income);
                   ("time_needed", num_value time);
                   ("project", VStr (Str.last_segment (default "" (p_name project))));
                   ("project_url", VStr (default "" (p_url project)))] ]
          end)
       types)
  = map (fun t => Some (VStr t)) types.
Proof.
  induction 1 as [| t types [template Ht] _ IH]; [reflexivity |].
  cbn [flat_map]. rewrite Ht.
  destruct (_adjust_for_user lower template preferences) as [[cost income] time].
  cbn [app map]. rewrite IH. reflexivity.
Qed.

(** X13. The suitable types are picked in the order of the catalogue,
    each at most once, between one and four of them; each has a
    template, so [generate_ideas] returns exactly one idea per suitable
    type, in the same order. *)
Theorem one_idea_per_suitable_type (project : Project) (preferences : option Preferences) :
  let types := _analyze_suitable_types lower project in
  let ideas := generate_ideas lower project preferences in
  sublist types catalogue_order
  /\ NoDup types
  /\ (1 <= length types <= 4)%nat
  /\ map (fun idea : gmap string Value => idea !! "type") ideas
     = map (fun t => Some (VStr t)) types
  /\ length ideas = length types.
Proof.
  intros types ideas.
  pose proof (suitable_types_sublist project) as Hsub. fold types in Hsub.
  assert (Hmap : map (fun idea : gmap string Value => idea !! "type") ideas
                 = map (fun t => Some (VStr t)) types).
  { apply ideas_follow_types, catalogue_has_templates, Hsub. }
  split; [exact Hsub |]. split.
  { apply (sublist_NoDup types catalogue_order); [| exact Hsub]. unfold catalogue_order.
    compute_done. }
  split.
  { split.
    - destruct types eqn:E; [| simpl; lia].
      exfalso. subst types. revert E. unfold _analyze_suitable_types.
      match goal with |- match ?l with _ => _ end = _ -> _ => destruct l end; discriminate.
    - apply sublist_length in Hsub. exact Hsub. }
  split; [exact Hmap |].
  rewrite <- (length_map (fun idea : gmap string Value => idea !! "type") ideas), Hmap.
  apply length_map.
Qed.

Lemma template_income_ordered (idea_type : string) (template : Template) :
  IDEA_TEMPLATES !! idea_type = Some template ->
  fst (income_range template) <= snd (income_range template).
Proof.
  intros H. apply elem_of_list_to_map_2 in H.
  repeat (apply elem_of_cons in H as [H | H]; [injection H as _ ->; simpl; lia |]).
  apply elem_of_nil in H. destruct H.
Qed.

(** X14. For each template of the catalogue the expected income is the
    minimum of the range, or its midpoint (rounded down) when
    preferences are given and one of the skills, lower-cased, is among
    python, ai, web and javascript; it is always within the range. An
    empty preferences dict counts as no preferences; one that has other
    keys but neither budget nor time is read with budget 1000 and two
    days. *)
Theorem expected_income_choice (idea_type : string) (template : Template)
    (preferences : option Preferences) :
  IDEA_TEMPLATES !! idea_type = Some template ->
  let low := fst (income_range template) in
  let high := snd (income_range template) in
  let income := (_adjust_for_user lower template preferences).1.2 in
  let skilled :=
    negb (no_preferences preferences)
    && existsb (fun s => Str.mem (lower s) monetizable_skills)
         (default [] (preferences ≫= skills)) in
  income = (if skilled then (low + high) / 2 else low)
  /\ low <= income <= high
  /\ _adjust_for_user lower template
       (Some {| budget := None; time_available := None; skills := None; interests := None |})
     = _adjust_for_user lower template None
  /\ (forall known liked,
        known <> None \/ liked <> None ->
        let defaults :=
          _adjust_for_user lower template
            (Some {| budget := None; time_available := None;
                     skills := known; interests := liked |}) in
        defaults.1.1 = Z.min (snd (cost_range template)) (Z.max (fst (cost_range template)) 500)
        /\ defaults.2
           = min2 (snd (time_range template)) (max2 (fst (time_range template)) (PInt 2))).
Proof.
  intros Hlookup low high income skilled.
  pose proof (template_income_ordered _ _ Hlookup) as Hle. fold low high in Hle.
  assert (Hincome : income = if skilled then (low + high) / 2 else low).
  { subst income skilled. unfold _adjust_for_user.
    destruct (no_preferences preferences); simpl; [reflexivity |].
    destruct (existsb _ _); reflexivity. }
  split; [exact Hincome |]. split.
  { rewrite Hincome. destruct skilled; [| lia].
    split; [apply Z.div_le_lower_bound; lia | apply Z.div_le_upper_bound; lia]. }
  split; [reflexivity |].
  intros known liked Hsome defaults. subst defaults. unfold _adjust_for_user.
  assert (Hgiven : no_preferences
                     (Some {| budget := None; time_available := None;
                              skills := known; interests := liked |}) = false).
  { simpl. destruct known, liked; try reflexivity. destruct Hsome; congruence. }
  rewrite Hgiven. simpl. split; reflexivity.
Qed.

End AnalyzerMore.

(** * Further properties of the ranker *)

Section SortedInput.
Import Py.
Local Open Scope list_scope.

Context {A : Type} (lt : A -> A -> bool).

Lemma insert_by_last (x : A) (l : list A) :
  Forall (fun y => lt x y = false) l -> insert_by lt x l = l ++ [x].
Proof.
  induction 1 as [| y l Hy _ IH]; simpl; [reflexivity |].
  rewrite Hy, IH. reflexivity.
Qed.

Lemma foldl_insert_sorted (l acc : list A) :
  StronglySorted (ascending lt) (acc ++ l) ->
  foldl (fun acc x => insert_by lt x acc) acc l = acc ++ l.
Proof.
  revert acc. induction l as [| x l IH]; intros acc Hs; simpl.
  - rewrite app_nil_r. reflexivity.
  - assert (Hlast : insert_by lt x acc = acc ++ [x]).
    { apply insert_by_last. apply Forall_forall. intros y Hy.
      apply StronglySorted_app in Hs as (Hcross & _ & _).
      apply (Hcross y x Hy). left. }
    rewrite Hlast. rewrite IH; rewrite <- app_assoc; [reflexivity | exact Hs].
Qed.

Lemma stable_sort_sorted (l : list A) :
  StronglySorted (ascending lt) l -> stable_sort lt l = l.
Proof. intros Hs. apply (foldl_insert_sorted l []). exact Hs. Qed.

End SortedInput.

Section RankerMore.
Import Py Generator.
Local Open Scope list_scope.

Lemma mapR_of_keyed (l : list (float * gmap string Value)) :
  Forall keyed_by_score l -> mapR get_score l.*2 = Ok l.*1.
Proof.
  induction 1 as [| x l Hx _ IH]; [reflexivity |].
  cbn [fmap list_fmap mapR]. unfold keyed_by_score in Hx. rewrite Hx. simpl.
  change (mapR get_score (list_fmap _ _ snd l)) with (mapR get_score l.*2).
  rewrite IH. reflexivity.
Qed.

Lemma sorted_reverse_again {B} (keyed : list (float * B)) :
  Forall real_key keyed ->
  sorted_reverse float_lt (sorted_reverse float_lt keyed) = sorted_reverse float_lt keyed.
Proof.
  intros Hreal.
  change (sorted_reverse float_lt keyed) with (rev (stable_sort key_lt (rev keyed))).
  change (sorted_reverse float_lt (rev (stable_sort key_lt (rev keyed))))
    with (rev (stable_sort key_lt (rev (rev (stable_sort key_lt (rev keyed)))))).
  rewrite rev_involutive. f_equal. apply stable_sort_sorted.
  assert (Hrev : Forall real_key (rev keyed)).
  { rewrite <- Permutation_rev. exact Hreal. }
  apply (stable_sort_spec key_lt real_key
           (fun a _ => num_lt_irrefl _)
           (fun a b c _ _ _ => num_lt_trans _ _ _)
           (fun a b c Ha Hb Hc => num_not_lt_trans _ _ _ Ha Hb Hc)
           (rev keyed) Hrev).
Qed.

(** X15. Ranking is idempotent: when every idea has a score that is not
    a NaN, ranking the ranked list returns it unchanged. *)
Theorem rank_ideas_idempotent (ideas : list (gmap string Value)) (keys : list float) :
  mapR get_score ideas = Ok keys ->
  Forall (fun k => is_nan (PFloat k) = false) keys ->
  exists ranked, rank_ideas ideas = Ok ranked /\ rank_ideas ranked = Ok ranked.
Proof.
  intros Hkeys Hreal. unfold rank_ideas at 1. rewrite Hkeys. simpl.
  eexists. split; [reflexivity |].
  pose proof (mapR_Forall2 _ _ _ Hkeys) as Hall.
  pose proof (zip_keyed _ _ Hall) as Hscore.
  pose proof (zip_real_keys ideas keys Hreal) as Hr.
  destruct (sorted_reverse_spec (zip keys ideas) Hr) as (Hperm & _ & _).
  assert (Hs' : Forall keyed_by_score (sorted_reverse float_lt (zip keys ideas))).
  { rewrite Hperm. exact Hscore. }
  unfold rank_ideas. rewrite (mapR_of_keyed _ Hs'). simpl.
  rewrite zip_fst_snd. rewrite (sorted_reverse_again _ Hr). reflexivity.
Qed.

Lemma mapR_first_failure {B C} (f : B -> Result C) (before after : list B) (x : B)
    (ys : list C) (e : exn) :
  mapR f before = Ok ys -> f x = Raise e -> mapR f (before ++ x :: after) = Raise e.
Proof.
  revert ys. induction before as [| b before IH]; intros ys Hb Hx; simpl.
  - rewrite Hx. reflexivity.
  - simpl in Hb. destruct (f b) as [y | e']; simpl in *; [| discriminate].
    destruct (mapR f before) as [ys' | e']; simpl in *; [| discriminate].
    rewrite (IH ys' eq_refl Hx). reflexivity.
Qed.

(** X16. [rank_ideas] needs the three figures on every idea: it ends in
    the exception of the first idea that has no score, before anything
    is sorted. An idea without [expected_income] gives [KeyError]; one
    whose [expected_income] is not a number gives [TypeError]; one whose
    income divides by 1000 but that has no [time_needed] gives
    [KeyError]. *)
Theorem rank_ideas_needs_figures :
  (forall before after idea keys e,
      mapR get_score before = Ok keys -> get_score idea = Raise e ->
      rank_ideas (before ++ idea :: after) = Raise e)
  /\ (forall idea, idea !! "expected_income" = None -> get_score idea = Raise KeyError)
  /\ (forall idea v,
        idea !! "expected_income" = Some v -> as_num v = None ->
        get_score idea = Raise TypeError)
  /\ (forall idea income quotient,
        idea !! "expected_income" = Some income ->
        v_truediv income (VInt 1000) = Ok quotient ->
        idea !! "time_needed" = None ->
        get_score idea = Raise KeyError).
Proof.
  split; [| split; [| split]].
  - intros before after idea keys e Hbefore Hidea. unfold rank_ideas.
    rewrite (mapR_first_failure _ _ _ _ _ _ Hbefore Hidea). reflexivity.
  - intros idea Hnone. unfold get_score, dict_getitem. rewrite Hnone. reflexivity.
  - intros idea v Hv Hnum. unfold get_score, dict_getitem. rewrite Hv. simpl.
    unfold v_truediv. rewrite Hnum. reflexivity.
  - intros idea income quotient Hincome Hdiv Htime. unfold get_score, dict_getitem.
    rewrite Hincome, Htime. cbn [rbind]. rewrite Hdiv. reflexivity.
Qed.

End RankerMore.

(** ** Ideas from hot content *)
Section HotTopicsFacts.
Import Py HotTopics.
Local Open Scope list_scope.

Variable lower : string -> string.

Lemma add_points_count (points : Z) (keywords : list string) (text : string) (score : Z) :
  add_points points keywords text score
  = score + points * Z.of_nat (length (List.filter (fun k => Str.contains k text) keywords)).
Proof.
  unfold add_points. revert score.
  induction keywords as [| k ks IH]; intros score; simpl; [lia |].
  rewrite IH. destruct (Str.contains k text); simpl length; lia.
Qed.

Lemma filter_length_le {A} (f : A -> bool) (l : list A) :
  (length (List.filter f l) <= length l)%nat.
Proof. induction l as [| x l IH]; simpl; [lia |]. destruct (f x); simpl; lia. Qed.

Lemma potential_bounds (item : HotItem) :
  0 <= _analyze_potential lower item <= 100.
Proof.
  unfold _analyze_potential. cbv zeta. rewrite !add_points_count.
  destruct (String.eqb _ "github"); [| destruct (String.eqb _ "bilibili")]; lia.
Qed.

(** X17: the potential of an item of hot content is a multiple of 5
    between 0 and 100; an item whose source is GitHub has at least 15
    and one whose source is Bilibili at least 10, so neither is ever
    dropped for want of keywords. *)
Theorem hot_potential_range (item : HotItem) :
  0 <= _analyze_potential lower item <= 100
  /\ (5 | _analyze_potential lower item)
  /\ (h_source item = Some "github" -> 15 <= _analyze_potential lower item)
  /\ (h_source item = Some "bilibili" -> 10 <= _analyze_potential lower item).
Proof.
  unfold _analyze_potential. cbv zeta.
  set (text := lower (default "" (h_title item)) +:+ " "
               +:+ lower (default "" (h_description item))).
  rewrite !add_points_count.
  set (a := Z.of_nat (length (List.filter (fun k => Str.contains k text) money_keywords))).
  set (b := Z.of_nat (length (List.filter (fun k => Str.contains k text) ai_keywords))).
  set (c := Z.of_nat (length (List.filter (fun k => Str.contains k text) tool_keywords))).
  assert (Ha : 0 <= a) by (subst a; lia).
  assert (Hb : 0 <= b) by (subst b; lia).
  assert (Hc : 0 <= c) by (subst c; lia).
  split; [| split; [| split]].
  - destruct (String.eqb _ "github"); [| destruct (String.eqb _ "bilibili")]; lia.
  - destruct (String.eqb _ "github"); [| destruct (String.eqb _ "bilibili")];
      (apply Z.min_case; [| exists 20; reflexivity]).
    + exists (4 * a + 3 * b + 2 * c + 3). lia.
    + exists (4 * a + 3 * b + 2 * c + 2). lia.
    + exists (4 * a + 3 * b + 2 * c). lia.
  - intros ->. simpl. lia.
  - intros ->. simpl. lia.
Qed.

Lemma ideas_of_source_elem (source : string) (items : list HotItem) (idea : HotIdea) :
  idea ∈ ideas_of_source lower source items <->
  exists item, item ∈ items /\ 0 < _analyze_potential lower item
               /\ idea = idea_of_item lower source item.
Proof.
  unfold ideas_of_source. rewrite list_elem_of_In, in_flat_map. split.
  - intros (item & Hin & Hidea). exists item. rewrite list_elem_of_In. split; [exact Hin |].
    destruct (_analyze_potential lower item >? 0) eqn:Hpos; simpl in Hidea;
      [| contradiction].
    destruct Hidea as [<- | []]. split; [lia | reflexivity].
  - intros (item & Hin & Hpos & ->). exists item. rewrite <- list_elem_of_In.
    split; [exact Hin |].
    replace (_analyze_potential lower item >? 0) with true by lia.
    left. reflexivity.
Qed.

Lemma candidates_elem (hot_data : list (string * list HotItem)) (idea : HotIdea) :
  idea ∈ candidates lower hot_data <->
  exists source items item,
    (source, items) ∈ hot_data /\ item ∈ items
    /\ 0 < _analyze_potential lower item /\ idea = idea_of_item lower source item.
Proof.
  unfold candidates. rewrite list_elem_of_In, in_flat_map. split.
  - intros ([source items] & Hin & Hidea). simpl in Hidea.
    apply list_elem_of_In, ideas_of_source_elem in Hidea as (item & Hitem & Hpos & ->).
    exists source, items, item. rewrite list_elem_of_In. auto.
  - intros (source & items & item & Hin & Hitem & Hpos & ->).
    exists (source, items). rewrite <- list_elem_of_In. split; [exact Hin |].
    simpl. apply list_elem_of_In, ideas_of_source_elem. eauto.
Qed.

Lemma ranked_spec (ideas : list HotIdea) :
  let keyed := map (fun idea => (i_potential idea, idea)) ideas in
  (sorted_reverse Z.ltb keyed).*2 ≡ₚ ideas
  /\ StronglySorted outranks (sorted_reverse Z.ltb keyed).*2
  /\ forall p,
       List.filter (fun idea => (i_potential idea =? p)%Z) (sorted_reverse Z.ltb keyed).*2
       = List.filter (fun idea => (i_potential idea =? p)%Z) ideas.
Proof.
  intros keyed.
  assert (Hkeys : forall l : list (Z * HotIdea),
             Forall (fun e => e.1 = i_potential e.2) l -> map (fun idea => (i_potential idea, idea)) l.*2 = l).
  { induction 1 as [| [k x] l Hx _ IH]; simpl in *; [reflexivity |]. subst k. f_equal. exact IH. }
  assert (Hwf : Forall (fun e => e.1 = i_potential e.2) keyed).
  { subst keyed. apply Forall_forall. intros e He.
    apply list_elem_of_In, in_map_iff in He as (x & <- & _). reflexivity. }
  change (sorted_reverse Z.ltb keyed) with (rev (stable_sort by_potential (rev keyed))).
  destruct (stable_sort_spec by_potential (fun _ => True)
              (fun a _ => Z.ltb_irrefl _)
              (fun a b c _ _ _ Hab Hbc =>
                 proj2 (Z.ltb_lt _ _)
                   (Z.lt_trans _ _ _ (proj1 (Z.ltb_lt _ _) Hab) (proj1 (Z.ltb_lt _ _) Hbc)))
              (fun a b c _ _ _ Hab Hbc =>
                 proj2 (Z.ltb_ge _ _)
                   (Z.le_trans _ _ _ (proj1 (Z.ltb_ge _ _) Hbc) (proj1 (Z.ltb_ge _ _) Hab)))
              (rev keyed)) as (Hperm & Hsorted & Hstable).
  { apply Forall_forall. auto. }
  assert (Hall : rev (stable_sort by_potential (rev keyed)) ≡ₚ keyed).
  { rewrite <- Permutation_rev, Hperm, <- Permutation_rev. reflexivity. }
  split; [| split].
  - rewrite Hall. subst keyed. rewrite <- list_fmap_compose. simpl.
    rewrite list_fmap_id. reflexivity.
  - apply (StronglySorted_rev by_potential) in Hsorted.
    assert (Hwf' : Forall (fun e => e.1 = i_potential e.2)
                     (rev (stable_sort by_potential (rev keyed)))).
    { rewrite Hall. exact Hwf. }
    revert Hsorted Hwf'. generalize (rev (stable_sort by_potential (rev keyed))).
    induction 1 as [| e l Hs IH He]; intros Hl; simpl; constructor.
    + apply IH. inversion Hl; assumption.
    + inversion Hl as [| ? ? He1 Hl1]; subst.
      rewrite Forall_fmap. rewrite Forall_forall in He, Hl1 |- *.
      intros e' He'. specialize (He e' He'). specialize (Hl1 e' He').
      unfold descending, by_potential in He. unfold outranks. simpl.
      rewrite <- He1, <- Hl1. lia.
  - intros p.
    assert (Hwf' : Forall (fun e => e.1 = i_potential e.2)
                     (rev (stable_sort by_potential (rev keyed)))).
    { rewrite Hall. exact Hwf. }
    assert (Hx0 : ideas = [] \/ exists x0 : HotIdea, True).
    { destruct ideas as [| x0 rest]; [left; reflexivity | right; exists x0; exact I]. }
    destruct Hx0 as [Hnil | [x0 _]]; [subst ideas; reflexivity |].
    assert (Hfilter : forall l : list (Z * HotIdea),
               Forall (fun e => e.1 = i_potential e.2) l ->
               List.filter (fun idea => (i_potential idea =? p)%Z) l.*2
               = (List.filter (tied by_potential (p, x0)) l).*2).
    { induction 1 as [| [k x] l Hx _ IH]; simpl in *; [reflexivity |]. subst k.
      unfold tied at 1, by_potential at 1 2. simpl.
      destruct (i_potential x =? p)%Z eqn:E.
      - apply Z.eqb_eq in E. rewrite E, Z.ltb_irrefl. simpl. f_equal. exact IH.
      - apply Z.eqb_neq in E.
        destruct (p <? i_potential x)%Z eqn:E1; destruct (i_potential x <? p)%Z eqn:E2;
          simpl; try exact IH; lia. }
    rewrite (Hfilter _ Hwf'), List.filter_rev, Hstable by exact I.
    rewrite List.filter_rev, rev_involutive, <- (Hfilter _ Hwf).
    subst keyed. rewrite <- list_fmap_compose. simpl. rewrite list_fmap_id. reflexivity.
Qed.

Lemma generate_ideas_from_hot_unfold (hot_data : list (string * list HotItem)) :
  generate_ideas_from_hot lower hot_data
  = take 10 (sorted_reverse Z.ltb
               (map (fun idea => (i_potential idea, idea)) (candidates lower hot_data))).*2.
Proof. reflexivity. Qed.

Lemma StronglySorted_take {A} (R : A -> A -> Prop) (n : nat) (l : list A) :
  StronglySorted R l -> StronglySorted R (take n l).
Proof.
  intros H. revert n. induction H as [| x l Hs IH Hx]; intros [| n]; simpl;
    try constructor; [apply IH |].
  apply Forall_take. exact Hx.
Qed.

(** X18: [generate_ideas_from_hot] returns at most ten ideas, ranked
    from the highest potential down. Each one is built from an item of
    the data, under the source it was filed under, and carries that
    item's potential, which is positive. *)
Theorem hot_ideas_ranked (hot_data : list (string * list HotItem)) :
  let ideas := generate_ideas_from_hot lower hot_data in
  length ideas = Nat.min 10 (length (candidates lower hot_data))
  /\ StronglySorted outranks ideas
  /\ forall idea, idea ∈ ideas ->
       0 < i_potential idea <= 100
       /\ exists source items item,
            (source, items) ∈ hot_data /\ item ∈ items
            /\ idea = idea_of_item lower source item.
Proof.
  intros ideas. subst ideas. rewrite generate_ideas_from_hot_unfold.
  destruct (ranked_spec (candidates lower hot_data)) as (Hperm & Hsorted & _).
  cbv zeta in Hperm, Hsorted. split; [| split].
  - rewrite length_take, Hperm. reflexivity.
  - apply StronglySorted_take. exact Hsorted.
  - intros idea Hin. apply subseteq_take in Hin. rewrite Hperm in Hin.
    apply candidates_elem in Hin as (source & items & item & Hdata & Hitem & Hpos & ->).
    split.
    + simpl. pose proof (potential_bounds item). lia.
    + eauto 6.
Qed.

(** X19: the ten ideas returned are the best ones: an idea that
    qualifies and is left out has no more potential than any idea
    returned. With ten qualifying ideas or fewer, all of them are
    returned. Ideas of equal potential come in the order in which the
    data holds them. *)
Theorem hot_ideas_are_the_best (hot_data : list (string * list HotItem)) :
  let ideas := generate_ideas_from_hot lower hot_data in
  (forall left_out, left_out ∈ candidates lower hot_data -> left_out ∉ ideas ->
     Forall (fun idea => outranks idea left_out) ideas)
  /\ ((length (candidates lower hot_data) <= 10)%nat -> ideas ≡ₚ candidates lower hot_data)
  /\ forall p,
       List.filter (fun idea => (i_potential idea =? p)%Z) ideas
       `prefix_of` List.filter (fun idea => (i_potential idea =? p)%Z)
                     (candidates lower hot_data).
Proof.
  intros ideas. subst ideas. rewrite generate_ideas_from_hot_unfold.
  destruct (ranked_spec (candidates lower hot_data)) as (Hperm & Hsorted & Hstable).
  cbv zeta in Hperm, Hsorted, Hstable.
  set (ranked := (sorted_reverse Z.ltb
                    (map (fun idea => (i_potential idea, idea))
                       (candidates lower hot_data))).*2) in *.
  split; [| split].
  - intros left_out Hin Hout. rewrite <- Hperm in Hin.
    rewrite <- (take_drop 10 ranked) in Hin, Hsorted.
    apply elem_of_app in Hin as [Hin | Hin]; [contradiction |].
    apply Forall_forall. intros idea Hidea.
    exact (StronglySorted_app_1_elem_of _ _ _ idea left_out Hsorted Hidea Hin).
  - intros Hfew. rewrite take_ge; [exact Hperm |]. rewrite Hperm. exact Hfew.
  - intros p. rewrite <- Hstable. rewrite <- (take_drop 10 ranked) at 2.
    rewrite List.filter_app. apply prefix_app_r. reflexivity.
Qed.

End HotTopicsFacts.

(** ** Listing ideas *)
Section StringOrder.

Lemma string_compare_refl (s : string) : String.compare s s = Eq.
Proof.
  induction s as [| c s IH]; simpl; [reflexivity |].
  unfold Ascii.compare. rewrite N.compare_refl. exact IH.
Qed.

Lemma string_ltb_irrefl (s : string) : String.ltb s s = false.
Proof. unfold String.ltb. rewrite string_compare_refl. reflexivity. Qed.

Lemma string_compare_cotrans (a c : string) :
  String.compare a c = Lt -> forall b, String.compare a b = Lt \/ String.compare b c = Lt.
Proof.
  revert c. induction a as [| x a IH]; intros [| z c] H [| y b];
    cbn [String.compare] in *; try discriminate; auto.
  unfold Ascii.compare in *.
  destruct (N.compare_spec (N_of_ascii x) (N_of_ascii z)) as [Hxz | Hxz | Hxz];
    try discriminate;
    destruct (N.compare_spec (N_of_ascii x) (N_of_ascii y)) as [Hxy | Hxy | Hxy];
    destruct (N.compare_spec (N_of_ascii y) (N_of_ascii z)) as [Hyz | Hyz | Hyz];
    try lia; eauto.
Qed.

Lemma string_ltb_asym (a b : string) : String.ltb a b = true -> String.ltb b a = false.
Proof.
  unfold String.ltb. rewrite (String.compare_antisym a b).
  destruct (String.compare b a); simpl; congruence.
Qed.

Lemma string_ltb_cotrans (a b c : string) :
  String.ltb a c = true -> String.ltb a b = true \/ String.ltb b c = true.
Proof.
  unfold String.ltb. intros H.
  destruct (String.compare a c) eqn:Hac; try discriminate.
  destruct (string_compare_cotrans a c Hac b) as [-> | ->]; auto.
Qed.

Lemma string_ltb_trans (a b c : string) :
  String.ltb a b = true -> String.ltb b c = true -> String.ltb a c = true.
Proof.
  intros Hab Hbc. destruct (string_ltb_cotrans a c b Hab) as [H | H]; [exact H |].
  apply string_ltb_asym in H. congruence.
Qed.

Lemma string_ltb_not_lt_trans (a b c : string) :
  String.ltb a b = false -> String.ltb b c = false -> String.ltb a c = false.
Proof.
  intros Hab Hbc. destruct (String.ltb a c) eqn:Hac; [| reflexivity].
  destruct (string_ltb_cotrans a b c Hac); congruence.
Qed.

End StringOrder.

Section CheckedSort.
Import Py.
Local Open Scope list_scope.

Context {A : Type} (ltR : A -> A -> Result bool) (lt : A -> A -> bool) (P : A -> Prop).

(** On the elements satisfying [P] the comparison never raises. *)
Hypothesis agree : forall a b, P a -> P b -> ltR a b = Ok (lt a b).

Lemma insert_by_checked_agree (x : A) (l : list A) :
  P x -> Forall P l -> insert_by_checked ltR x l = Ok (insert_by lt x l).
Proof.
  intros Hx. induction 1 as [| y l Hy Hl IH]; simpl; [reflexivity |].
  rewrite (agree x y Hx Hy). simpl. destruct (lt x y); [reflexivity |].
  rewrite IH. reflexivity.
Qed.

Lemma insert_by_Forall (x : A) (l : list A) :
  P x -> Forall P l -> Forall P (insert_by lt x l).
Proof.
  intros Hx. induction 1 as [| y l Hy Hl IH]; simpl; [repeat constructor; exact Hx |].
  destruct (lt x y); repeat constructor; auto.
Qed.

Lemma stable_sort_checked_agree (l : list A) :
  Forall P l -> stable_sort_checked ltR l = Ok (stable_sort lt l).
Proof.
  unfold stable_sort_checked, stable_sort.
  assert (H : forall acc, Forall P acc -> Forall P l ->
            foldl (fun acc x => rbind acc (fun acc => insert_by_checked ltR x acc)) (Ok acc) l
            = Ok (foldl (fun acc x => insert_by lt x acc) acc l)).
  { induction l as [| x l IH]; intros acc Hacc Hl; simpl; [reflexivity |].
    inversion Hl as [| ? ? Hx Hl']; subst.
    rewrite (insert_by_checked_agree x acc Hx Hacc).
    apply IH; [apply insert_by_Forall; assumption | exact Hl']. }
  intros Hl. apply H; [constructor | exact Hl].
Qed.

End CheckedSort.

Section KeyedSort.
Import Py.
Local Open Scope list_scope.

Context {K A : Type} (ltK : K -> K -> bool) (key : A -> K).

Lemma insert_by_with_key (x : A) (l : list A) :
  insert_by (fun a b => ltK (fst a) (fst b)) (with_key key x) (map (with_key key) l)
  = map (with_key key) (insert_by (by_key ltK key) x l).
Proof.
  induction l as [| y l IH]; simpl; [reflexivity |].
  unfold by_key at 1. destruct (ltK (key x) (key y)); simpl; [reflexivity |].
  rewrite IH. reflexivity.
Qed.

Lemma stable_sort_with_key (l : list A) :
  stable_sort (fun a b => ltK (fst a) (fst b)) (map (with_key key) l)
  = map (with_key key) (stable_sort (by_key ltK key) l).
Proof.
  unfold stable_sort.
  change (@nil (K * A)) with (map (with_key key) []).
  generalize (@nil A). induction l as [| x l IH]; intros acc; simpl; [reflexivity |].
  rewrite insert_by_with_key. apply IH.
Qed.

Lemma zip_with_key (l : list A) : zip (map key l) l = map (with_key key) l.
Proof. induction l as [| x l IH]; simpl; [reflexivity |]. rewrite IH. reflexivity. Qed.

Lemma with_key_snd (l : list A) : (map (with_key key) l).*2 = l.
Proof. induction l as [| x l IH]; simpl; [reflexivity |]. f_equal. exact IH. Qed.

End KeyedSort.

Section ListIdeasFacts.
Import Py Pool.
Local Open Scope pool_scope.
Local Open Scope list_scope.

Variable json_dump : Value -> string.

Lemma filterR_dated (status : string) (l : list Value) :
  Forall dated l ->
  filterR (fun i => rbind (dict_get i "status" VNone)
                      (fun st => Ok (py_eq st (VStr status)))) l
  = Ok (List.filter (has_status status) l).
Proof.
  induction 1 as [| x l (d & -> & _) _ IH]; simpl; [reflexivity |].
  rewrite IH. unfold has_status, field.
  destruct (d !! "status") as [v |]; simpl; [| reflexivity].
  destruct (py_eq v (VStr status)); reflexivity.
Qed.

Lemma keys_dated (l : list Value) :
  Forall dated l ->
  mapR (fun x => dict_get x "created_at" (VStr "")) l
  = Ok (map (fun x => VStr (created_at x)) l).
Proof.
  induction 1 as [| x l (d & -> & Hd) _ IH]; simpl; [reflexivity |].
  rewrite IH. unfold created_at, field.
  destruct Hd as [-> | (t & ->)]; reflexivity.
Qed.

Lemma selected_dated (status : option string) (l : list Value) :
  Forall dated l -> Forall dated (selected status l).
Proof.
  intros H. unfold selected. destruct (truthy status); [| exact H].
  rewrite Forall_forall in H |- *. intros x Hx.
  apply list_elem_of_In, filter_In in Hx as [Hx _]. apply H, list_elem_of_In, Hx.
Qed.

Lemma sorted_by_created_at (l : list Value) :
  sorted_reverse_checked py_lt (zip (map (fun x => VStr (created_at x)) l) l)
  = Ok (map (with_key (fun x => VStr (created_at x)))
          (rev (stable_sort created_before (rev l)))).
Proof.
  rewrite zip_with_key. unfold sorted_reverse_checked. rewrite <- map_rev.
  rewrite (stable_sort_checked_agree _ (fun a b => str_key_lt (fst a) (fst b))
             (fun e => exists t, fst e = VStr t)).
  - simpl. rewrite stable_sort_with_key, <- map_rev. reflexivity.
  - intros [ka a] [kb b] [ta Ha] [tb Hb]. simpl in *. subst. reflexivity.
  - apply Forall_forall. intros e He.
    apply list_elem_of_In, in_map_iff in He as (x & <- & _). simpl. eauto.
Qed.

Lemma list_ideas_run (s : State) (records : list Value) (status : option string)
    (limit : Z) :
  ideas s = VList records -> Forall dated records ->
  list_ideas status limit s
  = (Ok (slice_to limit (rev (stable_sort created_before (rev (selected status records))))),
     s).
Proof.
  intros Hideas Hdated. pose proof (selected_dated status records Hdated) as Hsel.
  unfold list_ideas, selected in *. unfold bind, get, lift, ret. rewrite Hideas.
  destruct (truthy status); cbn [iter_elems].
  - rewrite (filterR_dated _ _ Hdated). cbn [iter_elems].
    rewrite (keys_dated _ Hsel), sorted_by_created_at, with_key_snd. reflexivity.
  - rewrite (keys_dated _ Hsel), sorted_by_created_at, with_key_snd. reflexivity.
Qed.

Lemma newest_first_spec (l : list Value) :
  let ranked := rev (stable_sort created_before (rev l)) in
  ranked ≡ₚ l
  /\ StronglySorted (descending created_before) ranked
  /\ forall x, List.filter (tied created_before x) ranked
               = List.filter (tied created_before x) l.
Proof.
  intros ranked. subst ranked.
  destruct (stable_sort_spec created_before (fun _ => True)
              (fun a _ => string_ltb_irrefl _)
              (fun a b c _ _ _ => string_ltb_trans _ _ _)
              (fun a b c _ _ _ => string_ltb_not_lt_trans _ _ _)
              (rev l)) as (Hperm & Hsorted & Hstable).
  { apply Forall_forall. auto. }
  split; [| split].
  - rewrite <- Permutation_rev, Hperm, <- Permutation_rev. reflexivity.
  - apply StronglySorted_rev. exact Hsorted.
  - intros x. rewrite List.filter_rev, Hstable by exact I.
    rewrite List.filter_rev. apply rev_involutive.
Qed.

(** X20: on a collection of records whose creation times are strings,
    [list_ideas] changes nothing and returns a slice of the ranked
    selection: the records with the status asked for (all of them for
    [None] or the empty string), newest first, records of the same
    creation time in stored order. *)
Theorem list_ideas_newest_first (s : State) (records : list Value)
    (status : option string) (limit : Z) :
  ideas s = VList records -> Forall dated records ->
  exists ranked,
    list_ideas status limit s = (Ok (slice_to limit ranked), s)
    /\ ranked ≡ₚ selected status records
    /\ StronglySorted (descending created_before) ranked
    /\ forall x, List.filter (tied created_before x) ranked
                 = List.filter (tied created_before x) (selected status records).
Proof.
  intros Hideas Hdated.
  exists (rev (stable_sort created_before (rev (selected status records)))).
  split; [apply list_ideas_run; assumption | apply newest_first_spec].
Qed.


Lemma filterR_non_record (status : string) (l : list Value) (x : Value) :
  x ∈ l -> (forall d, x <> VDict d) ->
  filterR (fun i => rbind (dict_get i "status" VNone)
                      (fun st => Ok (py_eq st (VStr status)))) l
  = Raise AttributeError.
Proof.
  intros Hin Hx. induction l as [| y l IH]; [inversion Hin |].
  destruct y; try reflexivity.
  apply elem_of_cons in Hin as [-> | Hin]; [exfalso; eapply Hx; reflexivity |].
  simpl. rewrite (IH Hin). reflexivity.
Qed.

Lemma keys_non_record (l : list Value) (x : Value) :
  x ∈ l -> (forall d, x <> VDict d) ->
  mapR (fun x => dict_get x "created_at" (VStr "")) l = Raise AttributeError.
Proof.
  intros Hin Hx. induction l as [| y l IH]; [inversion Hin |].
  destruct y; try reflexivity.
  apply elem_of_cons in Hin as [-> | Hin]; [exfalso; eapply Hx; reflexivity |].
  simpl. rewrite (IH Hin). reflexivity.
Qed.

(** X22: when the collection holds an element that is not an object,
    [list_ideas] raises [AttributeError] whatever the other arguments
    are, and changes nothing. *)
Theorem list_ideas_needs_records (s : State) (records : list Value) (x : Value)
    (status : option string) (limit : Z) :
  ideas s = VList records -> x ∈ records -> (forall d, x <> VDict d) ->
  list_ideas status limit s = (Raise AttributeError, s).
Proof.
  intros Hideas Hin Hx. unfold list_ideas, bind, get, lift, ret. rewrite Hideas.
  destruct (truthy status); cbn [iter_elems].
  - rewrite (filterR_non_record _ _ _ Hin Hx). reflexivity.
  - rewrite (keys_non_record _ _ Hin Hx). reflexivity.
Qed.

Lemma stored_idea_created_at (idea : gmap string Value) (now1 now2 : datetime) :
  created_at (VDict (stored_idea idea now1 now2)) = isoformat now2.
Proof.
  unfold created_at, field, stored_idea.
  rewrite !lookup_insert_ne by discriminate. rewrite lookup_insert_eq. reflexivity.
Qed.

(** X23: an idea added with a creation time later than that of every
    record in the collection is the one that [list_ideas] lists first:
    with a limit of 1 it is the whole result. *)
Theorem added_idea_is_listed_first (s : State) (records : list Value)
    (idea : gmap string Value) :
  ideas s = VList records -> Forall dated records ->
  Forall (fun x => String.ltb (created_at x) (isoformat (clock s (S (ticks s)))) = true)
    records ->
  exists idea_id s',
    add_idea json_dump idea s = (Ok idea_id, s')
    /\ list_ideas None 1 s'
       = (Ok [VDict (stored_idea idea (clock s (ticks s)) (clock s (S (ticks s))))], s').
Proof.
  intros Hideas Hdated Hfresh.
  rewrite add_idea_unfold. cbv zeta. rewrite Hideas. cbn [append].
  eexists _, _. split; [reflexivity |].
  set (new := VDict (stored_idea idea (clock s (ticks s)) (clock s (S (ticks s))))).
  assert (Hnew : dated new).
  { eexists. split; [reflexivity |]. right. eexists. unfold stored_idea.
    rewrite !lookup_insert_ne by discriminate. apply lookup_insert_eq. }
  erewrite (list_ideas_run _ (records ++ [new]));
    [| reflexivity | apply Forall_app; split; [exact Hdated | repeat constructor; exact Hnew]].
  unfold selected. cbn [truthy]. do 2 f_equal.
  destruct (newest_first_spec (records ++ [new])) as (Hperm & Hsorted & _).
  cbv zeta in Hperm, Hsorted.
  remember (rev (stable_sort created_before (rev (records ++ [new])))) as ranked eqn:E.
  clear E. destruct ranked as [| h tl].
  { apply Permutation_length in Hperm. rewrite length_app in Hperm. simpl in Hperm. lia. }
  unfold slice_to. simpl. f_equal.
  assert (Hin : new ∈ h :: tl) by (rewrite Hperm; apply elem_of_app; right; constructor).
  assert (Hh : h ∈ records ++ [new]) by (rewrite <- Hperm; constructor).
  apply elem_of_app in Hh as [Hh | Hh]; [| apply list_elem_of_singleton in Hh; exact Hh].
  apply elem_of_cons in Hin as [Hin | Hin]; [symmetry; exact Hin |].
  exfalso. inversion Hsorted as [| ? ? _ Hbelow]; subst.
  rewrite Forall_forall in Hbelow, Hfresh.
  specialize (Hbelow new Hin). specialize (Hfresh h Hh).
  unfold descending, created_before in Hbelow. subst new.
  rewrite stored_idea_created_at in Hbelow. congruence.
Qed.

End ListIdeasFacts.

(** ** Further evaluated examples *)
Section MoreExamples.
Import Py Config Generator Pool.
Local Open Scope list_scope.


Lemma add_idea_same_second_collides_witness :
  ideas slow_pool = VList []
  /\ strftime (slow_clock 2) = strftime (slow_clock 0)
  /\ exists stored1 stored2 s1 s2,
       add_idea sample_json_dump idea_a slow_pool = (Ok "idea-20261104072400", s1)
       /\ add_idea sample_json_dump idea_b s1 = (Ok "idea-20261104072400", s2)
       /\ ideas s2 = VList [VDict stored1; VDict stored2]
       /\ get_idea "idea-20261104072400" s2 = (Ok (VDict stored1), s2).
Proof.
  assert (Hideas : ideas slow_pool = VList []) by reflexivity.
  assert (Hsame : strftime (slow_clock 2) = strftime (slow_clock 0)) by reflexivity.
  split; [exact Hideas |]. split; [exact Hsame |].
  destruct (add_idea_same_second_collides sample_json_dump slow_pool [] idea_a idea_b
              Hideas (Forall_nil_2 _) Hsame)
    as (stored1 & stored2 & s1 & s2 & Hadd1 & Hadd2 & Hall & _ & _ & _ & Hget).
  exists stored1, stored2, s1, s2.
  split; [exact Hadd1 |]. split; [exact Hadd2 |]. split; [exact Hall | exact Hget].
Defined.

Lemma start_execution_marks_idea_witness :
  ideas (after_calls [AddIdea scored_idea]) = VList ([] ++ VDict first_idea :: [])
  /\ executions (after_calls [AddIdea scored_idea]) = VList []
  /\ first_idea !! "id" = Some (VStr "idea-20261104072400")
  /\ exists s',
       start_execution sample_json_dump "idea-20261104072400"
         (after_calls [AddIdea scored_idea])
       = (Ok "exec-20261104072402", s')
       /\ ideas s' = VList [VDict the_idea]
       /\ the_idea !! "status" = Some (VStr "in_progress").
Proof.
  assert (Hideas : ideas (after_calls [AddIdea scored_idea])
                   = VList ([] ++ VDict first_idea :: [])) by (vm_compute; reflexivity).
  assert (Hexecs : executions (after_calls [AddIdea scored_idea]) = VList [])
    by (vm_compute; reflexivity).
  assert (Hid : first_idea !! "id" = Some (VStr "idea-20261104072400"))
    by (vm_compute; reflexivity).
  split; [exact Hideas |]. split; [exact Hexecs |]. split; [exact Hid |].
  destruct (start_execution_marks_idea sample_json_dump (after_calls [AddIdea scored_idea])
              [] [] [] first_idea "idea-20261104072400" Hideas Hexecs (Forall_nil_2 _) Hid)
    as (s' & Hrun & Hs' & Hstatus & _).
  exists s'. split; [exact Hrun |]. split; [exact Hs' | exact Hstatus].
Defined.

Lemma start_execution_unknown_idea_witness :
  ideas fresh_pool = VList []
  /\ executions fresh_pool = VList []
  /\ exists s',
       start_execution sample_json_dump "idea-19990101000000" fresh_pool
       = (Ok "exec-20261104072400", s')
       /\ ideas s' = VList []
       /\ executions s'
          = VList [VDict (started_execution "exec-20261104072400" "idea-19990101000000"
                            (sample_clock 1))].
Proof.
  assert (Hideas : ideas fresh_pool = VList []) by reflexivity.
  assert (Hexecs : executions fresh_pool = VList []) by reflexivity.
  split; [exact Hideas |]. split; [exact Hexecs |].
  destruct (start_execution_unknown_idea sample_json_dump fresh_pool [] []
              "idea-19990101000000" Hideas Hexecs (Forall_nil_2 _))
    as (s' & Hrun & Hs' & _ & Hexecs').
  exists s'. split; [exact Hrun |]. split; [exact Hs' | exact Hexecs'].
Defined.

Lemma complete_execution_cascades_witness :
  executions (after_calls started) = VList ([] ++ VDict the_execution :: [])
  /\ the_execution !! "id" = Some (VStr "exec-20261104072402")
  /\ the_execution !! "idea_id" = Some (VStr "idea-20261104072400")
  /\ ideas (after_calls started) = VList ([] ++ VDict the_idea :: [])
  /\ the_idea !! "id" = Some (VStr "idea-20261104072400")
  /\ exists s',
       complete_execution sample_json_dump "exec-20261104072402" true (Some "shipped")
         (after_calls started)
       = (Ok true, s')
       /\ ideas s'
          = VList [VDict (updated_idea "completed" (Some "shipped") (sample_clock 6) the_idea)].
Proof.
  assert (Hexecs : executions (after_calls started)
                   = VList ([] ++ VDict the_execution :: [])) by (vm_compute; reflexivity).
  assert (Hid : the_execution !! "id" = Some (VStr "exec-20261104072402"))
    by (vm_compute; reflexivity).
  assert (Hof : the_execution !! "idea_id" = Some (VStr "idea-20261104072400"))
    by (vm_compute; reflexivity).
  assert (Hideas : ideas (after_calls started) = VList ([] ++ VDict the_idea :: []))
    by (vm_compute; reflexivity).
  assert (Hidea : the_idea !! "id" = Some (VStr "idea-20261104072400"))
    by (vm_compute; reflexivity).
  split; [exact Hexecs |]. split; [exact Hid |]. split; [exact Hof |].
  split; [exact Hideas |]. split; [exact Hidea |].
  destruct (complete_execution_cascades sample_json_dump (after_calls started)
              [] [] [] [] the_execution the_idea
              "exec-20261104072402" "idea-20261104072400" true (Some "shipped")
              Hexecs (Forall_nil_2 _) Hid Hof Hideas (Forall_nil_2 _) Hidea)
    as (s' & Hrun & _ & Hs' & _).
  exists s'. split; [exact Hrun | exact Hs'].
Defined.

Lemma unknown_execution_id_is_refused_witness :
  executions fresh_pool = VList []
  /\ add_execution_step sample_json_dump "exec-19990101000000" "publish" "completed"
       fresh_pool
     = (Ok false, fresh_pool)
  /\ complete_execution sample_json_dump "exec-19990101000000" true None fresh_pool
     = (Ok false, fresh_pool).
Proof.
  assert (Hexecs : executions fresh_pool = VList []) by reflexivity.
  split; [exact Hexecs |].
  destruct (unknown_execution_id_is_refused sample_json_dump fresh_pool []
              "exec-19990101000000" Hexecs (Forall_nil_2 _)) as (Hstep & _ & Hdone).
  split; [apply Hstep | apply Hdone].
Defined.

Lemma execution_trail_is_appended_witness :
  executions (after_calls started) = VList ([] ++ VDict the_execution :: [])
  /\ the_execution !! "id" = Some (VStr "exec-20261104072402")
  /\ the_execution !! "steps" = Some (VList [])
  /\ the_execution !! "logs" = Some (VList [])
  /\ exists s',
       add_execution_log sample_json_dump "exec-20261104072402" "first customer"
         (after_calls started)
       = (Ok true, s').
Proof.
  assert (Hexecs : executions (after_calls started)
                   = VList ([] ++ VDict the_execution :: [])) by (vm_compute; reflexivity).
  assert (Hid : the_execution !! "id" = Some (VStr "exec-20261104072402"))
    by (vm_compute; reflexivity).
  assert (Hsteps : the_execution !! "steps" = Some (VList [])) by (vm_compute; reflexivity).
  assert (Hlogs : the_execution !! "logs" = Some (VList [])) by (vm_compute; reflexivity).
  split; [exact Hexecs |]. split; [exact Hid |]. split; [exact Hsteps |].
  split; [exact Hlogs |].
  destruct (execution_trail_is_appended sample_json_dump (after_calls started) [] []
              the_execution "exec-20261104072402" [] [] Hexecs (Forall_nil_2 _)
              Hid Hsteps Hlogs) as (_ & Hlog).
  destruct (Hlog "first customer") as (s' & Hrun & _).
  exists s'. exact Hrun.
Defined.

Lemma record_without_id_raises_witness :
  ideas nameless_pool = VList ([] ++ VDict ∅ :: [])
  /\ get_idea "idea-20261104072400" nameless_pool = (Raise KeyError, nameless_pool).
Proof.
  assert (Hideas : ideas nameless_pool = VList ([] ++ VDict ∅ :: [])) by reflexivity.
  split; [exact Hideas |].
  exact (proj2 (record_without_id_raises sample_json_dump nameless_pool [] [] ∅
                  "idea-20261104072400" Hideas (Forall_nil_2 _) (lookup_empty _))).
Defined.

Lemma unchecked_collection_breaks_add_idea_witness :
  ideas_json object_disk = Content "{}"
  /\ object_json_load "{}" = Some (VDict ∅)
  /\ exists s',
       add_idea sample_json_dump scored_idea
         (new_pool object_json_load object_disk sample_clock)
       = (Raise AttributeError, s').
Proof.
  assert (Hfile : ideas_json object_disk = Content "{}") by reflexivity.
  assert (Hload : object_json_load "{}" = Some (VDict ∅)) by reflexivity.
  split; [exact Hfile |]. split; [exact Hload |].
  destruct (unchecked_collection_breaks_add_idea sample_json_dump object_json_load
              object_disk sample_clock "{}" (VDict ∅) scored_idea Hfile Hload)
    as (_ & s' & Hrun & _).
  { intros l H. discriminate H. }
  exists s'. exact Hrun.
Defined.

Lemma expected_income_choice_witness :
  IDEA_TEMPLATES !! "consulting" = Some consulting
  /\ 5000 <= (_adjust_for_user Str.ascii_lower consulting rich_and_busy).1.2 <= 20000.
Proof.
  assert (Htemplate : IDEA_TEMPLATES !! "consulting" = Some consulting)
    by (vm_compute; reflexivity).
  split; [exact Htemplate |].
  exact (proj1 (proj2 (expected_income_choice Str.ascii_lower "consulting" consulting
                         rich_and_busy Htemplate))).
Defined.

Lemma rank_ideas_idempotent_witness :
  mapR get_score [idea_b; idea_a; idea_c] = Ok [21; 30; 21]%float
  /\ exists ranked,
       rank_ideas [idea_b; idea_a; idea_c] = Ok ranked /\ rank_ideas ranked = Ok ranked.
Proof.
  assert (Hkeys : mapR get_score [idea_b; idea_a; idea_c] = Ok [21; 30; 21]%float)
    by (vm_compute; reflexivity).
  split; [exact Hkeys |].
  apply (rank_ideas_idempotent [idea_b; idea_a; idea_c] [21; 30; 21]%float Hkeys).
  repeat constructor.
Defined.

Lemma the_idea_dated : dated (VDict the_idea).
Proof.
  exists the_idea. split; [reflexivity |]. right.
  exists "2026-11-04T07:24:01.000042". vm_compute. reflexivity.
Defined.

Lemma first_idea_dated : dated (VDict first_idea).
Proof.
  exists first_idea. split; [reflexivity |]. right.
  exists "2026-11-04T07:24:01.000042". vm_compute. reflexivity.
Defined.

Lemma list_ideas_newest_first_witness :
  ideas (after_calls started) = VList [VDict the_idea]
  /\ Forall dated [VDict the_idea]
  /\ exists ranked,
       list_ideas (Some "in_progress") 10 (after_calls started)
       = (Ok (slice_to 10 ranked), after_calls started)
       /\ ranked ≡ₚ [VDict the_idea].
Proof.
  assert (Hideas : ideas (after_calls started) = VList [VDict the_idea])
    by (vm_compute; reflexivity).
  assert (Hdated : Forall dated [VDict the_idea])
    by (constructor; [exact the_idea_dated | constructor]).
  split; [exact Hideas |]. split; [exact Hdated |].
  destruct (list_ideas_newest_first (after_calls started) [VDict the_idea]
              (Some "in_progress") 10 Hideas Hdated) as (ranked & Hrun & Hperm & _).
  exists ranked. split; [exact Hrun |].
  rewrite Hperm. vm_compute. reflexivity.
Defined.


Lemma list_ideas_needs_records_witness :
  ideas stray_pool = VList [VStr "note"]
  /\ list_ideas None 10 stray_pool = (Raise AttributeError, stray_pool).
Proof.
  assert (Hideas : ideas stray_pool = VList [VStr "note"]) by reflexivity.
  split; [exact Hideas |].
  apply (list_ideas_needs_records stray_pool [VStr "note"] (VStr "note") None 10 Hideas).
  - constructor.
  - intros d H. discriminate H.
Defined.

Lemma added_idea_is_listed_first_witness :
  ideas (after_calls [AddIdea scored_idea]) = VList [VDict first_idea]
  /\ Forall dated [VDict first_idea]
  /\ String.ltb (created_at (VDict first_idea)) (isoformat (sample_clock 3)) = true
  /\ exists idea_id s',
       add_idea sample_json_dump idea_a (after_calls [AddIdea scored_idea]) = (Ok idea_id, s')
       /\ list_ideas None 1 s'
          = (Ok [VDict (stored_idea idea_a (sample_clock 2) (sample_clock 3))], s').
Proof.
  assert (Hideas : ideas (after_calls [AddIdea scored_idea]) = VList [VDict first_idea])
    by (vm_compute; reflexivity).
  assert (Hdated : Forall dated [VDict first_idea])
    by (constructor; [exact first_idea_dated | constructor]).
  assert (Holder : String.ltb (created_at (VDict first_idea)) (isoformat (sample_clock 3))
                   = true) by (vm_compute; reflexivity).
  split; [exact Hideas |]. split; [exact Hdated |]. split; [exact Holder |].
  destruct (added_idea_is_listed_first sample_json_dump (after_calls [AddIdea scored_idea])
              [VDict first_idea] idea_a Hideas Hdated)
    as (idea_id & s' & Hadd & Hlist).
  { constructor; [exact Holder | constructor]. }
  exists idea_id, s'. split; [exact Hadd | exact Hlist].
Defined.

End MoreExamples.

(** ** The store when a file may refuse to be written *)
Section OnDiskFacts.
Import Py Pool.
Local Open Scope pool_scope.
Local Open Scope list_scope.

Variable refused : path -> bool.
Variable json_dump : Value -> string.
Variable float_sum : list pynum -> float.








(** *** Lookups and statistics change nothing *)











(** *** Writing through *)











(** *** Records stay *)









(** *** The operations do not look at the files *)


















(** *** What [list_ideas] needs is kept *)






(** *** When every write is accepted *)

Section Accepted.

Hypothesis accepted : forall p, refused p = false.











End Accepted.

(** *** Degraded files *)

Variable json_load : string -> option Value.





End OnDiskFacts.

(** ** Evaluated examples on files that may refuse a write *)
Section OnDiskExamples.
Import Py Pool.
Local Open Scope list_scope.





End OnDiskExamples.
